(** * Casino rule engine: validators, action handlers and round lifecycle

    A shallow embedding of the game-logic modules of the two-player casino
    card game (server/game-logic/validation.js and the game-actions module)
    together with the properties stated for them.

    Conventions of the embedding
    - a JavaScript array is a [list]; [arr[i]] is stdpp's lookup [arr !! i]
      and [arr[i] = x] on a copy is [<[i:=x]> arr];
    - callbacks given to [some], [filter], [find], [findIndex] are boolean
      functions given to [existsb], [List.filter], [List.find];
    - player indices, ranks' values, rounds and ids are natural numbers;
    - identifiers produced by [generateBuildId()] and [`temp-${Date.now()}`]
      are effects of the handler: the generated id is an explicit argument. *)

From Stdlib Require Import Arith Bool List Lia Permutation.
From stdpp Require Import base list.
Import ListNotations.

Set Default Proof Using "Type".

(* ===================================================================== *)
(** ** Cards (types/gameTypes.ts) *)
(* ===================================================================== *)

(** [CardRank] *)
Inductive Rank : Type :=
  | RA | R2 | R3 | R4 | R5 | R6 | R7 | R8 | R9 | R10 | RJ | RQ | RK.

(** [CardSuit] *)
Inductive Suit : Type := Spades | Hearts | Diamonds | Clubs.

(** The [source] tag of a card or of a dragged item. *)
Inductive Source : Type :=
  | SrcHand | SrcTable | SrcCaptured | SrcOpponentCapture | SrcTemporaryStack.

#[export] Instance Rank_eq_dec : EqDecision Rank.
Proof. solve_decision. Defined.
#[export] Instance Suit_eq_dec : EqDecision Suit.
Proof. solve_decision. Defined.
#[export] Instance Source_eq_dec : EqDecision Source.
Proof. solve_decision. Defined.

(** [interface Card { rank; suit; source? }] *)
Record Card : Type := mkCard {
  rank : Rank;
  suit : Suit;
  source : option Source;
}.

#[export] Instance Card_eq_dec : EqDecision Card.
Proof. solve_decision. Defined.

(** An untagged card, as it sits in a hand, in the deck or in a capture. *)
Definition card (r : Rank) (s : Suit) : Card := mkCard r s None.

(** [{ ...c, source: src }] *)
Definition tag (src : Source) (c : Card) : Card :=
  mkCard (rank c) (suit c) (Some src).

(** [({ source, ...card }) => card], and [delete cardData.source]. *)
Definition stripSource (c : Card) : Card := mkCard (rank c) (suit c) None.

(** [a.rank === b.rank && a.suit === b.suit] *)
Definition sameCard (a b : Card) : bool :=
  bool_decide (rank a = rank b) && bool_decide (suit a = suit b).

(** [c.rank !== p.rank || c.suit !== p.suit] *)
Definition otherCard (c p : Card) : bool :=
  negb (bool_decide (rank c = rank p)) || negb (bool_decide (suit c = suit p)).

(** [c.source === src] *)
Definition hasSource (src : Source) (c : Card) : bool :=
  bool_decide (source c = Some src).

(** Modelled from the spec: [rankValue] of card-operations.js is not part of
    the sources at hand.  The rank maps to its numeric value, Ace being 1 and
    the pip cards their number; the face cards carry no build value (here 11,
    12, 13, above the largest legal build of 10). *)
Definition rankValue (r : Rank) : nat :=
  match r with
  | RA => 1 | R2 => 2 | R3 => 3 | R4 => 4 | R5 => 5 | R6 => 6 | R7 => 7
  | R8 => 8 | R9 => 9 | R10 => 10 | RJ => 11 | RQ => 12 | RK => 13
  end.

(** Modelled from the spec: [calculateCardSum] of card-operations.js, the sum
    of the values of the cards. *)
Definition calculateCardSum (cards : list Card) : nat :=
  fold_right (fun c acc => rankValue (rank c) + acc) 0 cards.

(* ===================================================================== *)
(** ** Table entities and the game state (types/gameTypes.ts) *)
(* ===================================================================== *)

Record Build : Type := mkBuild {
  buildId : nat;
  bcards : list Card;
  bvalue : nat;
  bowner : nat;
  isExtendable : bool;
}.

Record TemporaryStack : Type := mkStack {
  stackId : nat;
  scards : list Card;
  sowner : nat;
}.

(** [type TableEntity = Card | Build | TemporaryStack], told apart in the
    code by the [type] field ([undefined], ['build'], ['temporary_stack']). *)
Inductive TableEntity : Type :=
  | Loose (c : Card)
  | TBuild (b : Build)
  | TStack (s : TemporaryStack).

#[export] Instance Build_eq_dec : EqDecision Build.
Proof. solve_decision. Defined.
#[export] Instance TemporaryStack_eq_dec : EqDecision TemporaryStack.
Proof. solve_decision. Defined.
#[export] Instance TableEntity_eq_dec : EqDecision TableEntity.
Proof. solve_decision. Defined.

(** The per-player score breakdown built by [calculateScores]. *)
Record ScoreDetails : Type := mkDetails {
  mostCards : nat;
  mostSpades : nat;
  bigCasino : nat;
  littleCasino : nat;
  aces : nat;
  total : nat;
  cardCount : nat;
  spadeCount : nat;
}.

Record GameState : Type := mkState {
  currentPlayer : nat;
  playerHands : list (list Card);
  tableCards : list TableEntity;
  playerCaptures : list (list (list Card));
  deck : list Card;
  round : nat;
  gameOver : bool;
  lastCapturer : option nat;
  scores : list nat;
  scoreDetails : list ScoreDetails;
  winner : option nat;
}.

#[export] Instance ScoreDetails_eq_dec : EqDecision ScoreDetails.
Proof. solve_decision. Defined.
#[export] Instance GameState_eq_dec : EqDecision GameState.
Proof. solve_decision. Defined.

(** [item.type === 'build'] and friends. *)
Definition isBuild (e : TableEntity) : bool :=
  match e with TBuild _ => true | _ => false end.
Definition isStack (e : TableEntity) : bool :=
  match e with TStack _ => true | _ => false end.

(** [s.type === 'build' && s.owner === p] *)
Definition isBuildOf (p : nat) (e : TableEntity) : bool :=
  match e with TBuild b => bowner b =? p | _ => false end.

(** [s.type === 'temporary_stack' && s.owner === p] *)
Definition isStackOf (p : nat) (e : TableEntity) : bool :=
  match e with TStack s => sowner s =? p | _ => false end.

(** [s.stackId !== id]: loose cards and builds have no [stackId]. *)
Definition stackIdIsNot (id : nat) (e : TableEntity) : bool :=
  match e with TStack s => negb (stackId s =? id) | _ => true end.

(** [b.buildId !== id]: loose cards and stacks have no [buildId]. *)
Definition buildIdIsNot (id : nat) (e : TableEntity) : bool :=
  match e with TBuild b => negb (buildId b =? id) | _ => true end.

(** [item.cards || [item]] *)
Definition entityCards (e : TableEntity) : list Card :=
  match e with
  | Loose c => [c]
  | TBuild b => bcards b
  | TStack s => scards s
  end.

(** [playerHands[p]], an absent entry read as no cards. *)
Definition handOf (hands : list (list Card)) (p : nat) : list Card :=
  default [] (hands !! p).

(** [playerCaptures[p] || []] *)
Definition capturesOf (caps : list (list (list Card))) (p : nat)
  : list (list Card) :=
  default [] (caps !! p).

(** *** [updateGameState(gameState, { ... })]: the object spread
    [{ ...gameState, ...updates }], one setter per updated field. *)

Definition setCurrentPlayer (p : nat) (g : GameState) : GameState :=
  mkState p (playerHands g) (tableCards g) (playerCaptures g) (deck g)
    (round g) (gameOver g) (lastCapturer g) (scores g) (scoreDetails g)
    (winner g).

Definition setHands (h : list (list Card)) (g : GameState) : GameState :=
  mkState (currentPlayer g) h (tableCards g) (playerCaptures g) (deck g)
    (round g) (gameOver g) (lastCapturer g) (scores g) (scoreDetails g)
    (winner g).

Definition setTable (t : list TableEntity) (g : GameState) : GameState :=
  mkState (currentPlayer g) (playerHands g) t (playerCaptures g) (deck g)
    (round g) (gameOver g) (lastCapturer g) (scores g) (scoreDetails g)
    (winner g).

Definition setCaptures (c : list (list (list Card))) (g : GameState)
  : GameState :=
  mkState (currentPlayer g) (playerHands g) (tableCards g) c (deck g)
    (round g) (gameOver g) (lastCapturer g) (scores g) (scoreDetails g)
    (winner g).

Definition setDeck (d : list Card) (g : GameState) : GameState :=
  mkState (currentPlayer g) (playerHands g) (tableCards g) (playerCaptures g)
    d (round g) (gameOver g) (lastCapturer g) (scores g) (scoreDetails g)
    (winner g).

Definition setRound (r : nat) (g : GameState) : GameState :=
  mkState (currentPlayer g) (playerHands g) (tableCards g) (playerCaptures g)
    (deck g) r (gameOver g) (lastCapturer g) (scores g) (scoreDetails g)
    (winner g).

Definition setLastCapturer (p : option nat) (g : GameState) : GameState :=
  mkState (currentPlayer g) (playerHands g) (tableCards g) (playerCaptures g)
    (deck g) (round g) (gameOver g) p (scores g) (scoreDetails g) (winner g).

Definition setFinal (sc : list nat) (det : list ScoreDetails)
    (w : option nat) (g : GameState) : GameState :=
  mkState (currentPlayer g) (playerHands g) (tableCards g) (playerCaptures g)
    (deck g) (round g) true (lastCapturer g) sc det w.

(** Modelled from the spec: [nextPlayer] of game-state.js is not part of the
    sources at hand; the turn passes to the other player,
    [(currentPlayer + 1) % 2]. *)
Definition nextPlayer (g : GameState) : GameState :=
  setCurrentPlayer ((currentPlayer g + 1) mod 2) g.

(* ===================================================================== *)
(** ** Card operations the handlers import *)
(* ===================================================================== *)

(** The first card of [h] with the rank and suit of [c], and the rest. *)
Fixpoint takeCard (c : Card) (h : list Card) : option (Card * list Card) :=
  match h with
  | [] => None
  | x :: rest =>
      if sameCard x c then Some (x, rest)
      else match takeCard c rest with
           | Some (found, rest') => Some (found, x :: rest')
           | None => None
           end
  end.

(** Modelled from the spec: [removeCardFromHand] of card-operations.js is not
    part of the sources at hand.  It removes one whole card from the hand of
    the player, two cards being equal iff rank and suit match, and answers
    [{ updatedHands, cardRemoved }], or [null] when the card is not found. *)
Definition removeCardFromHand (hands : list (list Card)) (p : nat) (c : Card)
  : option (list (list Card) * Card) :=
  match hands !! p with
  | None => None
  | Some h =>
      match takeCard c h with
      | None => None
      | Some (found, rest) => Some (<[p:=rest]> hands, found)
      end
  end.

(** The test [handleCapture] applies to decide that the table item [item] is
    one of the selected items: builds by [buildId], stacks by [stackId],
    loose cards by rank and suit. *)
Definition sameItem (item captured : TableEntity) : bool :=
  match item, captured with
  | TBuild b, TBuild b' => buildId b =? buildId b'
  | TStack s, TStack s' => stackId s =? stackId s'
  | Loose c, Loose c' => sameCard c c'
  | _, _ => false
  end.

(** Modelled from the spec: [removeCardsFromTable] of card-operations.js is
    not part of the sources at hand.  It answers a fresh array without the
    given items, table items being identified as [handleCapture] does when it
    removes the captured items itself. *)
Definition removeCardsFromTable (table items : list TableEntity)
  : list TableEntity :=
  List.filter (fun item => negb (existsb (sameItem item) items)) table.

(** Insertion of [c] before the first card that is not of greater value. *)
Fixpoint insertByRank (c : Card) (l : list Card) : list Card :=
  match l with
  | [] => [c]
  | x :: rest =>
      if rankValue (rank x) <=? rankValue (rank c) then c :: x :: rest
      else x :: insertByRank c rest
  end.

(** [cards.sort((a, b) => rankValue(b.rank) - rankValue(a.rank))]: a stable
    sort, bigger cards first. *)
Definition sortDescending (cards : list Card) : list Card :=
  fold_right insertByRank [] cards.

(** Modelled from the spec: [sortCardsByRank] of card-operations.js is not
    part of the sources at hand; bigger cards go to the bottom of a pile, as
    in the comparator the handlers write out themselves. *)
Definition sortCardsByRank (cards : list Card) : list Card :=
  sortDescending cards.

(** Modelled from the spec: [createCaptureStack] of card-operations.js is not
    part of the sources at hand.  The capturing card and the captured cards
    move into the capture set as one group (the capturing card on top), with
    the opponent's card when one is used.  [handleCapture] relies on this:
    when it finalizes a stack it takes the capturing card out of the captured
    cards "to avoid duplication in the capture pile". *)
Definition createCaptureStack (capturing : Card) (captured : list Card)
    (opponentCard : option Card) : list Card :=
  captured ++ match opponentCard with Some o => [o] | None => [] end
           ++ [capturing].

(* ===================================================================== *)
(** ** The partition algorithm *)
(* ===================================================================== *)

(** Every way of taking [v] out of one of the groups still to be filled. *)
Fixpoint placeInto (v : nat) (bins : list nat) : list (list nat) :=
  match bins with
  | [] => []
  | b :: rest =>
      (if v <=? b then [(b - v) :: rest] else [])
        ++ map (cons b) (placeInto v rest)
  end.

(** Backtracking search: every value is placed in some group, and every
    group is filled exactly. *)
Fixpoint fillGroups (vals : list nat) (bins : list nat) : bool :=
  match vals with
  | [] => forallb (Nat.eqb 0) bins
  | v :: rest => existsb (fillGroups rest) (placeInto v bins)
  end.

(** Modelled from the spec: [canPartitionIntoSums] of algorithms.js is not
    part of the sources at hand.  The cards can be split into one or more
    non-empty disjoint groups, each summing to [target]; no cards give
    [false], and a total that is no multiple of the target is rejected before
    the search. *)
Definition canPartitionIntoSums (cards : list Card) (target : nat) : bool :=
  match cards with
  | [] => false
  | _ =>
      let sum := calculateCardSum cards in
      if target =? 0 then false
      else if sum mod target =? 0
           then fillGroups (map (fun c => rankValue (rank c)) cards)
                           (repeat target (sum / target))
           else false
  end.

(* ===================================================================== *)
(** ** Validators (server/game-logic/validation.js) *)
(* ===================================================================== *)

(** The answer of a validator: [{ valid: true, newValue? }] or
    [{ valid: false, message }]; the message is kept as a reason code. *)
Inductive Reason : Type :=
  | OneActiveBuild
  | NoCaptureCard (value : nat)
  | OpponentHasSameBuild (value : nat)
  | TrailWithActiveBuild
  | OwnBuild
  | ExtendWithActiveBuild
  | NotExtendable
  | OverTen (value : nat)
  | CannotExtendOwnBuild
  | NeedsOneHandCard
  | NoPartition (value : nat)
  | MergeNotOwnBuild
  | TableCardsOnly
  | NotOpponentBuild
  | NoHandCardAllowed.

Inductive Validation : Type :=
  | Valid (newValue : option nat)
  | Invalid (why : Reason).

Definition valid (v : Validation) : bool :=
  match v with Valid _ => true | Invalid _ => false end.

(** [hasActiveBuild]: a build of the player that carries an [isExtendable]
    field, which every [Build] does. *)
Definition hasActiveBuild (tableCards : list TableEntity) (playerIndex : nat)
  : bool :=
  existsb (fun item =>
             match item with
             | TBuild b => (bowner b =? playerIndex) && true
             | _ => false
             end) tableCards.

(** [playerHand.some(c => rankValue(c.rank) === v && (c.rank !== p.rank ||
    c.suit !== p.suit))] *)
Definition holdsOther (playerHand : list Card) (playerCard : Card) (v : nat)
  : bool :=
  existsb (fun c => (rankValue (rank c) =? v) && otherCard c playerCard)
          playerHand.

Definition validateBuild (playerHand : list Card) (playerCard : Card)
    (buildValue : nat) (tableCards : list TableEntity) (playerIndex : nat)
  : Validation :=
  if hasActiveBuild tableCards playerIndex then Invalid OneActiveBuild
  else if negb (holdsOther playerHand playerCard buildValue)
  then Invalid (NoCaptureCard buildValue)
  else if existsb (fun item =>
                     match item with
                     | TBuild b => negb (bowner b =? playerIndex)
                                   && (bvalue b =? buildValue)
                     | _ => false
                     end) tableCards
  then Invalid (OpponentHasSameBuild buildValue)
  else Valid None.

Definition validateTrail (tableCards : list TableEntity) (c : Card)
    (playerIndex : nat) (round : nat) : Validation :=
  if (round =? 1) && hasActiveBuild tableCards playerIndex
  then Invalid TrailWithActiveBuild
  else if hasActiveBuild tableCards playerIndex then Invalid OneActiveBuild
  else Valid None.

Definition validateAddToOpponentBuild (build : Build) (playerCard : Card)
    (playerHand : list Card) (tableCards : list TableEntity)
    (playerIndex : nat) : Validation :=
  if bowner build =? playerIndex then Invalid OwnBuild
  else if hasActiveBuild tableCards playerIndex
  then Invalid ExtendWithActiveBuild
  else if negb (isExtendable build) || (5 <=? length (bcards build))
  then Invalid NotExtendable
  else
    let newValue := bvalue build + rankValue (rank playerCard) in
    if 10 <? newValue then Invalid (OverTen newValue)
    else if negb (holdsOther playerHand playerCard newValue)
    then Invalid (NoCaptureCard newValue)
    else Valid (Some newValue).

Definition validateAddToOwnBuild (build : Build) (playerCard : Card)
    (playerHand : list Card) : Validation :=
  let cardValue := rankValue (rank playerCard) in
  let remainingHand := List.filter (fun c => otherCard c playerCard) playerHand in
  if cardValue =? bvalue build then
    if negb (existsb (fun c => rankValue (rank c) =? bvalue build)
                     remainingHand)
    then Invalid (NoCaptureCard (bvalue build))
    else Valid (Some (bvalue build))
  else Invalid CannotExtendOwnBuild.

Definition validateTemporaryStackBuild (stack : TemporaryStack)
    (handCard : Card) (playerHand : list Card) (tableCards : list TableEntity)
    (currentPlayer : nat) : Validation :=
  let remainingHand := List.filter (fun c => otherCard c handCard) playerHand in
  let stackValue := calculateCardSum (scards stack) in
  let handCardValue := rankValue (rank handCard) in
  if stackValue =? handCardValue then
    if negb (existsb (fun c => rankValue (rank c) =? stackValue) remainingHand)
    then Invalid (NoCaptureCard stackValue)
    else Valid (Some stackValue)
  else
    let newBuildValue := stackValue + handCardValue in
    if 10 <? newBuildValue then Invalid (OverTen newBuildValue)
    else if negb (existsb (fun c => rankValue (rank c) =? newBuildValue)
                          remainingHand)
    then Invalid (NoCaptureCard newBuildValue)
    else Valid (Some newBuildValue).

Definition validateReinforceBuildWithStack (stack : TemporaryStack)
    (targetBuild : Build) : Validation :=
  let handCardsInStack := List.filter (hasSource SrcHand) (scards stack) in
  if negb (length handCardsInStack =? 1) then Invalid NeedsOneHandCard
  else
    let cardsForPartition := map stripSource (scards stack) in
    if negb (canPartitionIntoSums cardsForPartition (bvalue targetBuild))
    then Invalid (NoPartition (bvalue targetBuild))
    else Valid None.

Definition validateMergeIntoOwnBuild (stack : TemporaryStack)
    (targetBuild : Build) (currentPlayer : nat) : Validation :=
  if negb (bowner targetBuild =? currentPlayer) then Invalid MergeNotOwnBuild
  else if existsb (hasSource SrcHand) (scards stack) then Invalid TableCardsOnly
  else
    let cardsForPartition := map stripSource (scards stack) in
    if negb (canPartitionIntoSums cardsForPartition (bvalue targetBuild))
    then Invalid (NoPartition (bvalue targetBuild))
    else Valid None.

Definition validateReinforceOpponentBuildWithStack (stack : TemporaryStack)
    (opponentBuild : Build) (playerIndex : nat) : Validation :=
  if bowner opponentBuild =? playerIndex then Invalid NotOpponentBuild
  else if existsb (hasSource SrcHand) (scards stack)
  then Invalid NoHandCardAllowed
  else if negb (isExtendable opponentBuild) then Invalid NotExtendable
  else
    let cardsForPartition := map stripSource (scards stack) in
    if negb (canPartitionIntoSums cardsForPartition (bvalue opponentBuild))
    then Invalid (NoPartition (bvalue opponentBuild))
    else Valid None.

(** [[...new Set(values)]]: the distinct values, in order of first
    occurrence. *)
Fixpoint uniqueValues (seen : list nat) (values : list nat) : list nat :=
  match values with
  | [] => []
  | v :: rest =>
      if existsb (Nat.eqb v) seen then uniqueValues seen rest
      else v :: uniqueValues (v :: seen) rest
  end.

Definition findPossibleBuildsFromStack (stack : TemporaryStack)
    (playerHand : list Card) (tableCards : list TableEntity)
    (currentPlayer : nat) : list nat :=
  if hasActiveBuild tableCards currentPlayer then []
  else
    match List.filter (hasSource SrcHand) (scards stack) with
    | [handCardUsed] =>
        let remainingHand :=
          List.filter (fun c => otherCard c handCardUsed) playerHand in
        match remainingHand with
        | [] => []
        | _ =>
            let potentialBuildValues :=
              uniqueValues [] (map (fun c => rankValue (rank c)) remainingHand) in
            let cardsToBuildWith := map stripSource (scards stack) in
            List.filter (fun value => canPartitionIntoSums cardsToBuildWith value)
                        potentialBuildValues
        end
    | _ => []
    end.

(* ===================================================================== *)
(** ** Action handlers (the game-actions module) *)
(* ===================================================================== *)

(** [interface DraggedItem { card; source }] *)
Record DraggedItem : Type := mkDragged {
  dcard : Card;
  dsource : Source;
}.

(** [arr.findIndex(p)], [None] standing for [-1]. *)
Fixpoint findIndex {A : Type} (p : A -> bool) (l : list A) : option nat :=
  match l with
  | [] => None
  | x :: rest =>
      if p x then Some 0
      else match findIndex p rest with
           | Some i => Some (S i)
           | None => None
           end
  end.

(** [tableCards.find(item => item.type === 'build' && item.owner === p)] *)
Fixpoint findBuildOf (p : nat) (table : list TableEntity) : option Build :=
  match table with
  | [] => None
  | TBuild b :: rest => if bowner b =? p then Some b else findBuildOf p rest
  | _ :: rest => findBuildOf p rest
  end.

Definition handleTrail (gameState : GameState) (c : Card) : GameState :=
  match removeCardFromHand (playerHands gameState)
                           (currentPlayer gameState) c with
  | None => gameState
  | Some (updatedHands, cardRemoved) =>
      let newState :=
        setTable (tableCards gameState ++ [Loose cardRemoved])
                 (setHands updatedHands gameState) in
      nextPlayer newState
  end.

Definition handleBuild (newBuildId : nat) (gameState : GameState)
    (draggedItem : DraggedItem) (tableCardsInBuild : list Card)
    (buildValue : nat) (biggerCard smallerCard : option Card) : GameState :=
  let playerCard := dcard draggedItem in
  let currentPlayer := currentPlayer gameState in
  let playerHand := handOf (playerHands gameState) currentPlayer in
  match validateBuild playerHand playerCard buildValue
                      (tableCards gameState) currentPlayer with
  | Invalid _ => gameState
  | Valid _ =>
      let removed :=
        if bool_decide (dsource draggedItem = SrcTable)
        then Some (playerHands gameState,
                   removeCardsFromTable (tableCards gameState)
                                        [Loose playerCard])
        else match removeCardFromHand (playerHands gameState)
                                      currentPlayer playerCard with
             | None => None
             | Some (updatedHands, _) =>
                 Some (updatedHands, tableCards gameState)
             end in
      match removed with
      | None => gameState
      | Some (newPlayerHands, tempTableCards) =>
          let initialBuildCards :=
            match biggerCard, smallerCard with
            | Some bigger, Some smaller => [bigger; smaller]
            | _, _ => sortCardsByRank tableCardsInBuild ++ [playerCard]
            end in
          let newBuild :=
            mkBuild newBuildId initialBuildCards buildValue currentPlayer
                    true in
          let finalTableCards :=
            removeCardsFromTable tempTableCards (map Loose tableCardsInBuild)
              ++ [TBuild newBuild] in
          nextPlayer (setCaptures (playerCaptures gameState)
                        (setTable finalTableCards
                           (setHands newPlayerHands gameState)))
      end
  end.

Definition handleReinforceBuildWithStack (newBuildId : nat)
    (gameState : GameState) (stack : TemporaryStack) (targetBuild : Build)
  : GameState :=
  let cardsForPartition := map stripSource (scards stack) in
  let allNewBuildCards := bcards targetBuild ++ cardsForPartition in
  let newBuild :=
    mkBuild newBuildId allNewBuildCards (bvalue targetBuild)
            (currentPlayer gameState) false in
  let finalTableCards :=
    removeCardsFromTable (tableCards gameState)
                         [TBuild targetBuild; TStack stack]
      ++ [TBuild newBuild] in
  nextPlayer (setCaptures (playerCaptures gameState)
                (setTable finalTableCards
                   (setHands (playerHands gameState) gameState))).

Definition handleCreateBuildFromStack (newBuildId : nat)
    (gameState : GameState) (draggedItem : DraggedItem)
    (stack : TemporaryStack) : GameState :=
  let handCard := dcard draggedItem in
  let stackValue := calculateCardSum (scards stack) in
  let handCardValue := rankValue (rank handCard) in
  let isReinforce := stackValue =? handCardValue in
  let newBuildValue :=
    if isReinforce then stackValue else stackValue + handCardValue in
  let allCardsInBuild := scards stack ++ [handCard] in
  let newBuild :=
    mkBuild newBuildId allCardsInBuild newBuildValue
            (currentPlayer gameState) (negb isReinforce) in
  match removeCardFromHand (playerHands gameState)
                           (currentPlayer gameState) handCard with
  | None => gameState
  | Some (newPlayerHands, _) =>
      let newTableCards :=
        removeCardsFromTable (tableCards gameState) [TStack stack]
          ++ [TBuild newBuild] in
      nextPlayer (setTable newTableCards (setHands newPlayerHands gameState))
  end.

Definition handleAddToOpponentBuild (newBuildId : nat) (gameState : GameState)
    (draggedItem : DraggedItem) (buildToAddTo : Build) : GameState :=
  let playerCard := dcard draggedItem in
  let newBuildValue := bvalue buildToAddTo + rankValue (rank playerCard) in
  let sortedCards := sortDescending (bcards buildToAddTo ++ [playerCard]) in
  let newBuild :=
    mkBuild newBuildId sortedCards newBuildValue (currentPlayer gameState)
            (length sortedCards <? 5) in
  let removed :=
    if bool_decide (dsource draggedItem = SrcTable)
    then Some (playerHands gameState,
               removeCardsFromTable (tableCards gameState) [Loose playerCard])
    else match removeCardFromHand (playerHands gameState)
                                  (currentPlayer gameState) playerCard with
         | None => None
         | Some (updatedHands, _) => Some (updatedHands, tableCards gameState)
         end in
  match removed with
  | None => gameState
  | Some (newPlayerHands, newTableCards) =>
      let finalTableCards :=
        removeCardsFromTable newTableCards [TBuild buildToAddTo]
          ++ [TBuild newBuild] in
      nextPlayer (setCaptures (playerCaptures gameState)
                    (setTable finalTableCards
                       (setHands newPlayerHands gameState)))
  end.

Definition handleAddToOwnBuild (gameState : GameState)
    (draggedItem : DraggedItem) (buildToAddTo : Build) : GameState :=
  let playerCard := dcard draggedItem in
  let isReinforce := rankValue (rank playerCard) =? bvalue buildToAddTo in
  let newBuildValue :=
    if isReinforce then bvalue buildToAddTo
    else bvalue buildToAddTo + rankValue (rank playerCard) in
  let newBuildCards := bcards buildToAddTo ++ [playerCard] in
  let newBuild :=
    mkBuild (buildId buildToAddTo) newBuildCards newBuildValue
            (bowner buildToAddTo) (negb isReinforce) in
  let newTableCards :=
    List.filter (buildIdIsNot (buildId buildToAddTo)) (tableCards gameState)
      ++ [TBuild newBuild] in
  match removeCardFromHand (playerHands gameState)
                           (currentPlayer gameState) playerCard with
  | None => gameState
  | Some (newPlayerHands, _) =>
      nextPlayer (setHands newPlayerHands (setTable newTableCards gameState))
  end.

(** The first part of [handleCapture]: a combination made from the hand on
    loose cards that matches the player's own build is added to that build.
    [None] when this branch is not taken. *)
Definition implicitAddToBuild (newBuildId : nat) (gameState : GameState)
    (draggedItem : DraggedItem) (selectedTableCards : list TableEntity)
    (opponentCard : option Card) : option GameState :=
  let selectedCard := dcard draggedItem in
  let currentPlayer := currentPlayer gameState in
  let isTargetingBuild := existsb isBuild selectedTableCards in
  match findBuildOf currentPlayer (tableCards gameState) with
  | None => None
  | Some playerOwnBuild =>
      if bool_decide (dsource draggedItem = SrcHand)
         && negb (bool_decide (is_Some opponentCard))
         && negb isTargetingBuild
      then
        let potentialStackCards :=
          selectedCard :: flat_map entityCards selectedTableCards in
        if canPartitionIntoSums potentialStackCards (bvalue playerOwnBuild)
        then
          match removeCardFromHand (playerHands gameState) currentPlayer
                                   selectedCard with
          | None => Some gameState
          | Some (newPlayerHands, _) =>
              let allNewBuildCards :=
                bcards playerOwnBuild ++ potentialStackCards in
              let newBuild :=
                mkBuild newBuildId allNewBuildCards (bvalue playerOwnBuild)
                        currentPlayer false in
              let finalTableCards :=
                removeCardsFromTable (tableCards gameState)
                  (TBuild playerOwnBuild :: selectedTableCards)
                  ++ [TBuild newBuild] in
              Some (nextPlayer (setTable finalTableCards
                                  (setHands newPlayerHands gameState)))
          end
        else None
      else None
  end.

(** The capture proper: the rest of [handleCapture]. *)
Definition captureProper (gameState : GameState) (draggedItem : DraggedItem)
    (selectedTableCards : list TableEntity) (opponentCard : option Card)
  : GameState :=
  let selectedCard := dcard draggedItem in
  let currentPlayer := currentPlayer gameState in
  let playerCaptures := playerCaptures gameState in
  let isFinalizingStack := existsb isStack selectedTableCards in
  let fromTable := bool_decide (dsource draggedItem = SrcTable) in
  let removed :=
    if fromTable
    then Some (playerHands gameState,
               removeCardsFromTable (tableCards gameState)
                                    [Loose selectedCard],
               selectedCard)
    else if negb isFinalizingStack
    then match removeCardFromHand (playerHands gameState) currentPlayer
                                  selectedCard with
         | None => None
         | Some (updatedHands, cardRemoved) =>
             Some (updatedHands, tableCards gameState, cardRemoved)
         end
    else Some (playerHands gameState, tableCards gameState, selectedCard) in
  match removed with
  | None => gameState
  | Some (newPlayerHands, newTableCards, actualCardUsed) =>
      let finalTableCards :=
        List.filter
          (fun item => negb (existsb (sameItem item) selectedTableCards))
          newTableCards in
      let afterOpponent :=
        match opponentCard with
        | Some opp =>
            let opponentIndex := 1 - currentPlayer in
            <[opponentIndex :=
                List.filter (fun group => 0 <? length group)
                  (map (List.filter (fun c => negb (sameCard c opp)))
                       (capturesOf playerCaptures opponentIndex))]>
              playerCaptures
        | None => playerCaptures
        end in
      let allCapturedItems := flat_map entityCards selectedTableCards in
      let deduplicated :=
        if isFinalizingStack
        then List.filter
               (fun c => negb (hasSource SrcHand c && sameCard c selectedCard))
               allCapturedItems
        else allCapturedItems in
      let flattenedCapturedCards :=
        if fromTable then deduplicated ++ [actualCardUsed] else deduplicated in
      let capturingCardForStack :=
        if bool_decide (dsource draggedItem = SrcHand) then actualCardUsed
        else selectedCard in
      let capturedGroup :=
        createCaptureStack capturingCardForStack flattenedCapturedCards
                           opponentCard in
      let finalPlayerCaptures :=
        <[currentPlayer :=
            capturesOf afterOpponent currentPlayer ++ [capturedGroup]]>
          afterOpponent in
      nextPlayer
        (setLastCapturer (Some currentPlayer)
           (setCaptures finalPlayerCaptures
              (setTable finalTableCards
                 (setHands newPlayerHands gameState))))
  end.

Definition handleCapture (newBuildId : nat) (gameState : GameState)
    (draggedItem : DraggedItem) (selectedTableCards : list TableEntity)
    (opponentCard : option Card) : GameState :=
  match implicitAddToBuild newBuildId gameState draggedItem
                           selectedTableCards opponentCard with
  | Some result => result
  | None => captureProper gameState draggedItem selectedTableCards opponentCard
  end.

(* --------------------------------------------------------------------- *)
(** *** Round and game lifecycle *)
(* --------------------------------------------------------------------- *)

(** [workingDeck.pop()]: the last card of the array and the array without
    it; [None] on the empty array. *)
Definition popCard (d : list Card) : option (Card * list Card) :=
  match rev d with
  | [] => None
  | c :: rest => Some (c, rev rest)
  end.

(** [if (workingDeck.length > 0) hand.push(workingDeck.pop())] *)
Definition dealOne (hand workingDeck : list Card) : list Card * list Card :=
  match popCard workingDeck with
  | Some (c, rest) => (hand ++ [c], rest)
  | None => (hand, workingDeck)
  end.

(** The body of [for (let i = 0; i < 10; i++)], run [n] times. *)
Fixpoint dealLoop (n : nat) (hand0 hand1 workingDeck : list Card)
  : list Card * list Card * list Card :=
  match n with
  | 0 => (hand0, hand1, workingDeck)
  | S n' =>
      let '(hand0', deck1) := dealOne hand0 workingDeck in
      let '(hand1', deck2) := dealOne hand1 deck1 in
      dealLoop n' hand0' hand1' deck2
  end.

Definition startNextRound (gameState : GameState) : GameState :=
  if length (deck gameState) <? 20 then gameState
  else
    let '(hand0, hand1, workingDeck) :=
      dealLoop 10 (handOf (playerHands gameState) 0)
                  (handOf (playerHands gameState) 1)
                  (deck gameState) in
    setTable (tableCards gameState)
      (setRound 2
         (setHands [hand0; hand1]
            (setDeck workingDeck gameState))).

(** The body of [cards.forEach(card => ...)] in [calculateScores]. *)
Definition awardCard (d : ScoreDetails) (c : Card) : ScoreDetails :=
  let d1 :=
    if bool_decide (rank c = RA)
    then mkDetails (mostCards d) (mostSpades d) (bigCasino d) (littleCasino d)
                   (aces d + 1) (total d) (cardCount d) (spadeCount d)
    else d in
  let d2 :=
    if bool_decide (rank c = R10) && bool_decide (suit c = Diamonds)
    then mkDetails (mostCards d1) (mostSpades d1) 2 (littleCasino d1)
                   (aces d1) (total d1) (cardCount d1) (spadeCount d1)
    else d1 in
  if bool_decide (rank c = R2) && bool_decide (suit c = Spades)
  then mkDetails (mostCards d2) (mostSpades d2) (bigCasino d2) 1
                 (aces d2) (total d2) (cardCount d2) (spadeCount d2)
  else d2.

(** The chain [if (d[0].count > d[1].count) ... else if (d[1].count >
    d[0].count) ... else if (d[0].count > 0 && d[0].count === d[1].count)]
    that awards Most Cards and Most Spades: the points of player 0 and of
    player 1. *)
Definition mostPoints (count0 count1 : nat) : nat * nat :=
  if count1 <? count0 then (2, 0)
  else if count0 <? count1 then (0, 2)
  else if (0 <? count0) && (count0 =? count1) then (1, 1)
  else (0, 0).

Definition sumTotal (d : ScoreDetails) : ScoreDetails :=
  mkDetails (mostCards d) (mostSpades d) (bigCasino d) (littleCasino d)
            (aces d)
            (mostCards d + mostSpades d + bigCasino d + littleCasino d
             + aces d)
            (cardCount d) (spadeCount d).

(** [calculateScores(playerCaptures)], answering
    [{ scores, details, winner }] for the two players. *)
Definition calculateScores (playerCaptures : list (list (list Card)))
  : list nat * list ScoreDetails * option nat :=
  let cards0 := concat (capturesOf playerCaptures 0) in
  let cards1 := concat (capturesOf playerCaptures 1) in
  let cardCount0 := length cards0 in
  let cardCount1 := length cards1 in
  let spadeCount0 :=
    length (List.filter (fun c => bool_decide (suit c = Spades)) cards0) in
  let spadeCount1 :=
    length (List.filter (fun c => bool_decide (suit c = Spades)) cards1) in
  let '(mostCards0, mostCards1) := mostPoints cardCount0 cardCount1 in
  let '(mostSpades0, mostSpades1) := mostPoints spadeCount0 spadeCount1 in
  let details0 :=
    mkDetails mostCards0 mostSpades0 0 0 0 0 cardCount0 spadeCount0 in
  let details1 :=
    mkDetails mostCards1 mostSpades1 0 0 0 0 cardCount1 spadeCount1 in
  let final0 := sumTotal (fold_left awardCard cards0 details0) in
  let final1 := sumTotal (fold_left awardCard cards1 details1) in
  let finalScores := [total final0; total final1] in
  let winner :=
    if total final1 <? total final0 then Some 0
    else if total final0 <? total final1 then Some 1
    else None in
  (finalScores, [final0; final1], winner).

Definition endGame (gameState : GameState) : GameState :=
  let '(scores, details, winner) :=
    calculateScores (playerCaptures gameState) in
  setFinal scores details winner gameState.

(* --------------------------------------------------------------------- *)
(** *** Staging stacks *)
(* --------------------------------------------------------------------- *)

Definition handleCreateStagingStack (newStackId : nat) (gameState : GameState)
    (handCard tableCard : Card) : GameState :=
  let currentPlayer := currentPlayer gameState in
  let tableCards := tableCards gameState in
  if existsb (isStackOf currentPlayer) tableCards then gameState
  else
    match findIndex (fun c => match c with
                              | Loose x => sameCard x tableCard
                              | _ => false
                              end) tableCards with
    | None => gameState
    | Some targetIndex =>
        let handValue := rankValue (rank handCard) in
        let tableValue := rankValue (rank tableCard) in
        let orderedCards :=
          if handValue <? tableValue
          then [tag SrcTable tableCard; tag SrcHand handCard]
          else [tag SrcHand handCard; tag SrcTable tableCard] in
        let newStack := mkStack newStackId orderedCards currentPlayer in
        match removeCardFromHand (playerHands gameState) currentPlayer
                                 handCard with
        | None => gameState
        | Some (newPlayerHands, _) =>
            let finalTableCards :=
              <[targetIndex := TStack newStack]> tableCards in
            setTable finalTableCards (setHands newPlayerHands gameState)
        end
    end.

Definition handleAddToStagingStack (gameState : GameState) (handCard : Card)
    (targetStack : TemporaryStack) : GameState :=
  match removeCardFromHand (playerHands gameState)
                           (currentPlayer gameState) handCard with
  | None => gameState
  | Some (newPlayerHands, _) =>
      let newStack :=
        mkStack (stackId targetStack)
                (scards targetStack ++ [tag SrcHand handCard])
                (sowner targetStack) in
      let newTableCards :=
        match findIndex (fun s => negb (stackIdIsNot (stackId targetStack) s))
                        (tableCards gameState) with
        | Some stackIndex =>
            <[stackIndex := TStack newStack]> (tableCards gameState)
        | None =>
            List.filter (stackIdIsNot (stackId targetStack))
                        (tableCards gameState)
              ++ [TStack newStack]
        end in
      setTable newTableCards (setHands newPlayerHands gameState)
  end.

(** The three arrays filled by the loop over the cards of a stack that is
    taken apart: cards for the hand, for the table, for the opponent. *)
Record Sorted : Type := mkSorted {
  handCards : list Card;
  newLooseCards : list Card;
  opponentCards : list Card;
}.

(** The body of [for (const card of stack.cards)]. *)
Definition sortBackStep (acc : Sorted) (c : Card) : Sorted :=
  let cardData := stripSource c in
  if hasSource SrcHand c
  then mkSorted (handCards acc ++ [cardData]) (newLooseCards acc)
                (opponentCards acc)
  else if hasSource SrcOpponentCapture c
  then mkSorted (handCards acc) (newLooseCards acc)
                (opponentCards acc ++ [cardData])
  else mkSorted (handCards acc) (newLooseCards acc ++ [cardData])
                (opponentCards acc).

Definition sortBack (cards : list Card) : Sorted :=
  fold_left sortBackStep cards (mkSorted [] [] []).

(** [opponentCaps[opponentCaps.length - 1].push(...cards)] when the
    opponent has a capture group, [opponentCaps.push(cards)] otherwise.  The
    last group is extended in place; the embedding gives the capture groups
    as the new state holds them. *)
Fixpoint giveBack (opponentCaps : list (list Card)) (cards : list Card)
  : list (list Card) :=
  match opponentCaps with
  | [] => [cards]
  | [lastGroup] => [lastGroup ++ cards]
  | group :: rest => group :: giveBack rest cards
  end.

(** Steps 1 to 4 shared by [handleDisbandStagingStack] and
    [handleCancelStagingStack], which differ in the turn only. *)
Definition takeApart (gameState : GameState) (stack : TemporaryStack)
  : GameState :=
  let currentPlayer := currentPlayer gameState in
  let sorted := sortBack (scards stack) in
  let currentHand :=
    handOf (playerHands gameState) currentPlayer ++ handCards sorted in
  let newPlayerHands := <[currentPlayer := currentHand]> (playerHands gameState) in
  let newPlayerCaptures :=
    if 0 <? length (opponentCards sorted)
    then
      let opponentIndex := 1 - currentPlayer in
      let opponentCaps :=
        giveBack (capturesOf (playerCaptures gameState) opponentIndex)
                 (opponentCards sorted) in
      <[opponentIndex := opponentCaps]> (playerCaptures gameState)
    else playerCaptures gameState in
  let newTableCards :=
    List.filter (stackIdIsNot (stackId stack)) (tableCards gameState)
      ++ map Loose (newLooseCards sorted) in
  setCaptures newPlayerCaptures
    (setTable newTableCards (setHands newPlayerHands gameState)).

Definition handleDisbandStagingStack (gameState : GameState)
    (stackToDisband : TemporaryStack) : GameState :=
  nextPlayer (takeApart gameState stackToDisband).

Definition handleCancelStagingStack (gameState : GameState)
    (stackToCancel : TemporaryStack) : GameState :=
  takeApart gameState stackToCancel.

Definition handleMergeIntoOwnBuild (gameState : GameState)
    (stack : TemporaryStack) (targetBuild : Build) : GameState :=
  let cardsFromStack := map stripSource (scards stack) in
  let newBuildCards := bcards targetBuild ++ cardsFromStack in
  let newBuild :=
    mkBuild (buildId targetBuild) newBuildCards (bvalue targetBuild)
            (bowner targetBuild) (isExtendable targetBuild) in
  let newTableCards :=
    removeCardsFromTable (tableCards gameState)
                         [TBuild targetBuild; TStack stack]
      ++ [TBuild newBuild] in
  setTable newTableCards gameState.

(** What [handleFinalizeStagingStack] answers: [{ error: true, message }],
    [{ options, stack, draggedItem }], or the new game state. *)
Inductive Finalized : Type :=
  | FinalizeError
  | FinalizeOptions (options : list nat) (stack : TemporaryStack)
                    (handCardUsed : option Card)
  | FinalizeState (newState : GameState).

Definition handleFinalizeStagingStack (newBuildId : nat)
    (gameState : GameState) (stack : TemporaryStack) : Finalized :=
  let currentPlayer := currentPlayer gameState in
  let playerHand := handOf (playerHands gameState) currentPlayer in
  let possibleBuilds :=
    findPossibleBuildsFromStack stack playerHand (tableCards gameState)
                                currentPlayer in
  match possibleBuilds with
  | [] => FinalizeError
  | [buildValue] =>
      let finalCardsInBuild := map stripSource (scards stack) in
      let newBuild :=
        mkBuild newBuildId (map stripSource finalCardsInBuild) buildValue
                currentPlayer true in
      let newTableCards :=
        List.filter (stackIdIsNot (stackId stack)) (tableCards gameState)
          ++ [TBuild newBuild] in
      FinalizeState (nextPlayer (setTable newTableCards gameState))
  | _ =>
      FinalizeOptions possibleBuilds stack
                      (List.find (hasSource SrcHand) (scards stack))
  end.

Definition handleCreateBuildWithValue (newBuildId : nat)
    (gameState : GameState) (stack : TemporaryStack) (buildValue : nat)
  : GameState :=
  let finalBuildCards := map stripSource (scards stack) in
  let newBuild :=
    mkBuild newBuildId finalBuildCards buildValue (currentPlayer gameState)
            true in
  let newTableCards :=
    removeCardsFromTable (tableCards gameState) [TStack stack]
      ++ [TBuild newBuild] in
  nextPlayer (setTable newTableCards gameState).

Definition handleStageSingleCardFromHand (newStackId : nat)
    (gameState : GameState) (c : Card) : GameState :=
  let currentPlayer := currentPlayer gameState in
  if existsb (isStackOf currentPlayer) (tableCards gameState) then gameState
  else
    match removeCardFromHand (playerHands gameState) currentPlayer c with
    | None => gameState
    | Some (newPlayerHands, _) =>
        let newStack := mkStack newStackId [tag SrcHand c] currentPlayer in
        let newTableCards := tableCards gameState ++ [TStack newStack] in
        setTable newTableCards (setHands newPlayerHands gameState)
    end.

Definition handleReinforceOpponentBuildWithStack (gameState : GameState)
    (stack : TemporaryStack) (opponentBuild : Build) : GameState :=
  let cardsFromStack := map stripSource (scards stack) in
  let newBuildCards := bcards opponentBuild ++ cardsFromStack in
  let newBuild :=
    mkBuild (buildId opponentBuild) newBuildCards (bvalue opponentBuild)
            (bowner opponentBuild) false in
  let newTableCards :=
    removeCardsFromTable (tableCards gameState)
                         [TBuild opponentBuild; TStack stack]
      ++ [TBuild newBuild] in
  setTable newTableCards gameState.

(* ===================================================================== *)
(** ** Scoring, declaratively *)
(* ===================================================================== *)

Definition isSpade (c : Card) : bool := bool_decide (suit c = Spades).
Definition isAce (c : Card) : bool := bool_decide (rank c = RA).
Definition isTenOfDiamonds (c : Card) : bool :=
  bool_decide (rank c = R10) && bool_decide (suit c = Diamonds).
Definition isTwoOfSpades (c : Card) : bool :=
  bool_decide (rank c = R2) && bool_decide (suit c = Spades).

(** Points of a "most of" category for a player holding [mine] against
    [theirs]: 2 for strictly more, 1 for an equal count that is not zero. *)
Definition categoryPoints (mine theirs : nat) : nat :=
  if theirs <? mine then 2
  else if mine <? theirs then 0
  else if 0 <? mine then 1
  else 0.

(** The score of the player who captured [mine], the opponent having
    captured [theirs]. *)
Definition playerScore (mine theirs : list Card) : nat :=
  categoryPoints (length mine) (length theirs)
  + categoryPoints (length (List.filter isSpade mine))
                   (length (List.filter isSpade theirs))
  + (if existsb isTenOfDiamonds mine then 2 else 0)
  + (if existsb isTwoOfSpades mine then 1 else 0)
  + length (List.filter isAce mine).




(* ===================================================================== *)
(** ** Sample states *)
(* ===================================================================== *)

(** A state with no cards anywhere, player [p] to move, in round [r]. *)
Definition emptyState (p r : nat) : GameState :=
  mkState p [[]; []] [] [[]; []] [] r false None [] [] None.


(** Every other card of a pile, starting with the first. *)
Fixpoint everyOther (l : list Card) : list Card :=
  match l with
  | [] => []
  | x :: rest =>
      x :: match rest with
           | [] => []
           | _ :: rest' => everyOther rest'
           end
  end.

(** A deck of twenty cards, the Ace of spades on top (last in the array). *)
Definition twentyCards : list Card :=
  [card R10 Clubs; card R10 Diamonds; card R9 Clubs; card R9 Diamonds;
   card R8 Clubs; card R8 Diamonds; card R7 Clubs; card R7 Diamonds;
   card R6 Clubs; card R6 Diamonds; card R5 Hearts; card R5 Spades;
   card R4 Hearts; card R4 Spades; card R3 Hearts; card R3 Spades;
   card R2 Hearts; card R2 Spades; card RA Hearts; card RA Spades].

(** A card of a stack that came neither from the hand nor from the
    opponent's captures. *)
Definition fromElsewhere (c : Card) : bool :=
  negb (hasSource SrcHand c) && negb (hasSource SrcOpponentCapture c).

(** The capture groups of the opponent after [cards] were handed back: on
    top of the last group, or as a first group when there is none. *)
Definition handedBack (groups : list (list Card)) (cards : list Card)
  : list (list Card) :=
  match groups with
  | [] => [cards]
  | _ => removelast groups ++ [List.last groups [] ++ cards]
  end.

(** A stack of player 0 holding a 3 from the table, a 2 from the hand and a
    5 taken from the opponent's captures. *)
Definition mixedStack : TemporaryStack :=
  mkStack 7 [tag SrcTable (card R3 Spades); tag SrcHand (card R2 Hearts);
             tag SrcOpponentCapture (card R5 Clubs)] 0.

(** Player 0 to move with [mixedStack] and a loose king on the table; the
    opponent has two capture groups. *)
Definition mixedState : GameState :=
  setCaptures [[]; [[card R4 Clubs; card R4 Hearts];
                    [card R9 Spades; card R9 Hearts]]]
    (setTable [TStack mixedStack; Loose (card RK Hearts)]
       (setHands [[card R8 Diamonds]; [card R6 Clubs]] (emptyState 0 1))).

(** The build a handler has just pushed on the table: the last table item,
    when it is a build. *)
Definition resultingBuild (g : GameState) : option Build :=
  match last (tableCards g) with
  | Some (TBuild b) => Some b
  | _ => None
  end.

(** A build of 8 owned by player 1. *)
Definition opponentEight : Build :=
  mkBuild 1 [card R5 Spades; card R3 Hearts] 8 1 true.

(** A stack of player 0 made of two table cards, a 6 and a 2. *)
Definition tableStack : TemporaryStack :=
  mkStack 7 [tag SrcTable (card R6 Clubs); tag SrcTable (card R2 Diamonds)] 0.

(** Player 0 to move, holding an 8, with [opponentEight] and [tableStack]
    on the table. *)
Definition reinforceState : GameState :=
  setTable [TBuild opponentEight; TStack tableStack]
    (setHands [[card R8 Diamonds; card R4 Clubs]; [card R8 Clubs]]
       (emptyState 0 1)).

(** A build of 8 owned by player 0, who holds two 8s. *)
Definition ownEight : Build :=
  mkBuild 2 [card R5 Spades; card R3 Hearts] 8 0 true.

Definition ownEightState : GameState :=
  setTable [TBuild ownEight]
    (setHands [[card R8 Diamonds; card R8 Spades]; [card R6 Clubs]]
       (emptyState 0 1)).

(** Player 0 to move in round 1, holding the 7 of diamonds and the 2 of
    hearts; nothing on the table. *)
Definition trailState : GameState :=
  setHands [[card R7 Diamonds; card R2 Hearts]; [card R6 Clubs]]
    (emptyState 0 1).

(* ===================================================================== *)
(** ** Trailing, by round *)
(* ===================================================================== *)




(** [trailState] with a build of 8 owned by player 0 on the table. *)
Definition trailWithBuildState : GameState :=
  setTable [TBuild ownEight] trailState.

(** The player holds a card of value [v] other than the card [played]. *)
Definition holdsCaptureCard (hand : list Card) (played : Card) (v : nat)
  : Prop :=
  exists c : Card,
    In c hand /\ rankValue (rank c) = v
    /\ (rank c <> rank played \/ suit c <> suit played).

(** Player 0 to move, holding a 5, a 2 and an 8; a loose 3 and a build of
    6 of player 1 on the table. *)
Definition buildState : GameState :=
  setTable [Loose (card R3 Spades);
            TBuild (mkBuild 1 [card R4 Clubs; card R2 Clubs] 6 1 true)]
    (setHands [[card R5 Hearts; card R2 Hearts; card R8 Diamonds];
               [card R6 Clubs]] (emptyState 0 1)).

(** A stack of player 0: a 3 from the table under a 2 from the hand. *)
Definition fiveStack : TemporaryStack :=
  mkStack 7 [tag SrcTable (card R3 Spades); tag SrcHand (card R2 Hearts)] 0.

(** Player 0 to move with [fiveStack] on the table, holding a 5 and a 9. *)
Definition fiveStackState : GameState :=
  setTable [TStack fiveStack]
    (setHands [[card R5 Hearts; card R9 Clubs]; [card R6 Clubs]]
       (emptyState 0 1)).

(* ===================================================================== *)
(** ** One active build per player *)
(* ===================================================================== *)

(** A build of 6 owned by player 0. *)
Definition ownSix : Build :=
  mkBuild 1 [card R4 Spades; card R2 Clubs] 6 0 true.

(** A stack of player 0 made of two table cards, a 3 and a 2. *)
Definition tableFiveStack : TemporaryStack :=
  mkStack 7 [tag SrcTable (card R3 Spades); tag SrcTable (card R2 Diamonds)] 0.

(** Player 0 to move, owning [ownSix] and the staging stack
    [tableFiveStack], and holding a 4, a 9 and a 6. *)
Definition secondBuildState : GameState :=
  setTable [TBuild ownSix; TStack tableFiveStack]
    (setHands [[card R4 Diamonds; card R9 Clubs; card R6 Hearts];
               [card RK Clubs]] (emptyState 0 1)).

(** The permanent builds of player [p] on the table. *)
Definition buildsOf (p : nat) (g : GameState) : list TableEntity :=
  List.filter (isBuildOf p) (tableCards g).

(* ===================================================================== *)
(** ** Finalizing a staging stack *)
(* ===================================================================== *)

(** A stack of player 0: a 2 from the table and a 2 from the hand. *)
Definition pairStack : TemporaryStack :=
  mkStack 7 [tag SrcHand (card R2 Diamonds); tag SrcTable (card R2 Clubs)] 0.

(** Player 0 to move with [pairStack] on the table, holding a 4 and a 2:
    the stack can stand for a build of 4 or for a build of 2. *)
Definition pairStackState : GameState :=
  setTable [TStack pairStack]
    (setHands [[card R4 Hearts; card R2 Spades]; [card R6 Clubs]]
       (emptyState 0 1)).


(* ===================================================================== *)
(** ** Conservation of cards *)
(* ===================================================================== *)

(** A card as a rank and a suit, whatever its tag. *)
Definition face (c : Card) : Rank * Suit := (rank c, suit c).

(** Every card of the game: the hands, the table (loose cards, members of
    builds and of stacks), the capture groups and the deck. *)
Definition allCards (g : GameState) : list (Rank * Suit) :=
  map face (concat (playerHands g)
            ++ flat_map entityCards (tableCards g)
            ++ concat (concat (playerCaptures g))
            ++ deck g).

(** How many times the card of rank [r] and suit [s] occurs in the game. *)
Definition copies (r : Rank) (s : Suit) (g : GameState) : nat :=
  length (List.filter (fun f => bool_decide (f = (r, s))) (allCards g)).

(** A stack of player 0 made of two table cards, a 5 and a 3. *)
Definition eightStack : TemporaryStack :=
  mkStack 7 [tag SrcTable (card R5 Hearts); tag SrcTable (card R3 Spades)] 0.

(** Player 0 to move with [eightStack] on the table, holding an 8 and a 2. *)
Definition eightStackState : GameState :=
  setTable [TStack eightStack]
    (setHands [[card R8 Diamonds; card R2 Clubs]; [card R6 Clubs]]
       (emptyState 0 1)).

(** A stack of player 0 holding only its capturing card and a table card of
    the same value. *)
Definition sevenStack : TemporaryStack :=
  mkStack 7 [tag SrcHand (card R7 Diamonds); tag SrcTable (card R7 Clubs)] 0.

Definition sevenStackState : GameState :=
  setTable [TStack sevenStack]
    (setHands [[card R2 Clubs]; [card R6 Clubs]] (emptyState 0 1)).

(* ===================================================================== *)
(** ** The remaining validators (server/game-logic/validation.js) *)
(* ===================================================================== *)

(** The two answers of [validateExtendToMerge] that differ from those of the
    other validators. *)
Inductive MergeVerdict : Type :=
  | MergeAllowed
  | MergeNotExtendable
  | MergeValueMismatch (newValue ownValue : nat).

Definition validateExtendToMerge (ownBuild opponentBuild : Build)
    (handCard : Card) : MergeVerdict :=
  if negb (isExtendable opponentBuild) then MergeNotExtendable
  else
    let newValue := bvalue opponentBuild + rankValue (rank handCard) in
    if negb (newValue =? bvalue ownBuild)
    then MergeValueMismatch newValue (bvalue ownBuild)
    else MergeAllowed.

(** The answers of [validateComplexCapture]. *)
Inductive CaptureVerdict : Type :=
  | CaptureAllowed
  | CaptureNotFromTable
  | CaptureValueMismatch (captureValue totalValue : nat).

Definition validateComplexCapture (stagedCards : list Card)
    (captureCard : Card) : CaptureVerdict :=
  if negb (forallb (hasSource SrcTable) stagedCards) then CaptureNotFromTable
  else
    let totalValue := calculateCardSum stagedCards in
    let captureValue := rankValue (rank captureCard) in
    if negb (totalValue =? captureValue)
    then CaptureValueMismatch captureValue totalValue
    else CaptureAllowed.




(* ===================================================================== *)
(** ** The remaining handlers of the game-actions module *)
(* ===================================================================== *)

(** [group.slice(0, -1)] *)
Definition dropLast (group : list Card) : list Card := removelast group.

(** [handleStageOpponentCard(gameState, opponentCard)].  The assignment
    [newPlayerCaptures[opponentIndex] = newOpponentCaps] is an update in
    place for a state with two capture sets; for a shorter array, which the
    source would extend, the embedding leaves the captures as they are. *)
Definition handleStageOpponentCard (newStackId : nat) (gameState : GameState)
    (opponentCard : Card) : GameState :=
  let currentPlayer := currentPlayer gameState in
  if existsb (isStackOf currentPlayer) (tableCards gameState) then gameState
  else
    let opponentIndex := 1 - currentPlayer in
    let opponentCaps := capturesOf (playerCaptures gameState) opponentIndex in
    let newOpponentCaps :=
      List.filter (fun group => 0 <? length group)
        (imap (fun index group =>
                 if index =? length opponentCaps - 1 then dropLast group
                 else group) opponentCaps) in
    let newPlayerCaptures :=
      <[opponentIndex := newOpponentCaps]> (playerCaptures gameState) in
    let newStack :=
      mkStack newStackId [tag SrcOpponentCapture opponentCard] currentPlayer in
    setTable (tableCards gameState ++ [TStack newStack])
      (setCaptures newPlayerCaptures gameState).

Definition handleExtendToMerge (gameState : GameState) (handCard : Card)
    (opponentBuild ownBuild : Build) : GameState :=
  match removeCardFromHand (playerHands gameState)
                           (currentPlayer gameState) handCard with
  | None => gameState
  | Some (newPlayerHands, _) =>
      let allCards :=
        sortDescending (bcards ownBuild ++ bcards opponentBuild ++ [handCard])
      in
      let newMergedBuild :=
        mkBuild (buildId ownBuild) allCards (bvalue ownBuild)
                (bowner ownBuild) false in
      let newTableCards :=
        removeCardsFromTable (tableCards gameState)
                             [TBuild ownBuild; TBuild opponentBuild]
          ++ [TBuild newMergedBuild] in
      setTable newTableCards (setHands newPlayerHands gameState)
  end.

(* ===================================================================== *)
(** ** Dropping a staging stack (handlers/handleTemporaryStackDrop.ts) *)
(* ===================================================================== *)

(** [TargetInfo.type] *)
Inductive TargetType : Type := TargetLoose | TargetBuild | TargetStack.

(** What [showError] is called with: the fixed messages of the handler, or
    the message of a failed validation. *)
Inductive DropError : Type :=
  | TargetBuildNotFound
  | StagingStackNotFound
  | ValidationFailed (why : Reason)
  | CannotFindStackToCombine
  | NotYourTemporaryStack
  | TargetCardNotFound.

(** [tableCards.find(b => b.type === 'build' && b.buildId === id)] *)
Fixpoint findBuildById (id : option nat) (table : list TableEntity)
  : option Build :=
  match table with
  | [] => None
  | TBuild b :: rest =>
      if bool_decide (Some (buildId b) = id) then Some b
      else findBuildById id rest
  | _ :: rest => findBuildById id rest
  end.

(** [tableCards.find(s => s.type === 'temporary_stack' && s.stackId === id)] *)
Fixpoint findStackById (id : option nat) (table : list TableEntity)
  : option TemporaryStack :=
  match table with
  | [] => None
  | TStack s :: rest =>
      if bool_decide (Some (stackId s) = id) then Some s
      else findStackById id rest
  | _ :: rest => findStackById id rest
  end.

Section TemporaryStackDrop.

(** [getCardId] of game-logic/index.js is not part of the sources at hand:
    it is a parameter of the handler, as is the type of the ids it makes. *)
Context {CardId : Type} `{EqDecision CardId}.
Variable getCardId : TableEntity -> CardId.

(** [interface TargetInfo], with the fields the handler reads. *)
Record TargetInfo : Type := mkTarget {
  ttype : TargetType;
  tcardId : option CardId;
  tbuildId : option nat;
  tstackId : option nat;
}.

(** [tableCards.find(c => !c.type && getCardId(c) === id)] *)
Fixpoint findLooseById (id : option CardId) (table : list TableEntity)
  : option Card :=
  match table with
  | [] => None
  | Loose c :: rest =>
      if bool_decide (Some (getCardId (Loose c)) = id) then Some c
      else findLooseById id rest
  | _ :: rest => findLooseById id rest
  end.

(** [handleTemporaryStackDrop(draggedItem, targetInfo, currentGameState,
    showError)]: the state it returns and the error it shows, if any.  Of the
    dragged item only [stackId] is read; the two ids are those a reinforced
    build and a combined stack would get. *)
Definition handleTemporaryStackDrop (newBuildId newStackId : nat)
    (draggedStackId : option nat) (targetInfo : TargetInfo)
    (currentGameState : GameState) : GameState * option DropError :=
  let currentPlayer := currentPlayer currentGameState in
  let tableCards := tableCards currentGameState in
  match ttype targetInfo with
  | TargetBuild =>
      match findBuildById (tbuildId targetInfo) tableCards with
      | None => (currentGameState, Some TargetBuildNotFound)
      | Some buildToDropOn =>
          match findStackById draggedStackId tableCards with
          | None => (currentGameState, Some StagingStackNotFound)
          | Some stagingStack =>
              let handCardsInStack :=
                List.filter (hasSource SrcHand) (scards stagingStack) in
              if 0 <? length handCardsInStack
              then
                match validateReinforceBuildWithStack stagingStack
                                                      buildToDropOn with
                | Invalid why =>
                    (handleDisbandStagingStack currentGameState stagingStack,
                     Some (ValidationFailed why))
                | Valid _ =>
                    (handleReinforceBuildWithStack newBuildId currentGameState
                                                   stagingStack buildToDropOn,
                     None)
                end
              else if bowner buildToDropOn =? currentPlayer
              then
                match validateMergeIntoOwnBuild stagingStack buildToDropOn
                                                currentPlayer with
                | Invalid why =>
                    (currentGameState, Some (ValidationFailed why))
                | Valid _ =>
                    (handleMergeIntoOwnBuild currentGameState stagingStack
                                             buildToDropOn, None)
                end
              else (currentGameState, None)
          end
      end
  | TargetStack =>
      match findStackById draggedStackId tableCards,
            findStackById (tstackId targetInfo) tableCards with
      | Some draggedStack, Some targetStack =>
          if negb (sowner targetStack =? currentPlayer)
          then (currentGameState, Some NotYourTemporaryStack)
          else
            let combinedCards := scards targetStack ++ scards draggedStack in
            let newCombinedStack :=
              mkStack newStackId combinedCards currentPlayer in
            let finalTableCards :=
              List.filter
                (fun c => stackIdIsNot (stackId targetStack) c
                          && stackIdIsNot (stackId draggedStack) c)
                tableCards
                ++ [TStack newCombinedStack] in
            (setTable finalTableCards currentGameState, None)
      | _, _ => (currentGameState, Some CannotFindStackToCombine)
      end
  | TargetLoose =>
      match findStackById draggedStackId tableCards with
      | None => (currentGameState, Some StagingStackNotFound)
      | Some stagingStack =>
          match findLooseById (tcardId targetInfo) tableCards with
          | None => (currentGameState, Some TargetCardNotFound)
          | Some targetCard =>
              let combinedCards :=
                tag SrcTable targetCard :: scards stagingStack in
              let newStack := mkStack newStackId combinedCards currentPlayer in
              let newTableCards :=
                List.filter
                  (fun c => stackIdIsNot (stackId stagingStack) c
                            && negb (bool_decide
                                       (getCardId c
                                        = getCardId (Loose targetCard))))
                  tableCards
                  ++ [TStack newStack] in
              (setTable newTableCards currentGameState, None)
          end
      end
  end.

End TemporaryStackDrop.

(* ===================================================================== *)
(** ** One move of the engine *)
(* ===================================================================== *)




(** The staging stacks of player [p] on the table. *)
Definition stacksOf (p : nat) (g : GameState) : list TableEntity :=
  List.filter (isStackOf p) (tableCards g).

(** The ids of the staging stacks on the table, in table order. *)
Definition stackIds (table : list TableEntity) : list nat :=
  flat_map (fun e => match e with TStack s => [stackId s] | _ => [] end)
           table.

(** The ids of the builds on the table, in table order. *)
Definition buildIds (table : list TableEntity) : list nat :=
  flat_map (fun e => match e with TBuild b => [buildId b] | _ => [] end)
           table.

(** Card ids for the sample states: rank and suit of a loose card. *)
Definition sampleCardId (e : TableEntity) : option (Rank * Suit) :=
  match e with Loose c => Some (face c) | _ => None end.

(** [fiveStackState] with a second staging stack, of player 0 as well. *)
Definition twoStacksState : GameState :=
  setTable (tableCards fiveStackState
              ++ [TStack (mkStack 8 [tag SrcTable (card R4 Hearts)] 0)])
           fiveStackState.

(** Player 0 to move, owning [ownEight], with a build of 6 of player 1 on
    the table, and holding a 2 and an 8. *)
Definition mergeState : GameState :=
  setTable [TBuild ownEight;
            TBuild (mkBuild 1 [card R4 Clubs; card R2 Clubs] 6 1 true)]
    (setHands [[card R2 Hearts; card R8 Diamonds]; [card R6 Clubs]]
       (emptyState 0 1)).

(* ===================================================================== *)
(** ** Offering actions for a card dropped on a loose card *)
(* ===================================================================== *)

(** [interface ActionOption { type; label; payload }], one constructor for
    each [type] that [generatePossibleActions] makes, with the fields of the
    payload it fills.  The label, a display string, is left out. *)
Inductive ActionOption : Type :=
  | ActCapture (draggedItem : DraggedItem) (targetCard : Card)
  | ActBuild (draggedItem : DraggedItem) (targetCard : Card)
             (buildValue : nat) (biggerCard smallerCard : option Card)
  | ActBaseBuild (draggedItem : DraggedItem) (baseCard : Card)
                 (otherCardsInBuild : list Card).

Definition canCreateBuild (playerHand : list Card) (draggedCard : Card)
    (buildValue : nat) : bool :=
  existsb (fun c => (rankValue (rank c) =? buildValue)
                    && otherCard c draggedCard)
          playerHand.

Section PossibleActions.

(** [findBaseBuilds] of game-logic/index.js is not part of the sources at
    hand: it is a parameter of the function. *)
Variable findBaseBuilds : Card -> Card -> list TableEntity -> list (list Card).

(** [generatePossibleActions(draggedItem, looseCard, playerHand, tableCards,
    playerCaptures, currentPlayer)].  Here [currentPlayer] counts from 1:
    builds are looked up for the owner [currentPlayer - 1], which is no
    owner when [currentPlayer] is 0.  A dragged item of the embedding always
    carries its card, so the guard [if (!draggedCard)] is not taken. *)
Definition generatePossibleActions (draggedItem : DraggedItem)
    (looseCard : Card) (playerHand : list Card)
    (tableCards : list TableEntity) (playerCaptures : list (list (list Card)))
    (currentPlayer : nat) : list ActionOption :=
  let draggedCard := dcard draggedItem in
  let remainingHand :=
    List.filter (fun c => otherCard c draggedCard) playerHand in
  let canPlayerCreateBuild :=
    negb (match currentPlayer with
          | 0 => false
          | S playerIndex => existsb (isBuildOf playerIndex) tableCards
          end) in
  let draggedValue := rankValue (rank draggedCard) in
  let looseValue := rankValue (rank looseCard) in
  (if draggedValue =? looseValue
   then [ActCapture draggedItem looseCard] else [])
  ++ (if canPlayerCreateBuild && (draggedValue =? looseValue)
      then
        if existsb (fun c => rankValue (rank c) =? draggedValue) remainingHand
        then [ActBuild draggedItem looseCard draggedValue None None]
        else []
      else [])
  ++ (if canPlayerCreateBuild
      then
        let sumBuildValue := draggedValue + looseValue in
        if sumBuildValue <=? 10
        then
          if existsb (fun c => rankValue (rank c) =? sumBuildValue)
                     remainingHand
          then
            let biggerCard :=
              if looseValue <? draggedValue then draggedCard else looseCard in
            let smallerCard :=
              if looseValue <? draggedValue then looseCard else draggedCard in
            [ActBuild draggedItem looseCard sumBuildValue (Some biggerCard)
                      (Some smallerCard)]
          else []
        else []
      else [])
  ++ (if canPlayerCreateBuild && negb (draggedValue =? looseValue)
      then map (ActBaseBuild draggedItem looseCard)
               (findBaseBuilds draggedCard looseCard tableCards)
      else []).

End PossibleActions.
(* ===================================================================== *)
(** ** Sample evaluations *)
(* ===================================================================== *)

Example partition_4_4 :
  canPartitionIntoSums [card R4 Spades; card R4 Hearts] 8 = true.
Proof. reflexivity. Qed.

Example partition_5_3 :
  canPartitionIntoSums [card R5 Spades; card R3 Hearts] 8 = true.
Proof. reflexivity. Qed.

Example partition_5_5 :
  canPartitionIntoSums [card R5 Spades; card R5 Hearts] 8 = false.
Proof. reflexivity. Qed.

Example partition_empty : canPartitionIntoSums [] 5 = false.
Proof. reflexivity. Qed.

Example partition_single : canPartitionIntoSums [card R8 Clubs] 8 = true.
Proof. reflexivity. Qed.

Example partition_backtracks :
  canPartitionIntoSums
    [card R2 Spades; card R3 Spades; card R5 Hearts; card RA Clubs;
     card R4 Clubs; card R5 Clubs] 10 = true.
Proof. reflexivity. Qed.

(** The stable sort keeps cards of equal value in their order. *)
Example sort_is_stable :
  sortDescending [card R2 Spades; card R5 Hearts; card R2 Clubs;
                  card R5 Clubs; card R9 Diamonds]
  = [card R9 Diamonds; card R5 Hearts; card R5 Clubs;
     card R2 Spades; card R2 Clubs].
Proof. reflexivity. Qed.

(** The cases the partition algorithm must handle: no cards, a single card
    equal to the target, a total that is no multiple of the target. *)
Lemma canPartitionIntoSums_cases :
  (forall target : nat, canPartitionIntoSums [] target = false)
  /\ (forall c : Card, canPartitionIntoSums [c] (rankValue (rank c)) = true)
  /\ (forall (cards : list Card) (target : nat),
        calculateCardSum cards mod target <> 0 ->
        canPartitionIntoSums cards target = false).
Proof.
  split; [reflexivity|]. split.
  - intros [[] s src]; reflexivity.
  - intros cards target Hmod. unfold canPartitionIntoSums.
    destruct cards as [|c cards]; [reflexivity|].
    destruct (target =? 0); [reflexivity|].
    apply Nat.eqb_neq in Hmod. rewrite Hmod. reflexivity.
Qed.

(** The simple capture of the scenario: a 7 of diamonds from the hand takes
    the loose 7 of clubs; both end in one capture group of player 0. *)
Example simple_capture :
  handleCapture 0
    (setTable [Loose (card R7 Clubs)]
       (setHands [[card R7 Diamonds; card R2 Hearts]; []] (emptyState 0 1)))
    (mkDragged (card R7 Diamonds) SrcHand) [Loose (card R7 Clubs)] None
  = mkState 1 [[card R2 Hearts]; []] []
      [[[card R7 Clubs; card R7 Diamonds]]; []] [] 1 false (Some 0) [] [] None.
Proof. reflexivity. Qed.

(** The sum build of the scenario: a 5 on the loose 3 to build 8 without an
    8 in the remaining hand is refused. *)
Example build_without_key_card :
  let gs := setTable [Loose (card R3 Spades)]
              (setHands [[card R5 Hearts; card R2 Hearts]; []]
                 (emptyState 0 1)) in
  handleBuild 0 gs (mkDragged (card R5 Hearts) SrcHand) [card R3 Spades] 8
              (Some (card R5 Hearts)) (Some (card R3 Spades)) = gs.
Proof. reflexivity. Qed.

(* ===================================================================== *)
(** ** Scoring *)
(* ===================================================================== *)

Lemma mostPoints_category (a b : nat) :
  mostPoints a b = (categoryPoints a b, categoryPoints b a).
Proof.
  unfold mostPoints, categoryPoints.
  destruct (b <? a) eqn:Hba, (a <? b) eqn:Hab; try reflexivity.
  - apply Nat.ltb_lt in Hba, Hab. lia.
  - apply Nat.ltb_ge in Hba, Hab.
    assert (a = b) as -> by lia.
    rewrite Nat.eqb_refl, andb_true_r. destruct (0 <? b); reflexivity.
Qed.

(** The three tests of the card loop, unfolded over a whole pile. *)
Lemma fold_awardCard (cards : list Card) (d : ScoreDetails) :
  fold_left awardCard cards d
  = mkDetails (mostCards d) (mostSpades d)
      (if existsb isTenOfDiamonds cards then 2 else bigCasino d)
      (if existsb isTwoOfSpades cards then 1 else littleCasino d)
      (aces d + length (List.filter isAce cards))
      (total d) (cardCount d) (spadeCount d).
Proof.
  revert d. induction cards as [|c cards IH]; intros d.
  - simpl. rewrite Nat.add_0_r. destruct d; reflexivity.
  - simpl fold_left. rewrite IH. unfold awardCard.
    simpl existsb. simpl List.filter.
    unfold isAce at 2, isTenOfDiamonds at 2, isTwoOfSpades at 2.
    destruct (bool_decide (rank c = RA));
      destruct (bool_decide (rank c = R10) && bool_decide (suit c = Diamonds));
      destruct (bool_decide (rank c = R2) && bool_decide (suit c = Spades));
      simpl;
      repeat match goal with
             | |- context [if ?b then _ else _] => destruct b
             end;
      f_equal; lia.
Qed.

Lemma calculateScores_scores (caps : list (list (list Card))) :
  (calculateScores caps).1.1
  = [playerScore (concat (capturesOf caps 0)) (concat (capturesOf caps 1));
     playerScore (concat (capturesOf caps 1)) (concat (capturesOf caps 0))].
Proof.
  unfold calculateScores.
  rewrite !mostPoints_category. cbv zeta. cbn [fst snd].
  rewrite !fold_awardCard. unfold sumTotal, playerScore. cbn.
  reflexivity.
Qed.


Lemma calculateScores_winner (caps : list (list (list Card))) :
  (calculateScores caps).2
  = match (calculateScores caps).1.1 with
    | [score0; score1] =>
        if score1 <? score0 then Some 0
        else if score0 <? score1 then Some 1
        else None
    | _ => None
    end.
Proof. unfold calculateScores. rewrite !mostPoints_category. reflexivity. Qed.




(* ===================================================================== *)
(** ** The deal of round 2 *)
(* ===================================================================== *)

Section Deal.

Lemma popCard_rev (c : Card) (top : list Card) :
  popCard (rev (c :: top)) = Some (c, rev top).
Proof. unfold popCard. rewrite rev_involutive. reflexivity. Qed.

Lemma everyOther_cons (c : Card) (l : list Card) :
  everyOther (c :: l) = c :: everyOther (tail l).
Proof. destruct l; reflexivity. Qed.

(** Dealing [n] rounds from a working deck whose cards, read from the top,
    are [top]. *)
Lemma dealLoop_rev (n : nat) :
  forall (top hand0 hand1 : list Card),
    2 * n <= length top ->
    dealLoop n hand0 hand1 (rev top)
    = (hand0 ++ everyOther (take (2 * n) top),
       hand1 ++ everyOther (tail (take (2 * n) top)),
       rev (drop (2 * n) top)).
Proof.
  induction n as [|n IH]; intros top hand0 hand1 Hlen.
  - simpl. rewrite !app_nil_r. reflexivity.
  - destruct top as [|a [|b top]]; simpl in Hlen; try lia.
    cbn [dealLoop]. unfold dealOne at 1. rewrite popCard_rev.
    unfold dealOne at 1. rewrite popCard_rev.
    rewrite IH by lia.
    replace (2 * S n) with (S (S (2 * n))) by lia.
    cbn [take drop tail firstn skipn].
    rewrite (everyOther_cons a), (everyOther_cons b). cbn [tail].
    rewrite <- !app_assoc. reflexivity.
Qed.

Lemma everyOther_length (n : nat) :
  forall l : list Card,
    length l = 2 * n ->
    length (everyOther l) = n /\ length (everyOther (tail l)) = n.
Proof.
  induction n as [|n IH]; intros l Hlen.
  - destruct l; [split; reflexivity | simpl in Hlen; lia].
  - destruct l as [|a [|b l]]; simpl in Hlen; try lia.
    destruct (IH l ltac:(lia)) as [H0 H1].
    rewrite (everyOther_cons a). cbn [tail].
    rewrite (everyOther_cons b). cbn [length].
    split; congruence.
Qed.

Lemma startNextRound_short_deck (g : GameState) :
  length (deck g) < 20 -> startNextRound g = g.
Proof.
  intros Hlt. unfold startNextRound.
  apply Nat.ltb_lt in Hlt. rewrite Hlt. reflexivity.
Qed.

(** The state after the deal, field by field. *)
Lemma startNextRound_deals (g : GameState) :
  playerHands g = [[]; []] ->
  20 <= length (deck g) ->
  startNextRound g
  = setTable (tableCards g)
      (setRound 2
         (setHands [everyOther (take 20 (rev (deck g)));
                    everyOther (tail (take 20 (rev (deck g))))]
            (setDeck (take (length (deck g) - 20) (deck g)) g))).
Proof.
  intros Hhands Hlen. unfold startNextRound.
  apply Nat.ltb_ge in Hlen as Hge. rewrite Hge.
  rewrite Hhands.
  change (handOf [[]; []] 0) with (@nil Card).
  change (handOf [[]; []] 1) with (@nil Card).
  pose proof (dealLoop_rev 10 (rev (deck g)) [] []) as Hdeal.
  rewrite rev_involutive, length_rev in Hdeal.
  rewrite Hdeal by lia. clear Hdeal.
  cbn [app Nat.mul Nat.add].
  rewrite skipn_rev, rev_involutive. reflexivity.
Qed.

End Deal.

(** C8.  With fewer than 20 cards in the deck [startNextRound] answers the
    state it was given.  With both hands empty and at least 20 cards in the
    deck it sets the round to 2, takes the 20 top cards of the deck (the end
    of the array) and deals them alternately, the first to player 0, so that
    each hand holds exactly 10 cards; the rest of the deck, the table, the
    captures and the player to move are as before. *)
Theorem C8_round_transition (g : GameState) :
  (length (deck g) < 20 -> startNextRound g = g)
  /\ (playerHands g = [[]; []] ->
      20 <= length (deck g) ->
      let top := take 20 (rev (deck g)) in
      round (startNextRound g) = 2
      /\ playerHands (startNextRound g)
         = [everyOther top; everyOther (tail top)]
      /\ length (everyOther top) = 10
      /\ length (everyOther (tail top)) = 10
      /\ deck (startNextRound g) = take (length (deck g) - 20) (deck g)
      /\ tableCards (startNextRound g) = tableCards g
      /\ playerCaptures (startNextRound g) = playerCaptures g
      /\ currentPlayer (startNextRound g) = currentPlayer g).
Proof.
  split; [apply startNextRound_short_deck|].
  intros Hhands Hlen top.
  rewrite (startNextRound_deals g Hhands Hlen). fold top.
  assert (length top = 2 * 10) as Htop.
  { unfold top. rewrite length_take, length_rev. lia. }
  destruct (everyOther_length 10 top Htop) as [H0 H1].
  cbn. auto 10.
Qed.

(** C8 on a deck of exactly twenty cards: ten cards each, dealt alternately
    from the top, and an empty deck. *)
Lemma C8_round_transition_witness :
  let g := setDeck twentyCards (emptyState 0 1) in
  round (startNextRound g) = 2
  /\ playerHands (startNextRound g)
     = [[card RA Spades; card R2 Spades; card R3 Spades; card R4 Spades;
         card R5 Spades; card R6 Diamonds; card R7 Diamonds; card R8 Diamonds;
         card R9 Diamonds; card R10 Diamonds];
        [card RA Hearts; card R2 Hearts; card R3 Hearts; card R4 Hearts;
         card R5 Hearts; card R6 Clubs; card R7 Clubs; card R8 Clubs;
         card R9 Clubs; card R10 Clubs]]
  /\ deck (startNextRound g) = []
  /\ startNextRound (setDeck (tail twentyCards) (emptyState 0 1))
     = setDeck (tail twentyCards) (emptyState 0 1).
Proof.
  intros g.
  destruct (C8_round_transition g) as [_ H].
  destruct (H eq_refl ltac:(simpl; lia)) as (Hr & Hh & _ & _ & Hd & _).
  destruct (C8_round_transition (setDeck (tail twentyCards) (emptyState 0 1)))
    as [Hsmall _].
  split; [exact Hr|]. split; [exact Hh|]. split; [exact Hd|].
  apply Hsmall. simpl. lia.
Defined.

(* ===================================================================== *)
(** ** Taking a staging stack apart *)
(* ===================================================================== *)

Section TakeApart.

Lemma sortBack_fold (cards : list Card) :
  forall acc : Sorted,
    fold_left sortBackStep cards acc
    = mkSorted
        (handCards acc
           ++ map stripSource (List.filter (hasSource SrcHand) cards))
        (newLooseCards acc
           ++ map stripSource (List.filter fromElsewhere cards))
        (opponentCards acc
           ++ map stripSource
                (List.filter (hasSource SrcOpponentCapture) cards)).
Proof.
  induction cards as [|c cards IH]; intros acc.
  - simpl. rewrite !app_nil_r. destruct acc; reflexivity.
  - cbn [fold_left]. rewrite IH. unfold sortBackStep, fromElsewhere.
    cbn [List.filter].
    destruct (hasSource SrcHand c) eqn:Hhand;
      destruct (hasSource SrcOpponentCapture c) eqn:Hopp;
      cbn [negb andb map handCards newLooseCards opponentCards];
      rewrite <- ?app_assoc; try reflexivity.
    unfold hasSource in Hhand, Hopp.
    apply bool_decide_eq_true in Hhand, Hopp. congruence.
Qed.

Lemma sortBack_filters (cards : list Card) :
  sortBack cards
  = mkSorted (map stripSource (List.filter (hasSource SrcHand) cards))
             (map stripSource (List.filter fromElsewhere cards))
             (map stripSource
                (List.filter (hasSource SrcOpponentCapture) cards)).
Proof. unfold sortBack. rewrite sortBack_fold. reflexivity. Qed.

Lemma giveBack_handedBack (groups : list (list Card)) (cards : list Card) :
  giveBack groups cards = handedBack groups cards.
Proof.
  induction groups as [|g groups IH]; [reflexivity|].
  destruct groups as [|g' groups]; [reflexivity|].
  change (giveBack (g :: g' :: groups) cards)
    with (g :: giveBack (g' :: groups) cards).
  rewrite IH. reflexivity.
Qed.

Lemma handOf_insert_eq (hands : list (list Card)) (p : nat) (h : list Card) :
  p < length hands -> handOf (<[p:=h]> hands) p = h.
Proof. intros Hp. unfold handOf. rewrite list_lookup_insert_eq; done. Qed.

Lemma handOf_insert_ne (hands : list (list Card)) (p q : nat) (h : list Card) :
  p <> q -> handOf (<[p:=h]> hands) q = handOf hands q.
Proof. intros Hp. unfold handOf. rewrite list_lookup_insert_ne; done. Qed.

Lemma capturesOf_insert_eq (caps : list (list (list Card))) (p : nat)
    (c : list (list Card)) :
  p < length caps -> capturesOf (<[p:=c]> caps) p = c.
Proof. intros Hp. unfold capturesOf. rewrite list_lookup_insert_eq; done. Qed.

Lemma capturesOf_insert_ne (caps : list (list (list Card))) (p q : nat)
    (c : list (list Card)) :
  p <> q -> capturesOf (<[p:=c]> caps) q = capturesOf caps q.
Proof. intros Hp. unfold capturesOf. rewrite list_lookup_insert_ne; done. Qed.

(** Where the cards of a stack go when it is taken apart. *)
Lemma takeApart_zones (g : GameState) (stack : TemporaryStack) :
  currentPlayer g <= 1 ->
  length (playerHands g) = 2 ->
  length (playerCaptures g) = 2 ->
  let me := currentPlayer g in
  let opponent := 1 - currentPlayer g in
  let toHand :=
    map stripSource (List.filter (hasSource SrcHand) (scards stack)) in
  let toOpponent :=
    map stripSource
        (List.filter (hasSource SrcOpponentCapture) (scards stack)) in
  let toTable :=
    map stripSource (List.filter fromElsewhere (scards stack)) in
  let g' := takeApart g stack in
  handOf (playerHands g') me = handOf (playerHands g) me ++ toHand
  /\ handOf (playerHands g') opponent = handOf (playerHands g) opponent
  /\ capturesOf (playerCaptures g') opponent
     = match toOpponent with
       | [] => capturesOf (playerCaptures g) opponent
       | _ => handedBack (capturesOf (playerCaptures g) opponent) toOpponent
       end
  /\ capturesOf (playerCaptures g') me = capturesOf (playerCaptures g) me
  /\ tableCards g'
     = List.filter (stackIdIsNot (stackId stack)) (tableCards g)
         ++ map Loose toTable
  /\ currentPlayer g' = currentPlayer g.
Proof.
  intros Hp Hh Hc me opponent toHand toOpponent toTable g'.
  subst g'. unfold takeApart. rewrite sortBack_filters.
  cbn [handCards newLooseCards opponentCards].
  fold me opponent toHand toOpponent toTable.
  cbn [playerHands playerCaptures tableCards currentPlayer
       setCaptures setTable setHands].
  assert (me <> opponent) as Hne by (unfold me, opponent; lia).
  split; [apply handOf_insert_eq; unfold me; lia|].
  split; [apply handOf_insert_ne; exact Hne|].
  split; [|split; [|split; reflexivity]].
  - destruct toOpponent as [|c rest] eqn:Hto; [reflexivity|].
    cbn [length Nat.ltb Nat.leb].
    rewrite capturesOf_insert_eq by (unfold opponent; lia).
    apply giveBack_handedBack.
  - destruct toOpponent as [|c rest]; [reflexivity|].
    cbn [length Nat.ltb Nat.leb].
    apply capturesOf_insert_ne. unfold me, opponent. lia.
Qed.

End TakeApart.

(** C10.  When a staging stack is cancelled or disbanded in a state with two
    hands and two capture sets, the cards tagged [opponentCapture] are put,
    in order and untagged, on top of the last capture group of the opponent,
    and form a new group only when the opponent has no group; the cards
    tagged [hand] are appended to the hand of the acting player; every other
    card of the stack is appended to the table as a loose card, the stack
    itself being removed.  Nothing else moves; cancelling keeps the turn and
    disbanding passes it. *)
Theorem C10_cards_go_back (g : GameState) (stack : TemporaryStack) :
  currentPlayer g <= 1 ->
  length (playerHands g) = 2 ->
  length (playerCaptures g) = 2 ->
  let me := currentPlayer g in
  let opponent := 1 - currentPlayer g in
  let toHand :=
    map stripSource (List.filter (hasSource SrcHand) (scards stack)) in
  let toOpponent :=
    map stripSource
        (List.filter (hasSource SrcOpponentCapture) (scards stack)) in
  let toTable :=
    map stripSource (List.filter fromElsewhere (scards stack)) in
  forall g' : GameState,
    g' = handleCancelStagingStack g stack
    \/ g' = handleDisbandStagingStack g stack ->
    handOf (playerHands g') me = handOf (playerHands g) me ++ toHand
    /\ handOf (playerHands g') opponent = handOf (playerHands g) opponent
    /\ capturesOf (playerCaptures g') opponent
       = match toOpponent, capturesOf (playerCaptures g) opponent with
         | [], groups => groups
         | _, [] => [toOpponent]
         | _, groups =>
             removelast groups ++ [List.last groups [] ++ toOpponent]
         end
    /\ capturesOf (playerCaptures g') me = capturesOf (playerCaptures g) me
    /\ tableCards g'
       = List.filter (stackIdIsNot (stackId stack)) (tableCards g)
           ++ map Loose toTable.
Proof.
  intros Hp Hh Hc me opponent toHand toOpponent toTable g' Hg'.
  pose proof (takeApart_zones g stack Hp Hh Hc) as H. cbv zeta in H.
  subst me opponent toHand toOpponent toTable.
  destruct H as (H1 & H2 & H3 & H4 & H5 & _).
  assert (forall s : GameState,
            playerHands s = playerHands (takeApart g stack) ->
            playerCaptures s = playerCaptures (takeApart g stack) ->
            tableCards s = tableCards (takeApart g stack) ->
            s = g' ->
            handOf (playerHands g') (currentPlayer g)
            = handOf (playerHands g) (currentPlayer g)
                ++ map stripSource
                     (List.filter (hasSource SrcHand) (scards stack))
            /\ handOf (playerHands g') (1 - currentPlayer g)
               = handOf (playerHands g) (1 - currentPlayer g)
            /\ capturesOf (playerCaptures g') (1 - currentPlayer g)
               = match
                   map stripSource
                     (List.filter (hasSource SrcOpponentCapture)
                                  (scards stack)),
                   capturesOf (playerCaptures g) (1 - currentPlayer g)
                 with
                 | [], groups => groups
                 | _, [] =>
                     [map stripSource
                        (List.filter (hasSource SrcOpponentCapture)
                                     (scards stack))]
                 | _, groups =>
                     removelast groups
                       ++ [List.last groups []
                             ++ map stripSource
                                  (List.filter (hasSource SrcOpponentCapture)
                                               (scards stack))]
                 end
            /\ capturesOf (playerCaptures g') (currentPlayer g)
               = capturesOf (playerCaptures g) (currentPlayer g)
            /\ tableCards g'
               = List.filter (stackIdIsNot (stackId stack)) (tableCards g)
                   ++ map Loose
                        (map stripSource
                           (List.filter fromElsewhere (scards stack))))
    as Hall.
  { intros s Ehands Ecaps Etable <-.
    rewrite Ehands, Ecaps, Etable, H1, H2, H3, H4, H5.
    repeat split. unfold handedBack.
    destruct (map stripSource
                (List.filter (hasSource SrcOpponentCapture) (scards stack)));
      [reflexivity|].
    destruct (capturesOf (playerCaptures g) (1 - currentPlayer g));
      reflexivity. }
  destruct Hg' as [Hg' | Hg'].
  - apply (Hall (handleCancelStagingStack g stack)); auto.
  - apply (Hall (handleDisbandStagingStack g stack)); auto.
Qed.

(** C10 on [mixedState]: the 5 goes on top of the opponent's last group,
    the 2 back to the hand, the 3 to the table. *)
Lemma C10_cards_go_back_witness :
  handleCancelStagingStack mixedState mixedStack
  = setCaptures [[]; [[card R4 Clubs; card R4 Hearts];
                      [card R9 Spades; card R9 Hearts; card R5 Clubs]]]
      (setTable [Loose (card RK Hearts); Loose (card R3 Spades)]
         (setHands [[card R8 Diamonds; card R2 Hearts]; [card R6 Clubs]]
            (emptyState 0 1)))
  /\ capturesOf
       (playerCaptures (handleDisbandStagingStack mixedState mixedStack)) 1
     = [[card R4 Clubs; card R4 Hearts];
        [card R9 Spades; card R9 Hearts; card R5 Clubs]].
Proof.
  split; [reflexivity|].
  exact (proj1 (proj2 (proj2
    (C10_cards_go_back mixedState mixedStack
       ltac:(simpl; lia) eq_refl eq_refl
       (handleDisbandStagingStack mixedState mixedStack)
       (or_intror eq_refl))))).
Defined.

(* ===================================================================== *)
(** ** Reinforcing a build *)
(* ===================================================================== *)

Lemma resultingBuild_pushed (g : GameState) (table : list TableEntity)
    (b : Build) :
  tableCards g = table ++ [TBuild b] -> resultingBuild g = Some b.
Proof. intros H. unfold resultingBuild. rewrite H, last_snoc. reflexivity. Qed.

(** C5 (as amended).  Every reinforcement leaves the numeric value of the
    build unchanged and makes the build non-extendable.  The reinforced
    build is owned by the acting player when a stack is dropped on it through
    [handleReinforceBuildWithStack]; when an all-table-card stack is merged
    into an opponent's build ([handleReinforceOpponentBuildWithStack]) or an
    equal-value card is played on a build ([handleAddToOwnBuild]) the build
    keeps the owner it had.  Merging a stack of table cards into the own
    build ([handleMergeIntoOwnBuild]) keeps value and owner too, and leaves
    [isExtendable] as it was. *)
Theorem C5_reinforcement (g : GameState) (stack : TemporaryStack)
    (target : Build) :
  (forall newBuildId : nat,
      resultingBuild (handleReinforceBuildWithStack newBuildId g stack target)
      = Some (mkBuild newBuildId
                (bcards target ++ map stripSource (scards stack))
                (bvalue target) (currentPlayer g) false))
  /\ resultingBuild (handleReinforceOpponentBuildWithStack g stack target)
     = Some (mkBuild (buildId target)
               (bcards target ++ map stripSource (scards stack))
               (bvalue target) (bowner target) false)
  /\ (forall played : DraggedItem,
        rankValue (rank (dcard played)) = bvalue target ->
        is_Some (removeCardFromHand (playerHands g) (currentPlayer g)
                                    (dcard played)) ->
        resultingBuild (handleAddToOwnBuild g played target)
        = Some (mkBuild (buildId target) (bcards target ++ [dcard played])
                  (bvalue target) (bowner target) false))
  /\ resultingBuild (handleMergeIntoOwnBuild g stack target)
     = Some (mkBuild (buildId target)
               (bcards target ++ map stripSource (scards stack))
               (bvalue target) (bowner target) (isExtendable target)).
Proof.
  split; [|split; [|split]].
  - intros newBuildId. eapply resultingBuild_pushed. reflexivity.
  - eapply resultingBuild_pushed. reflexivity.
  - intros played Hvalue [[hands found] Hremoved].
    unfold handleAddToOwnBuild. rewrite Hremoved, Hvalue, Nat.eqb_refl.
    eapply resultingBuild_pushed. reflexivity.
  - eapply resultingBuild_pushed. reflexivity.
Qed.

(** C5 on [ownEightState]: player 0 plays an 8 on the own build of 8. *)
Lemma C5_reinforcement_witness :
  resultingBuild
    (handleAddToOwnBuild ownEightState
       (mkDragged (card R8 Diamonds) SrcHand) ownEight)
  = Some (mkBuild 2 [card R5 Spades; card R3 Hearts; card R8 Diamonds]
                  8 0 false).
Proof.
  exact (proj1 (proj2 (proj2
           (C5_reinforcement ownEightState tableStack ownEight)))
           (mkDragged (card R8 Diamonds) SrcHand) eq_refl
           (ex_intro _ _ eq_refl)).
Defined.

(** C5 as stated fails: player 0 merges a stack of table cards that sums to
    8 into the build of 8 of player 1; the validator allows it, the value
    stays 8 and the build stops being extendable, and its owner is still
    player 1, not the acting player 0. *)
Lemma C5_owner_kept :
  currentPlayer reinforceState = 0
  /\ validateReinforceOpponentBuildWithStack tableStack opponentEight 0
     = Valid None
  /\ resultingBuild
       (handleReinforceOpponentBuildWithStack reinforceState tableStack
                                              opponentEight)
     = Some (mkBuild 1 [card R5 Spades; card R3 Hearts;
                        card R6 Clubs; card R2 Diamonds] 8 1 false)
  /\ (forall b : Build,
        resultingBuild
          (handleReinforceOpponentBuildWithStack reinforceState tableStack
                                                 opponentEight) = Some b ->
        bowner b <> currentPlayer reinforceState).
Proof.
  split; [reflexivity|]. split; [reflexivity|]. split; [reflexivity|].
  intros b Hb. vm_compute in Hb. injection Hb as <-. discriminate.
Qed.

(* ===================================================================== *)
(** ** Whose turn it is after a handler *)
(* ===================================================================== *)

Section Turns.


Lemma nextPlayer_turn (g : GameState) :
  currentPlayer (nextPlayer g) = (currentPlayer g + 1) mod 2.
Proof. reflexivity. Qed.













End Turns.




(* ===================================================================== *)
(** ** The trail restriction *)
(* ===================================================================== *)






(* ===================================================================== *)
(** ** Capturability *)
(* ===================================================================== *)

Section Capturability.

Lemma otherCard_spec (c p : Card) :
  otherCard c p = true <-> rank c <> rank p \/ suit c <> suit p.
Proof.
  unfold otherCard. rewrite orb_true_iff, !negb_true_iff.
  rewrite !bool_decide_eq_false. reflexivity.
Qed.

Lemma holdsOther_spec (hand : list Card) (played : Card) (v : nat) :
  holdsOther hand played v = true <-> holdsCaptureCard hand played v.
Proof.
  unfold holdsOther, holdsCaptureCard. rewrite existsb_exists.
  split; intros (c & Hin & Hc); exists c; split; try exact Hin.
  - apply andb_true_iff in Hc as [Hv Ho].
    apply Nat.eqb_eq in Hv. apply otherCard_spec in Ho. auto.
  - destruct Hc as [Hv Ho]. apply andb_true_iff. split.
    + apply Nat.eqb_eq, Hv.
    + apply otherCard_spec, Ho.
Qed.

Lemma holdsOther_false (hand : list Card) (played : Card) (v : nat) :
  ~ holdsCaptureCard hand played v -> holdsOther hand played v = false.
Proof.
  intros H. destruct (holdsOther hand played v) eqn:E; [|reflexivity].
  apply holdsOther_spec in E. contradiction.
Qed.




Lemma validateAddToOpponentBuild_needs_card (build : Build) (played : Card)
    (hand : list Card) (table : list TableEntity) (p : nat) :
  valid (validateAddToOpponentBuild build played hand table p) = true ->
  validateAddToOpponentBuild build played hand table p
  = Valid (Some (bvalue build + rankValue (rank played)))
  /\ holdsCaptureCard hand played (bvalue build + rankValue (rank played)).
Proof.
  unfold validateAddToOpponentBuild.
  destruct (bowner build =? p); [discriminate|].
  destruct (hasActiveBuild table p); [discriminate|].
  destruct (negb (isExtendable build) || (5 <=? length (bcards build)));
    [discriminate|].
  cbv zeta.
  destruct (10 <? bvalue build + rankValue (rank played)); [discriminate|].
  destruct (holdsOther hand played (bvalue build + rankValue (rank played)))
    eqn:E; [|discriminate].
  intros _. split; [reflexivity|]. apply holdsOther_spec, E.
Qed.

Lemma uniqueValues_In (values : list nat) :
  forall (seen : list nat) (v : nat),
    In v (uniqueValues seen values) -> In v values.
Proof.
  induction values as [|x values IH]; intros seen v Hin; [exact Hin|].
  simpl in Hin. destruct (existsb (Nat.eqb x) seen).
  - right. eapply IH, Hin.
  - destruct Hin as [-> | Hin]; [left; reflexivity|].
    right. eapply IH, Hin.
Qed.

Lemma findPossibleBuildsFromStack_needs_card (stack : TemporaryStack)
    (hand : list Card) (table : list TableEntity) (p v : nat) :
  In v (findPossibleBuildsFromStack stack hand table p) ->
  exists used : Card,
    List.filter (hasSource SrcHand) (scards stack) = [used]
    /\ holdsCaptureCard hand used v
    /\ canPartitionIntoSums (map stripSource (scards stack)) v = true
    /\ hasActiveBuild table p = false.
Proof.
  unfold findPossibleBuildsFromStack.
  destruct (hasActiveBuild table p); [intros []|].
  destruct (List.filter (hasSource SrcHand) (scards stack))
    as [|used [|other rest]]; [intros [] | | intros []].
  destruct (List.filter (fun c => otherCard c used) hand)
    as [|c0 remaining] eqn:Hrem; [intros []|].
  rewrite <- Hrem. clear c0 remaining Hrem.
  intros Hin. apply filter_In in Hin as [Hin Hpart].
  apply uniqueValues_In in Hin. apply in_map_iff in Hin as (c & Hv & Hc).
  apply filter_In in Hc as [Hc Hother]. apply otherCard_spec in Hother.
  exists used. split; [reflexivity|]. split; [|auto].
  exists c. auto.
Qed.

End Capturability.



(* ===================================================================== *)
(** ** One active build per player *)
(* ===================================================================== *)

(** The guard of the sibling paths: with an active build of the player on
    the table, a direct build, the extension of an opponent's build and the
    finalization of a staging stack are all refused. *)
Lemma active_build_guards (g : GameState) :
  hasActiveBuild (tableCards g) (currentPlayer g) = true ->
  (forall (newBuildId : nat) (played : DraggedItem) (cards : list Card)
          (V : nat) (bigger smaller : option Card),
      validateBuild (handOf (playerHands g) (currentPlayer g)) (dcard played)
                    V (tableCards g) (currentPlayer g)
      = Invalid OneActiveBuild
      /\ handleBuild newBuildId g played cards V bigger smaller = g)
  /\ (forall (build : Build) (played : Card) (hand : list Card),
        valid (validateAddToOpponentBuild build played hand (tableCards g)
                                          (currentPlayer g)) = false)
  /\ (forall (newBuildId : nat) (stack : TemporaryStack),
        findPossibleBuildsFromStack stack
          (handOf (playerHands g) (currentPlayer g)) (tableCards g)
          (currentPlayer g) = []
        /\ handleFinalizeStagingStack newBuildId g stack = FinalizeError).
Proof.
  intros Hactive. split; [|split].
  - intros. unfold handleBuild, validateBuild. rewrite Hactive. auto.
  - intros. unfold validateAddToOpponentBuild. rewrite Hactive.
    destruct (bowner build =? currentPlayer g); reflexivity.
  - intros. unfold handleFinalizeStagingStack, findPossibleBuildsFromStack.
    rewrite Hactive. auto.
Qed.

(** C4 does not hold of the code.  Player 0 owns the active build [ownSix]
    and the staging stack [tableFiveStack] (a 3 and a 2 of the table), and
    drops the 4 of diamonds on the stack while holding a 9:
    [validateTemporaryStackBuild] allows a build of 9 and
    [handleCreateBuildFromStack] creates it, so that player 0 owns two
    permanent builds and the state has changed. *)
Theorem C4_second_build_created :
  hasActiveBuild (tableCards secondBuildState) 0 = true
  /\ validateTemporaryStackBuild tableFiveStack (card R4 Diamonds)
       (handOf (playerHands secondBuildState) 0)
       (tableCards secondBuildState) 0 = Valid (Some 9)
  /\ handleCreateBuildFromStack 3 secondBuildState
       (mkDragged (card R4 Diamonds) SrcHand) tableFiveStack
     = nextPlayer
         (setTable
            [TBuild ownSix;
             TBuild (mkBuild 3 [tag SrcTable (card R3 Spades);
                                tag SrcTable (card R2 Diamonds);
                                card R4 Diamonds] 9 0 true)]
            (setHands [[card R9 Clubs; card R6 Hearts]; [card RK Clubs]]
                      secondBuildState))
  /\ length (buildsOf 0 secondBuildState) = 1
  /\ length (buildsOf 0 (handleCreateBuildFromStack 3 secondBuildState
                           (mkDragged (card R4 Diamonds) SrcHand)
                           tableFiveStack))
     = 2.
Proof. repeat split. Qed.

(* ===================================================================== *)
(** ** Finalizing a staging stack *)
(* ===================================================================== *)





(* ===================================================================== *)
(** ** Conservation of cards *)
(* ===================================================================== *)

Section Conservation.

Lemma takeCard_Permutation (c : Card) (h : list Card) :
  forall (found : Card) (rest : list Card),
    takeCard c h = Some (found, rest) -> Permutation h (found :: rest).
Proof.
  induction h as [|x h IH]; intros found rest Htake; [discriminate|].
  simpl in Htake. destruct (sameCard x c).
  - injection Htake as <- <-. reflexivity.
  - destruct (takeCard c h) as [[f r]|]; [|discriminate].
    injection Htake as <- <-.
    rewrite (IH f r eq_refl). apply perm_swap.
Qed.

Lemma concat_insert_Permutation (hands : list (list Card)) :
  forall (p : nat) (h rest : list Card) (found : Card),
    hands !! p = Some h ->
    Permutation h (found :: rest) ->
    Permutation (concat hands) (found :: concat (<[p:=rest]> hands)).
Proof.
  induction hands as [|h0 hands IH]; intros p h rest found Hp Hperm;
    [discriminate|].
  destruct p as [|p]; simpl in *.
  - injection Hp as ->. rewrite Hperm. reflexivity.
  - rewrite (IH p h rest found Hp Hperm). symmetry. apply Permutation_middle.
Qed.

Lemma removeCardFromHand_Permutation (hands hands' : list (list Card))
    (p : nat) (c found : Card) :
  removeCardFromHand hands p c = Some (hands', found) ->
  Permutation (concat hands) (found :: concat hands').
Proof.
  unfold removeCardFromHand.
  destruct (hands !! p) as [h|] eqn:Hp; [|discriminate].
  destruct (takeCard c h) as [[f rest]|] eqn:Htake; [|discriminate].
  intros [= <- <-].
  eapply concat_insert_Permutation; [exact Hp|].
  eapply takeCard_Permutation, Htake.
Qed.

(** A trail moves one card from a hand to the table and nothing else. *)
Lemma handleTrail_conserves (g : GameState) (c : Card) :
  Permutation (allCards g) (allCards (handleTrail g c)).
Proof.
  unfold handleTrail.
  destruct (removeCardFromHand (playerHands g) (currentPlayer g) c)
    as [[hands found]|] eqn:Hremoved; [|reflexivity].
  apply removeCardFromHand_Permutation in Hremoved.
  unfold allCards. apply Permutation_map.
  cbn [nextPlayer setCurrentPlayer setTable setHands playerHands tableCards
       playerCaptures deck].
  rewrite Hremoved, flat_map_app.
  cbn [flat_map entityCards app]. rewrite <- !app_assoc. cbn [app].
  etransitivity; [|apply Permutation_app_head, Permutation_middle].
  etransitivity; [|apply Permutation_middle]. reflexivity.
Qed.

Lemma everyOther_Permutation (l : list Card) :
  Permutation l (everyOther l ++ everyOther (tail l)).
Proof.
  induction l as [|a l IH]; [reflexivity|].
  rewrite everyOther_cons. cbn [tail app]. constructor.
  rewrite IH at 1. apply Permutation_app_comm.
Qed.

(** The deal of round 2 moves the twenty top cards of the deck to the two
    empty hands and nothing else. *)
Lemma startNextRound_conserves (g : GameState) :
  playerHands g = [[]; []] ->
  Permutation (allCards g) (allCards (startNextRound g)).
Proof.
  intros Hhands.
  destruct (Nat.lt_ge_cases (length (deck g)) 20) as [Hlt | Hge].
  - rewrite (startNextRound_short_deck g Hlt). reflexivity.
  - rewrite (startNextRound_deals g Hhands Hge).
    unfold allCards. apply Permutation_map.
    cbn [playerHands tableCards playerCaptures deck
         setTable setRound setHands setDeck].
    rewrite Hhands. cbn [concat app].
    rewrite app_nil_r.
    set (top := take 20 (rev (deck g))).
    rewrite (Permutation_app_comm (everyOther top ++ everyOther (tail top))).
    rewrite <- !app_assoc.
    apply Permutation_app_head, Permutation_app_head.
    rewrite <- (everyOther_Permutation top).
    rewrite <- (take_drop (length (deck g) - 20) (deck g)) at 1.
    apply Permutation_app_head.
    unfold top. rewrite firstn_rev. apply Permutation_rev.
Qed.

Lemma face_tag (src : Source) (c : Card) : face (tag src c) = face c.
Proof. reflexivity. Qed.

Lemma map_face_strip (cards : list Card) :
  map face (map stripSource cards) = map face cards.
Proof. rewrite map_map. apply map_ext. intros c. reflexivity. Qed.

Lemma sameCard_face (a b : Card) : sameCard a b = true -> face a = face b.
Proof.
  unfold sameCard, face. intros H. apply andb_true_iff in H as [Hr Hs].
  apply bool_decide_eq_true in Hr, Hs. congruence.
Qed.

Lemma takeCard_sameCard (c : Card) (h : list Card) :
  forall (found : Card) (rest : list Card),
    takeCard c h = Some (found, rest) -> sameCard found c = true.
Proof.
  induction h as [|x h IH]; intros found rest Htake; [discriminate|].
  simpl in Htake. destruct (sameCard x c) eqn:Hx.
  - injection Htake as <- <-. exact Hx.
  - destruct (takeCard c h) as [[f r]|]; [|discriminate].
    injection Htake as <- <-. eapply IH. reflexivity.
Qed.

Lemma removeCardFromHand_face (hands hands' : list (list Card)) (p : nat)
    (c found : Card) :
  removeCardFromHand hands p c = Some (hands', found) -> face found = face c.
Proof.
  unfold removeCardFromHand.
  destruct (hands !! p) as [h|]; [|discriminate].
  destruct (takeCard c h) as [[f rest]|] eqn:Htake; [|discriminate].
  intros [= <- <-]. eapply sameCard_face, takeCard_sameCard, Htake.
Qed.

(** The item found by [findIndex] and what replacing it does. *)
Lemma findIndex_insert {A : Type} (p : A -> bool) (l : list A) :
  forall i : nat,
    findIndex p l = Some i ->
    exists (before : list A) (x : A) (after : list A),
      l = before ++ x :: after
      /\ p x = true
      /\ forall y : A, <[i:=y]> l = before ++ y :: after.
Proof.
  induction l as [|x l IH]; intros i Hfind; [discriminate|].
  simpl in Hfind. destruct (p x) eqn:Hx.
  - injection Hfind as <-. exists [], x, l. auto.
  - destruct (findIndex p l) as [j|]; [|discriminate].
    injection Hfind as <-.
    destruct (IH j eq_refl) as (before & x' & after & -> & Hx' & Hins).
    exists (x :: before), x', after. split; [reflexivity|].
    split; [exact Hx'|]. intros y. simpl. rewrite Hins. reflexivity.
Qed.

(** Creating a staging stack moves one card of the hand and one loose card
    of the table into the new stack and nothing else. *)
Lemma handleCreateStagingStack_conserves (newStackId : nat) (g : GameState)
    (handCard tableCard : Card) :
  Permutation
    (allCards g)
    (allCards (handleCreateStagingStack newStackId g handCard tableCard)).
Proof.
  unfold handleCreateStagingStack.
  destruct (existsb (isStackOf (currentPlayer g)) (tableCards g));
    [reflexivity|].
  destruct (findIndex _ (tableCards g)) as [i|] eqn:Hfind; [|reflexivity].
  destruct (removeCardFromHand (playerHands g) (currentPlayer g) handCard)
    as [[hands found]|] eqn:Hremoved; [|reflexivity].
  apply findIndex_insert in Hfind
    as (before & x & after & Htable & Hx & Hinsert).
  destruct x as [x| |]; try discriminate.
  apply sameCard_face in Hx.
  pose proof (removeCardFromHand_face _ _ _ _ _ Hremoved) as Hfound.
  apply removeCardFromHand_Permutation in Hremoved.
  unfold allCards.
  cbn [setTable setHands playerHands tableCards playerCaptures deck].
  rewrite Hinsert, Htable, !map_app, !flat_map_app, !map_app.
  rewrite (Permutation_map face Hremoved).
  cbn [flat_map entityCards scards map app]. rewrite !map_app.
  cbn [map]. rewrite Hfound, Hx.
  destruct (rankValue (rank handCard) <? rankValue (rank tableCard));
    cbn [map app]; rewrite !face_tag; solve_Permutation.
Qed.

Lemma concat_insert_extend (hands : list (list Card)) :
  forall (p : nat) (extra : list Card),
    p < length hands ->
    Permutation (concat (<[p := handOf hands p ++ extra]> hands))
                (concat hands ++ extra).
Proof.
  induction hands as [|h hands IH]; intros p extra Hp; [simpl in Hp; lia|].
  destruct p as [|p].
  - change (handOf (h :: hands) 0) with h.
    cbn [insert list_insert concat]. solve_Permutation.
  - change (handOf (h :: hands) (S p)) with (handOf hands p).
    cbn [insert list_insert concat].
    rewrite IH by (simpl in Hp; lia). solve_Permutation.
Qed.

Lemma giveBack_concat (groups : list (list Card)) (cards : list Card) :
  concat (giveBack groups cards) = concat groups ++ cards.
Proof.
  induction groups as [|g groups IH]; [apply app_nil_r|].
  destruct groups as [|g' groups].
  - cbn. rewrite !app_nil_r. reflexivity.
  - change (giveBack (g :: g' :: groups) cards)
      with (g :: giveBack (g' :: groups) cards).
    cbn [concat]. rewrite IH. cbn [concat]. rewrite !app_assoc. reflexivity.
Qed.

Lemma captures_insert_extend (caps : list (list (list Card))) :
  forall (p : nat) (extra : list Card),
    p < length caps ->
    Permutation
      (concat (concat (<[p := giveBack (capturesOf caps p) extra]> caps)))
      (concat (concat caps) ++ extra).
Proof.
  induction caps as [|c caps IH]; intros p extra Hp; [simpl in Hp; lia|].
  destruct p as [|p].
  - change (capturesOf (c :: caps) 0) with c.
    cbn [insert list_insert concat]. rewrite !concat_app, giveBack_concat.
    solve_Permutation.
  - change (capturesOf (c :: caps) (S p)) with (capturesOf caps p).
    cbn [insert list_insert concat]. rewrite !concat_app.
    rewrite IH by (simpl in Hp; lia). solve_Permutation.
Qed.

(** Every card of a stack is sorted into exactly one of the three piles. *)
Lemma sorted_piles_Permutation (cards : list Card) :
  Permutation cards
    (List.filter (hasSource SrcHand) cards
       ++ List.filter (hasSource SrcOpponentCapture) cards
       ++ List.filter fromElsewhere cards).
Proof.
  induction cards as [|c cards IH]; [reflexivity|].
  cbn [List.filter]. unfold fromElsewhere at 1.
  destruct (hasSource SrcHand c) eqn:Hhand;
    destruct (hasSource SrcOpponentCapture c) eqn:Hopp; cbn [negb andb app].
  - unfold hasSource in Hhand, Hopp.
    apply bool_decide_eq_true in Hhand, Hopp. congruence.
  - constructor. exact IH.
  - rewrite IH at 1. solve_Permutation.
  - rewrite IH at 1. solve_Permutation.
Qed.

Lemma filter_all {A : Type} (p : A -> bool) (l : list A) :
  forallb p l = true -> List.filter p l = l.
Proof.
  induction l as [|x l IH]; [reflexivity|].
  cbn. intros H. apply andb_true_iff in H as [Hx Hl].
  rewrite Hx, (IH Hl). reflexivity.
Qed.

Lemma flat_map_Loose (cards : list Card) :
  flat_map entityCards (map Loose cards) = cards.
Proof.
  induction cards as [|c cards IH]; [reflexivity|].
  cbn. rewrite IH. reflexivity.
Qed.

(** Taking apart a stack that lies on the table, and is the only item with
    its [stackId], moves its cards to the hand, the table and the opponent's
    captures and nothing else. *)
Lemma takeApart_conserves (g : GameState) (stack : TemporaryStack)
    (before after : list TableEntity) :
  currentPlayer g <= 1 ->
  length (playerHands g) = 2 ->
  length (playerCaptures g) = 2 ->
  tableCards g = before ++ TStack stack :: after ->
  forallb (stackIdIsNot (stackId stack)) (before ++ after) = true ->
  Permutation (allCards g) (allCards (takeApart g stack)).
Proof.
  intros Hp Hh Hc Htable Hothers.
  unfold takeApart. rewrite sortBack_filters.
  cbn [handCards newLooseCards opponentCards].
  unfold allCards.
  cbn [setCaptures setTable setHands playerHands tableCards playerCaptures
       deck].
  set (toHand := List.filter (hasSource SrcHand) (scards stack)).
  set (toOpponent :=
         List.filter (hasSource SrcOpponentCapture) (scards stack)).
  set (toTable := List.filter fromElsewhere (scards stack)).
  assert (Permutation
            (concat (concat
               (if 0 <? length (map stripSource toOpponent)
                then <[1 - currentPlayer g :=
                         giveBack (capturesOf (playerCaptures g)
                                              (1 - currentPlayer g))
                                  (map stripSource toOpponent)]>
                       (playerCaptures g)
                else playerCaptures g)))
            (concat (concat (playerCaptures g)) ++ map stripSource toOpponent))
    as Hcaps.
  { destruct (map stripSource toOpponent) as [|c rest] eqn:Hto.
    - cbn. rewrite app_nil_r. reflexivity.
    - cbn [length Nat.ltb Nat.leb]. rewrite <- Hto.
      apply captures_insert_extend. lia. }
  rewrite !map_app, (Permutation_map face Hcaps).
  rewrite (Permutation_map face
             (concat_insert_extend (playerHands g) (currentPlayer g)
                (map stripSource toHand) ltac:(lia))).
  rewrite Htable, List.filter_app. cbn [List.filter].
  replace (stackIdIsNot (stackId stack) (TStack stack)) with false
    by (cbn; rewrite Nat.eqb_refl; reflexivity).
  rewrite <- List.filter_app, (filter_all _ _ Hothers).
  rewrite !flat_map_app, flat_map_Loose. cbn [flat_map entityCards].
  rewrite !map_app, !map_face_strip.
  rewrite (Permutation_map face (sorted_piles_Permutation (scards stack)))
    at 1.
  fold toHand toOpponent toTable. rewrite !map_app.
  solve_Permutation.
Qed.

(** Cancelling and disbanding a stack of the table conserve the cards. *)
Lemma cancel_and_disband_conserve (g : GameState) (stack : TemporaryStack)
    (before after : list TableEntity) :
  currentPlayer g <= 1 ->
  length (playerHands g) = 2 ->
  length (playerCaptures g) = 2 ->
  tableCards g = before ++ TStack stack :: after ->
  forallb (stackIdIsNot (stackId stack)) (before ++ after) = true ->
  Permutation (allCards g) (allCards (handleCancelStagingStack g stack))
  /\ Permutation (allCards g) (allCards (handleDisbandStagingStack g stack)).
Proof.
  intros Hp Hh Hc Htable Hothers.
  pose proof (takeApart_conserves g stack before after Hp Hh Hc Htable
                Hothers) as H.
  split; exact H.
Qed.

End Conservation.

(** C1 does not hold of the code.  Player 0 holds the 8 of diamonds and owns
    the staging stack [eightStack] (a 5 and a 3 of the table); the 8 is
    dropped on the stack, whose sum it equals, and [handleCapture] is called
    with the stack as the only selected item.  The two cards of the stack go
    to the captures of player 0 together with the 8 of diamonds, while the
    hand is left as it was: the 8 of diamonds is now both in the hand and in
    the capture group, and the cards of the game are no longer the same
    multiset. *)
Theorem C1_capture_duplicates_card :
  let before := eightStackState in
  let after :=
    handleCapture 0 before (mkDragged (card R8 Diamonds) SrcHand)
                  [TStack eightStack] None in
  playerHands after = playerHands before
  /\ tableCards after = []
  /\ playerCaptures after
     = [[[tag SrcTable (card R5 Hearts); tag SrcTable (card R3 Spades);
          card R8 Diamonds]]; []]
  /\ copies R8 Diamonds before = 1
  /\ copies R8 Diamonds after = 2
  /\ ~ Permutation (allCards before) (allCards after).
Proof.
  intros before after.
  split; [reflexivity|]. split; [reflexivity|]. split; [reflexivity|].
  split; [reflexivity|]. split; [reflexivity|].
  intros Hperm. apply Permutation_length in Hperm. discriminate Hperm.
Qed.

(** The sibling path keeps the cards: when the capturing card is the hand
    card of the stack, it is taken out of the captured cards before the
    capture group is made, and the multiset of cards is unchanged. *)
Example capture_of_own_stack_conserves :
  Permutation
    (allCards sevenStackState)
    (allCards (handleCapture 0 sevenStackState
                 (mkDragged (card R7 Diamonds) SrcHand)
                 [TStack sevenStack] None)).
Proof.
  cbn. apply perm_skip, perm_skip, perm_swap.
Qed.

(* ===================================================================== *)
(** ** The structure of the state is kept by every handler *)
(* ===================================================================== *)

Section Shape.




















End Shape.



(* ===================================================================== *)
(** ** Staging stacks: one per player, and no build among them *)
(* ===================================================================== *)

Section Stacks.

Lemma existsb_false_filter {A : Type} (f : A -> bool) (l : list A) :
  existsb f l = false -> List.filter f l = [].
Proof.
  induction l as [|x l IH]; [reflexivity|].
  cbn. intros H. apply orb_false_iff in H as [Hx Hl].
  rewrite Hx. apply IH, Hl.
Qed.

Lemma filter_filter_length {A : Type} (f q : A -> bool) (l : list A) :
  length (List.filter f (List.filter q l)) <= length (List.filter f l).
Proof.
  induction l as [|x l IH]; [reflexivity|].
  cbn. destruct (q x), (f x) eqn:Hf; cbn; rewrite ?Hf; cbn; lia.
Qed.

(** A stack of [owner] put on a table where [owner] has no stack. *)
Lemma stacks_after_push (table extra : list TableEntity) (owner p : nat)
    (s : TemporaryStack) :
  existsb (isStackOf owner) table = false ->
  sowner s = owner ->
  List.filter (isStackOf p) extra = [] ->
  length (List.filter (isStackOf p) (table ++ TStack s :: extra))
  <= Nat.max 1 (length (List.filter (isStackOf p) (table ++ extra))).
Proof.
  intros Hnone Hs Hextra. rewrite !List.filter_app. cbn [List.filter isStackOf].
  rewrite Hs. destruct (owner =? p) eqn:Hp.
  - apply Nat.eqb_eq in Hp as <-.
    rewrite (existsb_false_filter _ _ Hnone), Hextra. cbn. lia.
  - lia.
Qed.

Lemma handleCreateStagingStack_stacks (newStackId : nat) (g : GameState)
    (handCard tableCard : Card) (p : nat) :
  length (stacksOf p (handleCreateStagingStack newStackId g handCard
                                               tableCard))
  <= Nat.max 1 (length (stacksOf p g)).
Proof.
  unfold stacksOf, handleCreateStagingStack.
  destruct (existsb (isStackOf (currentPlayer g)) (tableCards g)) eqn:Hnone;
    [lia|].
  destruct (findIndex _ (tableCards g)) as [i|] eqn:Hfind; [|lia].
  destruct (removeCardFromHand _ _ _) as [[hands found]|]; [|lia].
  apply findIndex_insert in Hfind
    as (before & x & after & Htable & Hx & Hinsert).
  destruct x as [x| |]; try discriminate.
  cbn [tableCards setTable setHands]. rewrite Hinsert, Htable.
  rewrite Htable in Hnone.
  rewrite !List.filter_app. cbn [List.filter isStackOf sowner].
  rewrite existsb_app in Hnone. apply orb_false_iff in Hnone as [Hb Ha].
  cbn in Ha.
  destruct (currentPlayer g =? p) eqn:Hp; [|lia].
  apply Nat.eqb_eq in Hp as <-.
  rewrite (existsb_false_filter _ _ Hb), (existsb_false_filter _ _ Ha).
  cbn. lia.
Qed.

Lemma handleStageSingleCardFromHand_stacks (newStackId : nat) (g : GameState)
    (c : Card) (p : nat) :
  length (stacksOf p (handleStageSingleCardFromHand newStackId g c))
  <= Nat.max 1 (length (stacksOf p g)).
Proof.
  unfold stacksOf, handleStageSingleCardFromHand.
  destruct (existsb (isStackOf (currentPlayer g)) (tableCards g)) eqn:Hnone;
    [lia|].
  destruct (removeCardFromHand _ _ _) as [[hands found]|]; [|lia].
  cbn [tableCards setTable setHands].
  pose proof (stacks_after_push (tableCards g) [] (currentPlayer g) p
                (mkStack newStackId [tag SrcHand c] (currentPlayer g))
                Hnone eq_refl eq_refl) as H.
  rewrite app_nil_r in H. exact H.
Qed.

Lemma handleStageOpponentCard_stacks (newStackId : nat) (g : GameState)
    (opponentCard : Card) (p : nat) :
  length (stacksOf p (handleStageOpponentCard newStackId g opponentCard))
  <= Nat.max 1 (length (stacksOf p g)).
Proof.
  unfold stacksOf, handleStageOpponentCard.
  destruct (existsb (isStackOf (currentPlayer g)) (tableCards g)) eqn:Hnone;
    [lia|].
  cbn [tableCards setTable setCaptures].
  pose proof (stacks_after_push (tableCards g) [] (currentPlayer g) p
                (mkStack newStackId [tag SrcOpponentCapture opponentCard]
                         (currentPlayer g))
                Hnone eq_refl eq_refl) as H.
  rewrite app_nil_r in H. exact H.
Qed.

Lemma filter_Loose_stacks (p : nat) (cards : list Card) :
  List.filter (isStackOf p) (map Loose cards) = [].
Proof. induction cards as [|c cards IH]; [reflexivity | exact IH]. Qed.

Lemma takeApart_stacks (g : GameState) (stack : TemporaryStack) (p : nat) :
  length (stacksOf p (takeApart g stack)) <= length (stacksOf p g).
Proof.
  unfold stacksOf, takeApart. cbn [tableCards setCaptures setTable setHands].
  rewrite List.filter_app, filter_Loose_stacks, app_nil_r.
  apply filter_filter_length.
Qed.

End Stacks.

(** X2.  No handler that makes a staging stack gives a player a second one:
    after [handleCreateStagingStack], [handleStageSingleCardFromHand] or
    [handleStageOpponentCard], called with any arguments, every player has
    at most one staging stack on the table, or no more than before; and
    cancelling, disbanding or finalizing a stack never adds one. *)
Theorem X2_one_staging_stack (g : GameState) (p : nat) :
  (forall (newStackId : nat) (handCard tableCard : Card),
      length (stacksOf p (handleCreateStagingStack newStackId g handCard
                                                   tableCard))
      <= Nat.max 1 (length (stacksOf p g)))
  /\ (forall (newStackId : nat) (c : Card),
        length (stacksOf p (handleStageSingleCardFromHand newStackId g c))
        <= Nat.max 1 (length (stacksOf p g)))
  /\ (forall (newStackId : nat) (opponentCard : Card),
        length (stacksOf p (handleStageOpponentCard newStackId g
                                                    opponentCard))
        <= Nat.max 1 (length (stacksOf p g)))
  /\ (forall stack : TemporaryStack,
        length (stacksOf p (handleCancelStagingStack g stack))
        <= length (stacksOf p g)
        /\ length (stacksOf p (handleDisbandStagingStack g stack))
           <= length (stacksOf p g))
  /\ (forall (newBuildId : nat) (stack : TemporaryStack) (g' : GameState),
        handleFinalizeStagingStack newBuildId g stack = FinalizeState g' ->
        length (stacksOf p g') <= length (stacksOf p g)).
Proof.
  split; [|split; [|split; [|split]]].
  - intros. apply handleCreateStagingStack_stacks.
  - intros. apply handleStageSingleCardFromHand_stacks.
  - intros. apply handleStageOpponentCard_stacks.
  - intros stack. split; apply takeApart_stacks.
  - intros newBuildId stack g'. unfold handleFinalizeStagingStack.
    destruct (findPossibleBuildsFromStack _ _ _ _) as [|V [|W rest]];
      try discriminate.
    intros [= <-]. unfold stacksOf, nextPlayer.
    cbn [tableCards setCurrentPlayer setTable].
    rewrite List.filter_app. cbn [List.filter isStackOf]. rewrite app_nil_r.
    apply filter_filter_length.
Qed.

(** X2 on [fiveStackState], where player 0 has a stack: a finalize that makes a
    build leaves player 0 with no more stacks than before. *)
Lemma X2_one_staging_stack_witness :
  length (stacksOf 0 (nextPlayer
                        (setTable
                           [TBuild (mkBuild 3 [card R3 Spades; card R2 Hearts]
                                            5 0 true)]
                           fiveStackState)))
  <= length (stacksOf 0 fiveStackState).
Proof.
  exact (proj2 (proj2 (proj2 (proj2 (X2_one_staging_stack fiveStackState 0))))
           3 fiveStack _ eq_refl).
Defined.

(* ===================================================================== *)
(** ** Active builds *)
(* ===================================================================== *)

Section ActiveBuilds.

Lemma hasActiveBuild_existsb (table : list TableEntity) (p : nat) :
  hasActiveBuild table p = existsb (isBuildOf p) table.
Proof.
  unfold hasActiveBuild. induction table as [|e table IH]; [reflexivity|].
  cbn [existsb]. rewrite IH.
  destruct e as [c|b|s]; cbn; rewrite ?andb_true_r; reflexivity.
Qed.

Lemma hasActiveBuild_app (t1 t2 : list TableEntity) (p : nat) :
  hasActiveBuild (t1 ++ t2) p = hasActiveBuild t1 p || hasActiveBuild t2 p.
Proof. rewrite !hasActiveBuild_existsb. apply existsb_app. Qed.

(** Filtering stacks out of a table leaves its builds in place. *)
Lemma hasActiveBuild_filter (q : TableEntity -> bool)
    (table : list TableEntity) (p : nat) :
  (forall e : TableEntity, isBuild e = true -> q e = true) ->
  hasActiveBuild (List.filter q table) p = hasActiveBuild table p.
Proof.
  intros Hq. rewrite !hasActiveBuild_existsb.
  induction table as [|e table IH]; [reflexivity|].
  cbn. destruct (q e) eqn:He; cbn; rewrite IH; [reflexivity|].
  destruct e as [c|b|s]; cbn; try reflexivity.
  rewrite Hq in He by reflexivity. discriminate.
Qed.

Lemma stackIdIsNot_build (id : nat) (e : TableEntity) :
  isBuild e = true -> stackIdIsNot id e = true.
Proof. destruct e; [discriminate | reflexivity | discriminate]. Qed.

Lemma hasActiveBuild_Loose (cards : list Card) (p : nat) :
  hasActiveBuild (map Loose cards) p = false.
Proof. induction cards as [|c cards IH]; [reflexivity | exact IH]. Qed.

Lemma handleCreateStagingStack_builds (newStackId : nat) (g : GameState)
    (handCard tableCard : Card) (p : nat) :
  hasActiveBuild
    (tableCards (handleCreateStagingStack newStackId g handCard tableCard)) p
  = hasActiveBuild (tableCards g) p.
Proof.
  unfold handleCreateStagingStack.
  destruct (existsb _ (tableCards g)); [reflexivity|].
  destruct (findIndex _ (tableCards g)) as [i|] eqn:Hfind; [|reflexivity].
  destruct (removeCardFromHand _ _ _) as [[hands found]|]; [|reflexivity].
  apply findIndex_insert in Hfind
    as (before & x & after & Htable & Hx & Hinsert).
  destruct x as [x| |]; try discriminate.
  cbn [tableCards setTable setHands]. rewrite Hinsert, Htable.
  rewrite !hasActiveBuild_app. reflexivity.
Qed.

Lemma handleAddToStagingStack_builds (g : GameState) (handCard : Card)
    (stack : TemporaryStack) (p : nat) :
  hasActiveBuild (tableCards (handleAddToStagingStack g handCard stack)) p
  = hasActiveBuild (tableCards g) p.
Proof.
  unfold handleAddToStagingStack.
  destruct (removeCardFromHand _ _ _) as [[hands found]|]; [|reflexivity].
  cbn [tableCards setTable setHands].
  destruct (findIndex _ (tableCards g)) as [i|] eqn:Hfind.
  - apply findIndex_insert in Hfind
      as (before & x & after & Htable & Hx & Hinsert).
    rewrite Hinsert, Htable, !hasActiveBuild_app.
    destruct x as [x|b|s]; try discriminate. reflexivity.
  - rewrite hasActiveBuild_app, hasActiveBuild_filter
      by (intros e; apply stackIdIsNot_build).
    cbn. apply orb_false_r.
Qed.

Lemma takeApart_builds (g : GameState) (stack : TemporaryStack) (p : nat) :
  hasActiveBuild (tableCards (takeApart g stack)) p
  = hasActiveBuild (tableCards g) p.
Proof.
  unfold takeApart. cbn [tableCards setCaptures setTable setHands].
  rewrite hasActiveBuild_app, hasActiveBuild_Loose, orb_false_r.
  apply hasActiveBuild_filter. intros e. apply stackIdIsNot_build.
Qed.

End ActiveBuilds.

(** X3.  Staging stacks do not count as builds: creating a staging stack
    (from a hand card on a loose card, from a single hand card, from an
    opponent's captured card), adding a hand card to one that lies on the
    table, cancelling and disbanding one leave [hasActiveBuild] as it was
    for every player, so
    that none of these moves changes what [validateBuild], [validateTrail]
    or [validateAddToOpponentBuild] answer about active builds. *)
Theorem X3_stacks_are_not_builds (g : GameState) (p : nat) :
  (forall (newStackId : nat) (handCard tableCard : Card),
      hasActiveBuild
        (tableCards (handleCreateStagingStack newStackId g handCard
                                              tableCard)) p
      = hasActiveBuild (tableCards g) p)
  /\ (forall (newStackId : nat) (c : Card),
        hasActiveBuild
          (tableCards (handleStageSingleCardFromHand newStackId g c)) p
        = hasActiveBuild (tableCards g) p)
  /\ (forall (newStackId : nat) (opponentCard : Card),
        hasActiveBuild
          (tableCards (handleStageOpponentCard newStackId g opponentCard)) p
        = hasActiveBuild (tableCards g) p)
  /\ (forall (handCard : Card) (stack : TemporaryStack),
        In (TStack stack) (tableCards g) ->
        hasActiveBuild (tableCards (handleAddToStagingStack g handCard stack))
                       p
        = hasActiveBuild (tableCards g) p)
  /\ (forall stack : TemporaryStack,
        hasActiveBuild (tableCards (handleCancelStagingStack g stack)) p
        = hasActiveBuild (tableCards g) p
        /\ hasActiveBuild (tableCards (handleDisbandStagingStack g stack)) p
           = hasActiveBuild (tableCards g) p).
Proof.
  split; [|split; [|split; [|split]]].
  - intros. apply handleCreateStagingStack_builds.
  - intros. unfold handleStageSingleCardFromHand.
    destruct (existsb _ (tableCards g)); [reflexivity|].
    destruct (removeCardFromHand _ _ _) as [[hands found]|]; [|reflexivity].
    cbn [tableCards setTable setHands].
    rewrite hasActiveBuild_app. cbn. apply orb_false_r.
  - intros. unfold handleStageOpponentCard.
    destruct (existsb _ (tableCards g)); [reflexivity|].
    cbn [tableCards setTable setCaptures].
    rewrite hasActiveBuild_app. cbn. apply orb_false_r.
  - intros. apply handleAddToStagingStack_builds.
  - intros stack. split; apply takeApart_builds.
Qed.

(** X3 on [secondBuildState]: player 0 owns a build before and after
    adding the 4 of diamonds to the staging stack. *)
Lemma X3_stacks_are_not_builds_witness :
  hasActiveBuild
    (tableCards (handleAddToStagingStack secondBuildState (card R4 Diamonds)
                                         tableFiveStack)) 0
  = hasActiveBuild (tableCards secondBuildState) 0.
Proof.
  exact (proj1 (proj2 (proj2 (proj2
           (X3_stacks_are_not_builds secondBuildState 0))))
           (card R4 Diamonds) tableFiveStack (or_intror (or_introl eq_refl))).
Defined.

Section SingleBuild.

(** A build of [owner] pushed on what is left of a table where [owner] had
    no active build. *)
Lemma builds_after_push (table kept : list TableEntity) (owner p : nat)
    (b : Build) :
  hasActiveBuild table owner = false ->
  bowner b = owner ->
  (forall q : nat,
      length (List.filter (isBuildOf q) kept)
      <= length (List.filter (isBuildOf q) table)) ->
  length (List.filter (isBuildOf p) (kept ++ [TBuild b]))
  <= Nat.max 1 (length (List.filter (isBuildOf p) table)).
Proof.
  intros Hnone Hb Hkept. rewrite List.filter_app.
  cbn [List.filter isBuildOf]. rewrite Hb.
  pose proof (Hkept p) as Hp.
  destruct (owner =? p) eqn:Howner; rewrite length_app; cbn [length]; [|lia].
  apply Nat.eqb_eq in Howner as <-.
  rewrite hasActiveBuild_existsb in Hnone.
  rewrite (existsb_false_filter _ _ Hnone) in Hp. cbn in Hp. lia.
Qed.

Lemma removeCardsFromTable_builds (table items : list TableEntity) (q : nat) :
  length (List.filter (isBuildOf q) (removeCardsFromTable table items))
  <= length (List.filter (isBuildOf q) table).
Proof. apply filter_filter_length. Qed.

Lemma handleBuild_builds (newBuildId : nat) (g : GameState)
    (played : DraggedItem) (cards : list Card) (V : nat)
    (bigger smaller : option Card) (p : nat) :
  length (buildsOf p (handleBuild newBuildId g played cards V bigger smaller))
  <= Nat.max 1 (length (buildsOf p g)).
Proof.
  unfold buildsOf, handleBuild.
  destruct (validateBuild _ _ _ _ _) eqn:Hvalid; [|lia].
  assert (hasActiveBuild (tableCards g) (currentPlayer g) = false) as Hnone.
  { unfold validateBuild in Hvalid.
    destruct (hasActiveBuild (tableCards g) (currentPlayer g));
      [discriminate | reflexivity]. }
  destruct (bool_decide (dsource played = SrcTable)).
  - cbn [tableCards nextPlayer setCurrentPlayer setCaptures setTable
         setHands].
    apply (builds_after_push (tableCards g) _ (currentPlayer g)); auto.
    intros q. etransitivity; apply removeCardsFromTable_builds.
  - destruct (removeCardFromHand _ _ _) as [[hands found]|]; [|lia].
    cbn [tableCards nextPlayer setCurrentPlayer setCaptures setTable
         setHands].
    apply (builds_after_push (tableCards g) _ (currentPlayer g)); auto.
    intros q. apply removeCardsFromTable_builds.
Qed.

Lemma handleAddToOpponentBuild_builds (newBuildId : nat) (g : GameState)
    (played : DraggedItem) (build : Build) (p : nat) :
  hasActiveBuild (tableCards g) (currentPlayer g) = false ->
  length (buildsOf p (handleAddToOpponentBuild newBuildId g played build))
  <= Nat.max 1 (length (buildsOf p g)).
Proof.
  intros Hnone. unfold buildsOf, handleAddToOpponentBuild.
  destruct (bool_decide (dsource played = SrcTable)).
  - cbn [tableCards nextPlayer setCurrentPlayer setCaptures setTable
         setHands].
    apply (builds_after_push (tableCards g) _ (currentPlayer g)); auto.
    intros q. etransitivity; apply removeCardsFromTable_builds.
  - destruct (removeCardFromHand _ _ _) as [[hands found]|]; [|lia].
    cbn [tableCards nextPlayer setCurrentPlayer setCaptures setTable
         setHands].
    apply (builds_after_push (tableCards g) _ (currentPlayer g)); auto.
    intros q. apply removeCardsFromTable_builds.
Qed.

End SingleBuild.

(** X4.  The guarded ways of making a build keep every player at one build
    at most: after [handleBuild] with any arguments, after a finalize that
    makes a build, after the extension of an opponent's build that
    [validateAddToOpponentBuild] allows, and after
    [handleCreateBuildWithValue] with a value that
    [findPossibleBuildsFromStack] offers, every player owns at most one
    build, or no more builds than before. *)
Theorem X4_single_build_kept (g : GameState) (p : nat) :
  let me := currentPlayer g in
  let hand := handOf (playerHands g) me in
  (forall (newBuildId : nat) (played : DraggedItem) (cards : list Card)
          (V : nat) (bigger smaller : option Card),
      length (buildsOf p (handleBuild newBuildId g played cards V bigger
                                      smaller))
      <= Nat.max 1 (length (buildsOf p g)))
  /\ (forall (newBuildId : nat) (stack : TemporaryStack) (g' : GameState),
        handleFinalizeStagingStack newBuildId g stack = FinalizeState g' ->
        length (buildsOf p g') <= Nat.max 1 (length (buildsOf p g)))
  /\ (forall (newBuildId : nat) (played : DraggedItem) (build : Build),
        valid (validateAddToOpponentBuild build (dcard played) hand
                                          (tableCards g) me) = true ->
        length (buildsOf p (handleAddToOpponentBuild newBuildId g played
                                                     build))
        <= Nat.max 1 (length (buildsOf p g)))
  /\ (forall (newBuildId : nat) (stack : TemporaryStack) (V : nat),
        In V (findPossibleBuildsFromStack stack hand (tableCards g) me) ->
        length (buildsOf p (handleCreateBuildWithValue newBuildId g stack V))
        <= Nat.max 1 (length (buildsOf p g))).
Proof.
  intros me hand. split; [|split; [|split]].
  - intros. apply handleBuild_builds.
  - intros newBuildId stack g' Hfinal.
    unfold handleFinalizeStagingStack in Hfinal. fold me hand in Hfinal.
    destruct (findPossibleBuildsFromStack stack hand (tableCards g) me)
      as [|V [|W rest]] eqn:Hfound; try discriminate.
    injection Hfinal as <-.
    assert (In V (findPossibleBuildsFromStack stack hand (tableCards g) me))
      as Hin by (rewrite Hfound; left; reflexivity).
    apply findPossibleBuildsFromStack_needs_card in Hin
      as (_ & _ & _ & _ & Hnone).
    unfold buildsOf, nextPlayer. cbn [tableCards setCurrentPlayer setTable].
    apply (builds_after_push (tableCards g) _ (currentPlayer g)); auto.
    intros q. apply filter_filter_length.
  - intros newBuildId played build Hvalid.
    apply handleAddToOpponentBuild_builds.
    unfold validateAddToOpponentBuild in Hvalid. fold me.
    destruct (bowner build =? me); [discriminate|].
    destruct (hasActiveBuild (tableCards g) me); [discriminate | reflexivity].
  - intros newBuildId stack V Hin.
    apply findPossibleBuildsFromStack_needs_card in Hin
      as (_ & _ & _ & _ & Hnone).
    unfold buildsOf, handleCreateBuildWithValue, nextPlayer.
    cbn [tableCards setCurrentPlayer setTable].
    apply (builds_after_push (tableCards g) _ (currentPlayer g)); auto.
    intros q. apply removeCardsFromTable_builds.
Qed.

(** X4 on [buildState] and [pairStackState]: player 0 extends the build of
    6 of player 1 with a 2, holding an 8, and ends with one build; the value
    4 offered for [pairStack] gives player 0 one build. *)
Lemma X4_single_build_kept_witness :
  length (buildsOf 0
            (handleAddToOpponentBuild 3 buildState
               (mkDragged (card R2 Hearts) SrcHand)
               (mkBuild 1 [card R4 Clubs; card R2 Clubs] 6 1 true)))
  <= Nat.max 1 (length (buildsOf 0 buildState))
  /\ length (buildsOf 0 (handleCreateBuildWithValue 3 pairStackState
                           pairStack 4))
     <= Nat.max 1 (length (buildsOf 0 pairStackState)).
Proof.
  split.
  - exact (proj1 (proj2 (proj2 (X4_single_build_kept buildState 0)))
             3 (mkDragged (card R2 Hearts) SrcHand)
             (mkBuild 1 [card R4 Clubs; card R2 Clubs] 6 1 true) eq_refl).
  - exact (proj2 (proj2 (proj2 (X4_single_build_kept pairStackState 0)))
             3 pairStack 4 (or_introl eq_refl)).
Defined.

Section Extension.

Lemma insertByRank_Permutation (c : Card) (l : list Card) :
  Permutation (insertByRank c l) (c :: l).
Proof.
  induction l as [|x l IH]; [reflexivity|]. simpl.
  destruct (rankValue (rank x) <=? rankValue (rank c)); [reflexivity|].
  rewrite IH. apply perm_swap.
Qed.

Lemma sortDescending_Permutation (l : list Card) :
  Permutation (sortDescending l) l.
Proof.
  induction l as [|x l IH]; [reflexivity|]. unfold sortDescending. simpl.
  rewrite insertByRank_Permutation. fold (sortDescending l).
  rewrite IH. reflexivity.
Qed.

Lemma otherCard_sameCard (c p : Card) : otherCard c p = negb (sameCard c p).
Proof. unfold otherCard, sameCard. rewrite negb_andb. reflexivity. Qed.

Lemma takeCard_found (c : Card) (h : list Card) :
  In c h -> exists (found : Card) (rest : list Card),
    takeCard c h = Some (found, rest).
Proof.
  induction h as [|x h IH]; intros Hin; [destruct Hin|]. simpl.
  destruct (sameCard x c) eqn:Hx; [eauto|].
  destruct Hin as [-> | Hin].
  - unfold sameCard in Hx. rewrite !bool_decide_eq_true_2 in Hx by reflexivity.
    discriminate.
  - destruct (IH Hin) as (found & rest & ->). eauto.
Qed.

Lemma takeCard_keeps (c x : Card) (h : list Card) :
  forall (found : Card) (rest : list Card),
    takeCard c h = Some (found, rest) ->
    In x h -> otherCard x c = true -> In x rest.
Proof.
  induction h as [|y h IH]; intros found rest Htake Hin Hother;
    [discriminate|].
  simpl in Htake. destruct (sameCard y c) eqn:Hy.
  - injection Htake as <- <-. destruct Hin as [-> | Hin]; [|exact Hin].
    rewrite otherCard_sameCard, Hy in Hother. discriminate.
  - destruct (takeCard c h) as [[f r]|]; [|discriminate].
    injection Htake as <- <-. destruct Hin as [-> | Hin].
    + left. reflexivity.
    + right. eapply IH; eauto.
Qed.

(** The hand of [p] after the removal of [c] still holds every other card
    it held. *)
Lemma removeCardFromHand_keeps (hands hands' : list (list Card)) (p : nat)
    (c found x : Card) :
  removeCardFromHand hands p c = Some (hands', found) ->
  In x (handOf hands p) -> otherCard x c = true -> In x (handOf hands' p).
Proof.
  unfold removeCardFromHand, handOf.
  destruct (hands !! p) as [h|] eqn:Hp; [|discriminate].
  destruct (takeCard c h) as [[f rest]|] eqn:Htake; [|discriminate].
  intros [= <- <-] Hin Hother. cbn in Hin.
  rewrite list_lookup_insert_eq by (eapply lookup_lt_Some, Hp). cbn.
  eapply takeCard_keeps; eauto.
Qed.

Lemma removeCardFromHand_found (hands : list (list Card)) (p : nat)
    (c : Card) :
  In c (handOf hands p) ->
  exists (hands' : list (list Card)) (found : Card),
    removeCardFromHand hands p c = Some (hands', found).
Proof.
  unfold removeCardFromHand, handOf.
  destruct (hands !! p) as [h|]; [|intros []]. cbn. intros Hin.
  destruct (takeCard_found c h Hin) as (found & rest & ->). eauto.
Qed.

End Extension.

(** X5.  When [validateAddToOpponentBuild] allows the extension of an
    opponent's build and the played card is there to be removed,
    [handleAddToOpponentBuild] leaves as the last entity of the table a
    build of the acting player made of the cards of the old build and the
    played card, of the old value plus the value of the played card, at most
    10, of at most five cards, closed to further extension exactly when it
    has five cards; the acting player still holds a card of the value of the
    new build, and the turn has passed. *)
Theorem X5_opponent_build_extended (newBuildId : nat) (g : GameState)
    (played : DraggedItem) (build : Build) :
  let me := currentPlayer g in
  let hand := handOf (playerHands g) me in
  let g' := handleAddToOpponentBuild newBuildId g played build in
  valid (validateAddToOpponentBuild build (dcard played) hand (tableCards g)
                                    me) = true ->
  dsource played = SrcTable \/ In (dcard played) hand ->
  exists nb : Build,
    last (tableCards g') = Some (TBuild nb)
    /\ Permutation (bcards nb) (dcard played :: bcards build)
    /\ bvalue nb = bvalue build + rankValue (rank (dcard played))
    /\ bvalue nb <= 10
    /\ bowner nb = me
    /\ length (bcards nb) <= 5
    /\ (isExtendable nb = false <-> length (bcards nb) = 5)
    /\ (exists c : Card,
          In c (handOf (playerHands g') me)
          /\ rankValue (rank c) = bvalue nb)
    /\ currentPlayer g' = (me + 1) mod 2.
Proof.
  intros me hand g' Hvalid Hthere.
  pose proof Hvalid as Hcard.
  apply validateAddToOpponentBuild_needs_card in Hcard
    as [_ (c & Hin & Hv & Hother)].
  apply otherCard_spec in Hother.
  unfold validateAddToOpponentBuild in Hvalid.
  destruct (bowner build =? me); [discriminate|].
  destruct (hasActiveBuild (tableCards g) me); [discriminate|].
  destruct (negb (isExtendable build) || (5 <=? length (bcards build)))
    eqn:Hopen; [discriminate|].
  apply orb_false_iff in Hopen as [_ Hfive]. apply Nat.leb_gt in Hfive.
  cbv zeta in Hvalid.
  destruct (10 <? bvalue build + rankValue (rank (dcard played))) eqn:Hten;
    [discriminate|].
  apply Nat.ltb_ge in Hten. clear Hvalid.
  assert (length (sortDescending (bcards build ++ [dcard played]))
          = S (length (bcards build))) as Hlen.
  { rewrite (Permutation_length (sortDescending_Permutation _)).
    rewrite length_app. cbn. lia. }
  assert (Permutation (sortDescending (bcards build ++ [dcard played]))
                      (dcard played :: bcards build)) as Hperm.
  { rewrite sortDescending_Permutation. solve_Permutation. }
  assert (exists hands' table',
    g' = nextPlayer (setCaptures (playerCaptures g)
           (setTable (table' ++ [TBuild
              (mkBuild newBuildId
                 (sortDescending (bcards build ++ [dcard played]))
                 (bvalue build + rankValue (rank (dcard played))) me
                 (length (sortDescending (bcards build ++ [dcard played]))
                  <? 5))])
              (setHands hands' g)))
    /\ In c (handOf hands' me)) as (hands' & table' & Hg' & Hc).
  { subst g' hand me. unfold handleAddToOpponentBuild.
    destruct (bool_decide (dsource played = SrcTable)) eqn:Hsrc.
    - eexists _, _. split; [reflexivity | exact Hin].
    - destruct Hthere as [Htable | Hhand].
      { apply bool_decide_eq_false in Hsrc. contradiction. }
      destruct (removeCardFromHand_found _ _ _ Hhand)
        as (hands' & found & Hrm).
      rewrite Hrm. eexists _, _. split; [reflexivity|].
      eapply removeCardFromHand_keeps; [exact Hrm | exact Hin | exact Hother]. }
  rewrite Hg'. eexists. split.
  - cbn [tableCards nextPlayer setCurrentPlayer setCaptures setTable
         setHands]. apply last_snoc.
  - cbn [bcards bvalue bowner isExtendable playerHands currentPlayer
         nextPlayer setCurrentPlayer setCaptures setTable setHands].
    split; [exact Hperm|]. split; [reflexivity|]. split; [exact Hten|].
    split; [reflexivity|]. split; [lia|]. split.
    + rewrite Nat.ltb_ge. lia.
    + split; [exists c; split; [exact Hc | exact Hv]|]. reflexivity.
Qed.

(** X5 on [buildState]: player 0 adds the 2 of hearts to the build of 6 of
    player 1 and holds the 8 of diamonds for the new build of 8. *)
Lemma X5_opponent_build_extended_witness :
  exists nb : Build,
    last (tableCards
            (handleAddToOpponentBuild 3 buildState
               (mkDragged (card R2 Hearts) SrcHand)
               (mkBuild 1 [card R4 Clubs; card R2 Clubs] 6 1 true)))
    = Some (TBuild nb)
    /\ bvalue nb = 8 /\ bowner nb = 0.
Proof.
  destruct (X5_opponent_build_extended 3 buildState
              (mkDragged (card R2 Hearts) SrcHand)
              (mkBuild 1 [card R4 Clubs; card R2 Clubs] 6 1 true)
              eq_refl (or_intror (or_intror (or_introl eq_refl))))
    as (nb & Hlast & _ & Hvalue & _ & Howner & _).
  exists nb. split; [exact Hlast|]. split; [exact Hvalue | exact Howner].
Defined.

(** X6.  An addition to the player's own build that [validateAddToOwnBuild]
    allows is always a reinforcement: [handleAddToOwnBuild] puts the played
    card on top of the build, keeps its id, owner and value, closes it to
    extension, and leaves in the hand another card of the value of the
    build.  The summing branch of the handler is never taken after the
    validator. *)
Theorem X6_own_build_reinforced (g : GameState) (played : DraggedItem)
    (build : Build) :
  let me := currentPlayer g in
  let hand := handOf (playerHands g) me in
  let g' := handleAddToOwnBuild g played build in
  valid (validateAddToOwnBuild build (dcard played) hand) = true ->
  In (dcard played) hand ->
  last (tableCards g')
  = Some (TBuild (mkBuild (buildId build) (bcards build ++ [dcard played])
                          (bvalue build) (bowner build) false))
  /\ (exists c : Card,
        In c (handOf (playerHands g') me)
        /\ rankValue (rank c) = bvalue build)
  /\ currentPlayer g' = (me + 1) mod 2.
Proof.
  intros me hand g' Hvalid Hhand. subst g' hand me.
  unfold validateAddToOwnBuild in Hvalid. cbv zeta in Hvalid.
  unfold handleAddToOwnBuild.
  destruct (rankValue (rank (dcard played)) =? bvalue build);
    [|discriminate].
  destruct (existsb _ _) eqn:Hheld; [|discriminate].
  apply existsb_exists in Hheld as (c & Hin & Hv).
  apply filter_In in Hin as [Hin Hother]. apply Nat.eqb_eq in Hv.
  destruct (removeCardFromHand_found _ _ _ Hhand) as (hands' & found & Hrm).
  rewrite Hrm.
  cbn [tableCards playerHands currentPlayer nextPlayer setCurrentPlayer
       setTable setHands negb].
  split; [apply last_snoc|]. split; [|reflexivity].
  exists c. split; [|exact Hv].
  eapply removeCardFromHand_keeps; [exact Hrm | exact Hin | exact Hother].
Qed.

(** X6 on [ownEightState]: player 0 puts the 8 of diamonds on the build of
    8 and keeps the 8 of spades. *)
Lemma X6_own_build_reinforced_witness :
  last (tableCards (handleAddToOwnBuild ownEightState
                      (mkDragged (card R8 Diamonds) SrcHand) ownEight))
  = Some (TBuild (mkBuild (buildId ownEight)
                          (bcards ownEight ++ [card R8 Diamonds])
                          (bvalue ownEight) (bowner ownEight) false)).
Proof.
  exact (proj1 (X6_own_build_reinforced ownEightState
                  (mkDragged (card R8 Diamonds) SrcHand) ownEight
                  eq_refl (or_introl eq_refl))).
Defined.

Section StackOnBuild.

Lemma one_hand_card (cards : list Card) :
  (length (List.filter (hasSource SrcHand) cards) =? 1) = true ->
  existsb (hasSource SrcHand) cards = true.
Proof.
  intros Hone. apply Nat.eqb_eq in Hone.
  destruct (existsb (hasSource SrcHand) cards) eqn:Hnone; [reflexivity|].
  rewrite (existsb_false_filter _ _ Hnone) in Hone. discriminate.
Qed.

Lemma validateReinforceBuildWithStack_valid (stack : TemporaryStack)
    (target : Build) :
  valid (validateReinforceBuildWithStack stack target) = true ->
  existsb (hasSource SrcHand) (scards stack) = true
  /\ canPartitionIntoSums (map stripSource (scards stack)) (bvalue target)
     = true.
Proof.
  unfold validateReinforceBuildWithStack. cbv zeta.
  destruct (length _ =? 1) eqn:Hone; [|discriminate].
  destruct (canPartitionIntoSums _ _); [|discriminate].
  intros _. split; [apply one_hand_card, Hone | reflexivity].
Qed.

Lemma validateMergeIntoOwnBuild_valid (stack : TemporaryStack)
    (target : Build) (p : nat) :
  valid (validateMergeIntoOwnBuild stack target p) = true ->
  bowner target = p
  /\ existsb (hasSource SrcHand) (scards stack) = false
  /\ canPartitionIntoSums (map stripSource (scards stack)) (bvalue target)
     = true.
Proof.
  unfold validateMergeIntoOwnBuild. cbv zeta.
  destruct (bowner target =? p) eqn:Howner; [|discriminate].
  destruct (existsb _ _); [discriminate|].
  destruct (canPartitionIntoSums _ _); [|discriminate].
  intros _. apply Nat.eqb_eq in Howner. auto.
Qed.

Lemma validateReinforceOpponentBuildWithStack_valid (stack : TemporaryStack)
    (target : Build) (p : nat) :
  valid (validateReinforceOpponentBuildWithStack stack target p) = true ->
  bowner target <> p
  /\ existsb (hasSource SrcHand) (scards stack) = false
  /\ isExtendable target = true
  /\ canPartitionIntoSums (map stripSource (scards stack)) (bvalue target)
     = true.
Proof.
  unfold validateReinforceOpponentBuildWithStack. cbv zeta.
  destruct (bowner target =? p) eqn:Howner; [discriminate|].
  destruct (existsb _ _); [discriminate|].
  destruct (isExtendable target); [|discriminate].
  destruct (canPartitionIntoSums _ _); [|discriminate].
  intros _. apply Nat.eqb_neq in Howner. auto.
Qed.

End StackOnBuild.

(** X7.  The three validators for a staging stack dropped on a build
    exclude each other: a stack that may reinforce a build through
    [validateReinforceBuildWithStack] (which wants one hand card in it) may
    be merged into no build and may reinforce no opponent's build (both want
    no hand card); and no stack may be both merged into a build as the
    player's own and put on it as an opponent's.  Whichever of them accepts,
    the cards of the stack split into groups of the value of the build. *)
Theorem X7_stack_drop_validators (stack : TemporaryStack) (p : nat) :
  (forall b b' : Build,
      valid (validateReinforceBuildWithStack stack b)
      && (valid (validateMergeIntoOwnBuild stack b' p)
          || valid (validateReinforceOpponentBuildWithStack stack b' p))
      = false)
  /\ (forall b : Build,
        valid (validateMergeIntoOwnBuild stack b p)
        && valid (validateReinforceOpponentBuildWithStack stack b p)
        = false)
  /\ (forall b : Build,
        valid (validateReinforceBuildWithStack stack b)
        || valid (validateMergeIntoOwnBuild stack b p)
        || valid (validateReinforceOpponentBuildWithStack stack b p)
        = true ->
        canPartitionIntoSums (map stripSource (scards stack)) (bvalue b)
        = true).
Proof.
  split; [|split].
  - intros b b'.
    destruct (valid (validateReinforceBuildWithStack stack b)) eqn:Hr;
      [|reflexivity].
    apply validateReinforceBuildWithStack_valid in Hr as [Hhand _].
    destruct (valid (validateMergeIntoOwnBuild stack b' p)) eqn:Hm.
    { apply validateMergeIntoOwnBuild_valid in Hm as (_ & Hnone & _).
      congruence. }
    destruct (valid (validateReinforceOpponentBuildWithStack stack b' p))
      eqn:Ho; [|reflexivity].
    apply validateReinforceOpponentBuildWithStack_valid in Ho
      as (_ & Hnone & _).
    congruence.
  - intros b.
    destruct (valid (validateMergeIntoOwnBuild stack b p)) eqn:Hm;
      [|reflexivity].
    apply validateMergeIntoOwnBuild_valid in Hm as (Howner & _).
    destruct (valid (validateReinforceOpponentBuildWithStack stack b p))
      eqn:Ho; [|reflexivity].
    apply validateReinforceOpponentBuildWithStack_valid in Ho as (Hother & _).
    contradiction.
  - intros b Hany.
    apply orb_true_iff in Hany as [Hany | Ho].
    + apply orb_true_iff in Hany as [Hr | Hm].
      * apply validateReinforceBuildWithStack_valid in Hr as [_ H]. exact H.
      * apply validateMergeIntoOwnBuild_valid in Hm as (_ & _ & H). exact H.
    + apply validateReinforceOpponentBuildWithStack_valid in Ho
        as (_ & _ & _ & H).
      exact H.
Qed.

(** X7 on [tableStack], the stack of two table cards of [reinforceState]. *)
Lemma X7_stack_drop_validators_witness :
  canPartitionIntoSums (map stripSource (scards tableStack))
                       (bvalue opponentEight) = true.
Proof.
  exact (proj2 (proj2 (X7_stack_drop_validators tableStack 0))
           opponentEight eq_refl).
Defined.

Section DealAgain.



End DealAgain.



Section PointsShared.






End PointsShared.



(** X10.  [calculateScores] treats the two players alike: with the two
    capture sets exchanged the two scores are exchanged, and the winner is
    the other player (or nobody, as before). *)
Theorem X10_scoring_is_symmetric (caps0 caps1 : list (list Card)) :
  (calculateScores [caps1; caps0]).1.1
  = rev (calculateScores [caps0; caps1]).1.1
  /\ (calculateScores [caps1; caps0]).2
     = option_map (fun w => 1 - w) (calculateScores [caps0; caps1]).2.
Proof.
  rewrite !calculateScores_winner, !calculateScores_scores.
  change (capturesOf [?a; ?b] 0) with a.
  change (capturesOf [?a; ?b] 1) with b.
  split; [reflexivity|].
  set (s0 := playerScore (concat caps0) (concat caps1)).
  set (s1 := playerScore (concat caps1) (concat caps0)).
  destruct (s1 <? s0) eqn:H10, (s0 <? s1) eqn:H01; try reflexivity.
  apply Nat.ltb_lt in H10, H01. lia.
Qed.

Section RoundTrips.

Lemma sortBack_hand_card (c : Card) :
  sortBack [tag SrcHand c] = mkSorted [stripSource c] [] [].
Proof. reflexivity. Qed.

Lemma sortBack_opponent_card (c : Card) :
  sortBack [tag SrcOpponentCapture c] = mkSorted [] [] [stripSource c].
Proof. reflexivity. Qed.

(** The table after a stack with a fresh id was pushed and taken away. *)
Lemma filter_fresh_stack (table : list TableEntity) (stack : TemporaryStack) :
  forallb (stackIdIsNot (stackId stack)) table = true ->
  List.filter (stackIdIsNot (stackId stack)) (table ++ [TStack stack])
  = table.
Proof.
  intros Hfresh. rewrite List.filter_app, (filter_all _ _ Hfresh).
  cbn. rewrite Nat.eqb_refl. cbn. apply app_nil_r.
Qed.

(** [opponentCaps.map((group, index) => index === opponentCaps.length - 1 ?
    group.slice(0, -1) : group)] on groups whose last one ends with [c]. *)
Lemma imap_drop_top (groups : list (list Card)) (lastGroup : list Card)
    (c : Card) :
  imap (fun index group =>
          if index =? length (groups ++ [lastGroup ++ [c]]) - 1
          then dropLast group else group)
       (groups ++ [lastGroup ++ [c]])
  = groups ++ [lastGroup].
Proof.
  rewrite imap_app. f_equal.
  - rewrite <- (list_fmap_id groups) at 2. rewrite <- imap_const.
    apply imap_ext. intros i x Hi. apply lookup_lt_Some in Hi.
    rewrite length_app. cbn [length].
    replace (i =? length groups + 1 - 1) with false; [reflexivity|].
    symmetry. apply Nat.eqb_neq. lia.
  - cbn. rewrite length_app. cbn [length].
    replace (length groups + 0 =? length groups + 1 - 1) with true.
    + unfold dropLast. rewrite removelast_last. reflexivity.
    + symmetry. apply Nat.eqb_eq. lia.
Qed.

(** Writing a hand back where it was read. *)
Lemma insert_handOf (hands : list (list Card)) (p : nat) :
  <[p := handOf hands p]> hands = hands.
Proof.
  unfold handOf. destruct (hands !! p) as [h|] eqn:Hp; cbn.
  - apply list_insert_id, Hp.
  - apply list_insert_ge, lookup_ge_None, Hp.
Qed.

End RoundTrips.

(** X11.  Staging a card of the hand and cancelling the stack is a round
    trip: when the player has no staging stack, the card is in the hand and
    no stack on the table has the id of the new one,
    [handleStageSingleCardFromHand] followed by [handleCancelStagingStack]
    on the stack it made gives back the table as it was; the card returns
    untagged as the last card of the hand, which holds the cards it held;
    the other hands, the captures and the player to move are as before. *)
Theorem X11_stage_and_cancel (newStackId : nat) (g : GameState) (c : Card) :
  let me := currentPlayer g in
  let staged := mkStack newStackId [tag SrcHand c] me in
  let g1 := handleStageSingleCardFromHand newStackId g c in
  let g2 := handleCancelStagingStack g1 staged in
  existsb (isStackOf me) (tableCards g) = false ->
  forallb (stackIdIsNot newStackId) (tableCards g) = true ->
  In c (handOf (playerHands g) me) ->
  tableCards g1 = tableCards g ++ [TStack staged]
  /\ tableCards g2 = tableCards g
  /\ Permutation (map face (handOf (playerHands g2) me))
                 (map face (handOf (playerHands g) me))
  /\ last (handOf (playerHands g2) me) = Some (stripSource c)
  /\ (forall q : nat,
        q <> me -> handOf (playerHands g2) q = handOf (playerHands g) q)
  /\ playerCaptures g2 = playerCaptures g
  /\ currentPlayer g2 = me.
Proof.
  intros me staged g1 g2 Hnone Hfresh Hin.
  subst g2 g1. unfold handleStageSingleCardFromHand. fold me. rewrite Hnone.
  unfold removeCardFromHand. unfold handOf in Hin.
  destruct (playerHands g !! me) as [h|] eqn:Hh; [|destruct Hin].
  cbn in Hin. destruct (takeCard_found c h Hin) as (found & rest & Htake).
  rewrite Htake. fold staged.
  unfold handleCancelStagingStack, takeApart.
  change (scards staged) with [tag SrcHand c]. rewrite sortBack_hand_card.
  cbn [handCards newLooseCards opponentCards length Nat.ltb Nat.leb
       playerHands tableCards playerCaptures currentPlayer
       setCaptures setTable setHands map].
  fold me. rewrite app_nil_r.
  pose proof (lookup_lt_Some _ _ _ Hh) as Hme.
  assert (me < length (<[me:=rest]> (playerHands g))) as Hme'
    by (rewrite length_insert; exact Hme).
  split; [reflexivity|].
  split; [apply (filter_fresh_stack (tableCards g) staged), Hfresh|].
  rewrite !handOf_insert_eq by assumption.
  split.
  { unfold handOf. rewrite Hh. cbn.
    rewrite (takeCard_Permutation _ _ _ _ Htake).
    rewrite map_app. cbn [map].
    apply takeCard_sameCard, sameCard_face in Htake.
    rewrite Htake. change (face (stripSource c)) with (face c).
    symmetry. apply Permutation_cons_append. }
  split; [apply last_snoc|].
  split; [|split; reflexivity].
  intros q Hq. rewrite !handOf_insert_ne by congruence. reflexivity.
Qed.

(** X11 on [trailState]: player 0 stages the 7 of diamonds and cancels. *)
Lemma X11_stage_and_cancel_witness :
  tableCards
    (handleCancelStagingStack
       (handleStageSingleCardFromHand 9 trailState (card R7 Diamonds))
       (mkStack 9 [tag SrcHand (card R7 Diamonds)] 0))
  = tableCards trailState.
Proof.
  exact (proj1 (proj2 (X11_stage_and_cancel 9 trailState (card R7 Diamonds)
                         eq_refl eq_refl (or_introl eq_refl)))).
Defined.

(** X12.  Staging the top card of the opponent's captures and cancelling:
    when the player has no staging stack and the last capture group of the
    opponent is [lastGroup] with the card [c] on top,
    [handleStageOpponentCard] takes [c] off that group (and drops the group
    if it is left empty), and [handleCancelStagingStack] on the stack it
    made puts [c] back, untagged, on the last group there is.  The
    opponent's captured cards are as before; the groups are as before when
    [c] was not alone in its group, and otherwise [c] has joined the group
    before it.  The table, the hands and the player to move are as
    before. *)
Theorem X12_borrow_and_cancel (newStackId : nat) (g : GameState) (c : Card)
    (groups : list (list Card)) (lastGroup : list Card) :
  let me := currentPlayer g in
  let opponent := 1 - me in
  let staged := mkStack newStackId [tag SrcOpponentCapture c] me in
  let g1 := handleStageOpponentCard newStackId g c in
  let g2 := handleCancelStagingStack g1 staged in
  me <= 1 ->
  length (playerCaptures g) = 2 ->
  existsb (isStackOf me) (tableCards g) = false ->
  forallb (stackIdIsNot newStackId) (tableCards g) = true ->
  capturesOf (playerCaptures g) opponent = groups ++ [lastGroup ++ [c]] ->
  forallb (fun group => 0 <? length group) groups = true ->
  capturesOf (playerCaptures g1) opponent
  = groups ++ (if 0 <? length lastGroup then [lastGroup] else [])
  /\ tableCards g1 = tableCards g ++ [TStack staged]
  /\ capturesOf (playerCaptures g2) opponent
     = (if 0 <? length lastGroup
        then groups ++ [lastGroup ++ [stripSource c]]
        else handedBack groups [stripSource c])
  /\ concat (capturesOf (playerCaptures g2) opponent)
     = concat groups ++ lastGroup ++ [stripSource c]
  /\ capturesOf (playerCaptures g2) me = capturesOf (playerCaptures g) me
  /\ tableCards g2 = tableCards g
  /\ playerHands g2 = playerHands g
  /\ currentPlayer g2 = me.
Proof.
  intros me opponent staged g1 g2 Hme Hcaps Hnone Hfresh Hlast Hfull.
  assert (opponent < length (playerCaptures g)) as Hopp
    by (unfold opponent; lia).
  assert (me <> opponent) as Hne by (unfold opponent; lia).
  assert (capturesOf (playerCaptures g1) opponent
          = groups ++ (if 0 <? length lastGroup then [lastGroup] else [])
          /\ g1 = setTable (tableCards g ++ [TStack staged])
                    (setCaptures
                       (<[opponent :=
                            groups ++ (if 0 <? length lastGroup
                                       then [lastGroup] else [])]>
                          (playerCaptures g)) g)) as [Hcaps1 Hg1].
  { subst g1. unfold handleStageOpponentCard. fold me opponent.
    rewrite Hnone, Hlast, imap_drop_top, List.filter_app.
    rewrite (filter_all _ _ Hfull). cbn [List.filter].
    fold staged. split; [|reflexivity].
    cbn [playerCaptures setTable setCaptures].
    apply capturesOf_insert_eq, Hopp. }
  split; [exact Hcaps1|]. split; [rewrite Hg1; reflexivity|].
  subst g2. rewrite Hg1.
  unfold handleCancelStagingStack, takeApart.
  change (scards staged) with [tag SrcOpponentCapture c].
  rewrite sortBack_opponent_card.
  cbn [handCards newLooseCards opponentCards
       playerHands tableCards playerCaptures currentPlayer
       setCaptures setTable setHands map].
  change (0 <? length [stripSource c]) with true. cbv iota.
  fold me opponent. rewrite !app_nil_r.
  rewrite !capturesOf_insert_eq by (rewrite ?length_insert; exact Hopp).
  rewrite capturesOf_insert_ne by congruence.
  rewrite capturesOf_insert_ne by congruence.
  assert (giveBack (groups ++ (if 0 <? length lastGroup
                               then [lastGroup] else []))
                   [stripSource c]
          = if 0 <? length lastGroup
            then groups ++ [lastGroup ++ [stripSource c]]
            else handedBack groups [stripSource c]) as Hback.
  { rewrite giveBack_handedBack.
    destruct (0 <? length lastGroup); [|rewrite app_nil_r; reflexivity].
    unfold handedBack.
    destruct (groups ++ [lastGroup]) eqn:Hgroups.
    - destruct groups; discriminate.
    - rewrite <- Hgroups, removelast_last, last_last. reflexivity. }
  rewrite Hback.
  split; [reflexivity|]. split.
  { destruct (0 <? length lastGroup) eqn:Hl.
    - rewrite concat_app. cbn [concat]. rewrite app_nil_r. reflexivity.
    - apply Nat.ltb_ge in Hl.
      destruct lastGroup; [|cbn in Hl; lia]. cbn [app].
      rewrite <- giveBack_handedBack. apply giveBack_concat. }
  split; [reflexivity|].
  split; [apply (filter_fresh_stack (tableCards g) staged), Hfresh|].
  split; [apply insert_handOf | reflexivity].
Qed.

(** X12 on [mixedState] without its stack: player 0 borrows the 9 of hearts
    from the top of the last capture group of player 1 and cancels. *)
Lemma X12_borrow_and_cancel_witness :
  let g := setTable [Loose (card RK Hearts)] mixedState in
  capturesOf
    (playerCaptures
       (handleCancelStagingStack
          (handleStageOpponentCard 9 g (card R9 Hearts))
          (mkStack 9 [tag SrcOpponentCapture (card R9 Hearts)] 0))) 1
  = capturesOf (playerCaptures g) 1.
Proof.
  intros g.
  exact (proj1 (proj2 (proj2
           (X12_borrow_and_cancel 9 g (card R9 Hearts)
              [[card R4 Clubs; card R4 Hearts]] [card R9 Spades]
              ltac:(simpl; lia) eq_refl eq_refl eq_refl eq_refl eq_refl)))).
Defined.

Section StackDrops.

Lemma filter_length_existsb {A : Type} (f : A -> bool) (l : list A) :
  (0 <? length (List.filter f l)) = existsb f l.
Proof.
  induction l as [|x l IH]; [reflexivity|].
  cbn. destruct (f x); [reflexivity | exact IH].
Qed.

Lemma findStackById_id (id : option nat) (table : list TableEntity)
    (s : TemporaryStack) :
  findStackById id table = Some s -> id = Some (stackId s).
Proof.
  induction table as [|[c|b|s'] table IH]; cbn; try discriminate; auto.
  destruct (bool_decide (Some (stackId s') = id)) eqn:Hid; [|exact IH].
  intros [= <-]. apply bool_decide_eq_true in Hid. congruence.
Qed.

Lemma filter_filter {A : Type} (f q : A -> bool) (l : list A) :
  List.filter f (List.filter q l) = List.filter (fun x => q x && f x) l.
Proof.
  induction l as [|x l IH]; [reflexivity|].
  cbn. destruct (q x); cbn; [|exact IH].
  destruct (f x); rewrite IH; reflexivity.
Qed.

Lemma stackIds_filter (f : TableEntity -> bool) (table : list TableEntity) :
  List.NoDup (stackIds table) -> List.NoDup (stackIds (List.filter f table)).
Proof.
  induction table as [|e table IH]; intros Hnd; [constructor|].
  assert (List.NoDup (stackIds table)) as Hrest.
  { destruct e; cbn in Hnd; try exact Hnd.
    inversion Hnd; assumption. }
  cbn [List.filter]. destruct (f e); [|exact (IH Hrest)].
  destruct e as [c|b|s]; cbn; try exact (IH Hrest).
  cbn in Hnd. inversion Hnd as [|? ? Hs _]; subst.
  constructor; [|exact (IH Hrest)].
  intros Hin. apply Hs. clear -Hin.
  induction table as [|e table IH]; [destruct Hin|].
  cbn in Hin. destruct (f e); [|destruct e; cbn; auto].
  destruct e; cbn in *; auto. destruct Hin; auto.
Qed.

Lemma stackIds_In (table : list TableEntity) (id : nat) :
  forallb (stackIdIsNot id) table = true -> ~ In id (stackIds table).
Proof.
  induction table as [|e table IH]; cbn; [auto|].
  intros H. apply andb_true_iff in H as [He Hrest].
  destruct e as [c|b|s]; cbn; auto.
  intros [Hs | Hin]; [|exact (IH Hrest Hin)].
  cbn in He. apply negb_true_iff, Nat.eqb_neq in He. congruence.
Qed.

Lemma stackIds_not_In (table : list TableEntity) (id : nat) :
  ~ In id (stackIds table) -> forallb (stackIdIsNot id) table = true.
Proof.
  induction table as [|e table IH]; cbn; [auto|].
  intros Hnot. apply andb_true_iff. split.
  - destruct e as [c|b|s]; cbn; auto.
    apply negb_true_iff, Nat.eqb_neq. intros Hs. apply Hnot.
    cbn. left. exact Hs.
  - apply IH. intros Hin. apply Hnot.
    destruct e; cbn; auto.
Qed.

(** With distinct stack ids, the stack found by its id is the one item that
    the filter on that id takes away. *)
Lemma found_stack_Permutation (table : list TableEntity) (id : option nat)
    (s : TemporaryStack) :
  List.NoDup (stackIds table) ->
  findStackById id table = Some s ->
  Permutation table
    (TStack s :: List.filter (stackIdIsNot (stackId s)) table).
Proof.
  induction table as [|e table IH]; intros Hnd Hfind; [discriminate|].
  destruct e as [c|b|s'].
  - cbn in *. rewrite (IH Hnd Hfind) at 1. apply perm_swap.
  - cbn in *. rewrite (IH Hnd Hfind) at 1. apply perm_swap.
  - cbn in Hnd. inversion Hnd as [|? ? Hs' Hrest]; subst.
    cbn in Hfind. destruct (bool_decide (Some (stackId s') = id)) eqn:Hid.
    + injection Hfind as ->. cbn. rewrite Nat.eqb_refl. cbn.
      rewrite (filter_all _ _ (stackIds_not_In _ _ Hs')). reflexivity.
    + pose proof (findStackById_id _ _ _ Hfind) as ->.
      apply bool_decide_eq_false in Hid.
      cbn. replace (stackId s' =? stackId s) with false.
      * cbn. rewrite (IH Hrest Hfind) at 1. apply perm_swap.
      * symmetry. apply Nat.eqb_neq. congruence.
Qed.

Lemma findStackById_filter (table : list TableEntity) (id : option nat)
    (s : TemporaryStack) (other : nat) :
  findStackById id table = Some s ->
  stackId s <> other ->
  findStackById id (List.filter (stackIdIsNot other) table) = Some s.
Proof.
  induction table as [|e table IH]; intros Hfind Hother; [discriminate|].
  destruct e as [c|b|s']; cbn in *; auto.
  destruct (bool_decide (Some (stackId s') = id)) eqn:Hid.
  - injection Hfind as ->.
    replace (stackId s =? other) with false
      by (symmetry; apply Nat.eqb_neq, Hother).
    cbn. rewrite Hid. reflexivity.
  - destruct (stackId s' =? other); cbn; [auto|].
    rewrite Hid. auto.
Qed.

End StackDrops.

(** X13.  A staging stack dropped on a build, both being on the table: if
    the stack holds a card from the hand the turn passes whether the
    reinforcement is allowed or not (the build is reinforced without error,
    or the stack is disbanded with the message of the validator); if it
    holds none the turn stays, an error leaves the state as it was, and on
    an opponent's build nothing happens and nothing is reported. *)
Theorem X13_stack_dropped_on_build {CardId : Type} `{EqDecision CardId}
    (getCardId : TableEntity -> CardId) (newBuildId newStackId : nat)
    (dragged : option nat) (target : TargetInfo) (g : GameState)
    (b : Build) (s : TemporaryStack) :
  let out := handleTemporaryStackDrop getCardId newBuildId newStackId dragged
                                      target g in
  ttype target = TargetBuild ->
  findBuildById (tbuildId target) (tableCards g) = Some b ->
  findStackById dragged (tableCards g) = Some s ->
  (existsb (hasSource SrcHand) (scards s) = true ->
   currentPlayer out.1 = (currentPlayer g + 1) mod 2
   /\ (valid (validateReinforceBuildWithStack s b) = true ->
       out = (handleReinforceBuildWithStack newBuildId g s b, None))
   /\ (valid (validateReinforceBuildWithStack s b) = false ->
       out.1 = handleDisbandStagingStack g s
       /\ exists why : Reason, out.2 = Some (ValidationFailed why)))
  /\ (existsb (hasSource SrcHand) (scards s) = false ->
      currentPlayer out.1 = currentPlayer g
      /\ (out.2 <> None -> out.1 = g)
      /\ (bowner b <> currentPlayer g -> out = (g, None))
      /\ (out.1 <> g -> out.1 = handleMergeIntoOwnBuild g s b)).
Proof.
  intros out Htype Hbuild Hstack. subst out.
  unfold handleTemporaryStackDrop.
  rewrite Htype, Hbuild, Hstack, filter_length_existsb.
  split; intros Hhand; rewrite Hhand.
  - destruct (validateReinforceBuildWithStack s b) as [v|why]; cbn [valid].
    + split; [reflexivity|]. split; [reflexivity | discriminate].
    + split; [reflexivity|]. split; [discriminate|].
      intros _. split; [reflexivity | eauto].
  - destruct (bowner b =? currentPlayer g) eqn:Howner.
    + apply Nat.eqb_eq in Howner.
      destruct (validateMergeIntoOwnBuild s b (currentPlayer g))
        as [v|why]; cbn [fst snd].
      * split; [reflexivity|]. split; [intros []; reflexivity|].
        split; [contradiction | reflexivity].
      * split; [reflexivity|]. split; [reflexivity|].
        split; [contradiction | intros []; reflexivity].
    + cbn [fst snd]. split; [reflexivity|]. split; [reflexivity|].
      split; [reflexivity | intros []; reflexivity].
Qed.

(** X13 with [fiveStack], which holds a card from the hand, dropped on the
    opponent's build of 8: the stack is worth 5, the reinforcement is
    refused, the stack is disbanded and the turn passes to player 1. *)
Lemma X13_stack_dropped_on_build_witness :
  let g := setTable [TBuild opponentEight; TStack fiveStack] fiveStackState in
  currentPlayer
    (handleTemporaryStackDrop sampleCardId 3 9 (Some 7)
       (mkTarget TargetBuild None (Some 1) None) g).1
  = 1.
Proof.
  intros g.
  exact (proj1 (proj1 (X13_stack_dropped_on_build sampleCardId 3 9 (Some 7)
                         (mkTarget TargetBuild None (Some 1) None) g
                         opponentEight fiveStack eq_refl eq_refl eq_refl)
                  eq_refl)).
Defined.

(** X14.  A staging stack dropped on a staging stack of the player to move,
    the stack ids on the table being distinct: the two stacks are replaced
    by one stack of the player to move, pushed last, that holds the cards of
    the target under those of the dropped stack; no error is shown and the
    turn stays.  The cards on the table are the same when the two stacks
    differ; a stack dropped on itself is found twice and its cards are on
    the table twice afterwards. *)
Theorem X14_stacks_combined {CardId : Type} `{EqDecision CardId}
    (getCardId : TableEntity -> CardId) (newBuildId newStackId : nat)
    (dragged : option nat) (target : TargetInfo) (g : GameState)
    (d t : TemporaryStack) :
  let out := handleTemporaryStackDrop getCardId newBuildId newStackId dragged
                                      target g in
  ttype target = TargetStack ->
  findStackById dragged (tableCards g) = Some d ->
  findStackById (tstackId target) (tableCards g) = Some t ->
  sowner t = currentPlayer g ->
  List.NoDup (stackIds (tableCards g)) ->
  out.2 = None
  /\ currentPlayer out.1 = currentPlayer g
  /\ last (tableCards out.1)
     = Some (TStack (mkStack newStackId (scards t ++ scards d)
                             (currentPlayer g)))
  /\ Permutation
       (flat_map entityCards (tableCards out.1))
       (flat_map entityCards (tableCards g)
          ++ if stackId d =? stackId t then scards t else []).
Proof.
  intros out Htype Hd Ht Howner Hnd. subst out.
  unfold handleTemporaryStackDrop.
  rewrite Htype, Hd, Ht, Howner, Nat.eqb_refl. cbn [negb fst snd].
  split; [reflexivity|]. split; [reflexivity|].
  cbn [tableCards setTable]. split; [apply last_snoc|].
  rewrite flat_map_app. cbn [flat_map entityCards scards]. rewrite app_nil_r.
  rewrite <- filter_filter.
  pose proof (found_stack_Permutation _ _ _ Hnd Ht) as Htable.
  destruct (stackId d =? stackId t) eqn:Hsame.
  - apply Nat.eqb_eq in Hsame.
    assert (d = t) as ->.
    { pose proof (findStackById_id _ _ _ Hd) as Hdid.
      pose proof (findStackById_id _ _ _ Ht) as Htid.
      assert (tstackId target = dragged) as Hids by congruence.
      rewrite Hids in Ht. congruence. }
    rewrite (filter_all (stackIdIsNot (stackId t))).
    + rewrite (Permutation_flat_map _ Htable).
      cbn [flat_map entityCards]. solve_Permutation.
    + apply forallb_forall. intros e He. apply filter_In in He as [_ He].
      exact He.
  - apply Nat.eqb_neq in Hsame.
    pose proof (findStackById_filter _ _ _ (stackId t) Hd Hsame) as Hd'.
    pose proof (found_stack_Permutation _ _ _
                  (stackIds_filter (stackIdIsNot (stackId t)) _ Hnd) Hd')
      as Hrest.
    rewrite (Permutation_flat_map _ Htable).
    cbn [flat_map entityCards].
    rewrite (Permutation_flat_map _ Hrest).
    cbn [flat_map entityCards]. rewrite app_nil_r. solve_Permutation.
Qed.

(** X14 on [twoStacksState]: the stack of one card dropped on [fiveStack]
    gives a stack of three cards, and [fiveStack] dropped on itself a stack
    of four. *)
Lemma X14_stacks_combined_witness :
  last (tableCards
          (handleTemporaryStackDrop sampleCardId 3 9 (Some 8)
             (mkTarget TargetStack None None (Some 7)) twoStacksState).1)
  = Some (TStack (mkStack 9 [tag SrcTable (card R3 Spades);
                             tag SrcHand (card R2 Hearts);
                             tag SrcTable (card R4 Hearts)] 0))
  /\ last (tableCards
             (handleTemporaryStackDrop sampleCardId 3 9 (Some 7)
                (mkTarget TargetStack None None (Some 7)) twoStacksState).1)
     = Some (TStack (mkStack 9 [tag SrcTable (card R3 Spades);
                                tag SrcHand (card R2 Hearts);
                                tag SrcTable (card R3 Spades);
                                tag SrcHand (card R2 Hearts)] 0)).
Proof.
  assert (List.NoDup (stackIds (tableCards twoStacksState))) as Hnd.
  { cbn. repeat constructor; cbn; intuition discriminate. }
  split.
  - exact (proj1 (proj2 (proj2
             (X14_stacks_combined sampleCardId 3 9 (Some 8)
                (mkTarget TargetStack None None (Some 7)) twoStacksState
                (mkStack 8 [tag SrcTable (card R4 Hearts)] 0) fiveStack
                eq_refl eq_refl eq_refl eq_refl Hnd)))).
  - exact (proj1 (proj2 (proj2
             (X14_stacks_combined sampleCardId 3 9 (Some 7)
                (mkTarget TargetStack None None (Some 7)) twoStacksState
                fiveStack fiveStack
                eq_refl eq_refl eq_refl eq_refl Hnd)))).
Defined.

(** X15.  [validateTrail] refuses a trail exactly when the player owns a
    build, in every round and for every card: the round decides the message
    only.  The second test catches in the other rounds what the first
    catches in round 1. *)
Theorem X15_trail_needs_no_build (table : list TableEntity) (c : Card)
    (p round : nat) :
  valid (validateTrail table c p round) = negb (hasActiveBuild table p)
  /\ (hasActiveBuild table p = true ->
      validateTrail table c p round
      = Invalid (if round =? 1 then TrailWithActiveBuild
                 else OneActiveBuild)).
Proof.
  unfold validateTrail.
  destruct (hasActiveBuild table p), (round =? 1); cbn; auto.
  split; [reflexivity | discriminate].
  split; [reflexivity | discriminate].
Qed.

(** X15 on the table of [trailWithBuildState], in round 2. *)
Lemma X15_trail_needs_no_build_witness :
  validateTrail (tableCards trailWithBuildState) (card R7 Diamonds) 0 2
  = Invalid OneActiveBuild.
Proof.
  exact (proj2 (X15_trail_needs_no_build (tableCards trailWithBuildState)
                  (card R7 Diamonds) 0 2) eq_refl).
Defined.

(** X16.  When [validateTemporaryStackBuild] accepts a hand card dropped on
    a staging stack and the card is in the hand,
    [handleCreateBuildFromStack] pushes a build of the value the validator
    announced, owned by the acting player, holding the cards of the stack in
    their order under the hand card; the build is closed to extension
    exactly when the card has the value of the stack; the acting player
    still holds a card of the value of the build, and the turn has passed. *)
Theorem X16_build_from_stack (newBuildId : nat) (g : GameState)
    (played : DraggedItem) (stack : TemporaryStack) (v : option nat) :
  let me := currentPlayer g in
  let hand := handOf (playerHands g) me in
  let g' := handleCreateBuildFromStack newBuildId g played stack in
  validateTemporaryStackBuild stack (dcard played) hand (tableCards g) me
  = Valid v ->
  In (dcard played) hand ->
  exists value : nat,
    v = Some value
    /\ last (tableCards g')
       = Some (TBuild (mkBuild newBuildId (scards stack ++ [dcard played])
                         value me
                         (negb (calculateCardSum (scards stack)
                                =? rankValue (rank (dcard played))))))
    /\ (value = calculateCardSum (scards stack)
        \/ value = calculateCardSum (scards stack)
                   + rankValue (rank (dcard played))
           /\ value <= 10)
    /\ (exists c : Card,
          In c (handOf (playerHands g') me) /\ rankValue (rank c) = value)
    /\ currentPlayer g' = (me + 1) mod 2.
Proof.
  intros me hand g' Hvalid Hhand. subst g' hand me.
  unfold validateTemporaryStackBuild in Hvalid. cbv zeta in Hvalid.
  unfold handleCreateBuildFromStack.
  destruct (removeCardFromHand_found _ _ _ Hhand) as (hands' & found & Hrm).
  rewrite Hrm.
  cbn [tableCards playerHands currentPlayer nextPlayer setCurrentPlayer
       setTable setHands].
  destruct (calculateCardSum (scards stack)
            =? rankValue (rank (dcard played))) eqn:Hsame.
  - destruct (existsb _ _) eqn:Hheld; [|discriminate].
    injection Hvalid as <-.
    apply existsb_exists in Hheld as (c & Hin & Hv).
    apply filter_In in Hin as [Hin Hother]. apply Nat.eqb_eq in Hv.
    eexists. split; [reflexivity|]. split; [apply last_snoc|].
    split; [left; reflexivity|]. split; [|reflexivity].
    exists c. split; [|exact Hv].
    eapply removeCardFromHand_keeps; [exact Hrm | exact Hin | exact Hother].
  - destruct (10 <? _) eqn:Hten; [discriminate|].
    apply Nat.ltb_ge in Hten.
    destruct (existsb _ _) eqn:Hheld; [|discriminate].
    injection Hvalid as <-.
    apply existsb_exists in Hheld as (c & Hin & Hv).
    apply filter_In in Hin as [Hin Hother]. apply Nat.eqb_eq in Hv.
    eexists. split; [reflexivity|]. split; [apply last_snoc|].
    split; [right; split; [reflexivity | exact Hten]|].
    split; [|reflexivity].
    exists c. split; [|exact Hv].
    eapply removeCardFromHand_keeps; [exact Hrm | exact Hin | exact Hother].
Qed.

(** X16 on [secondBuildState]: the 4 of diamonds dropped on the stack of 5
    makes a build of 9, for which the 9 of clubs is held. *)
Lemma X16_build_from_stack_witness :
  exists value : nat,
    Some 9 = Some value
    /\ last (tableCards
               (handleCreateBuildFromStack 3 secondBuildState
                  (mkDragged (card R4 Diamonds) SrcHand) tableFiveStack))
       = Some (TBuild (mkBuild 3 (scards tableFiveStack
                                    ++ [card R4 Diamonds]) value 0 true)).
Proof.
  destruct (X16_build_from_stack 3 secondBuildState
              (mkDragged (card R4 Diamonds) SrcHand) tableFiveStack (Some 9)
              eq_refl (or_introl eq_refl))
    as (value & Hv & Hlast & _).
  exists value. split; [exact Hv | exact Hlast].
Defined.

(** X17.  When [validateExtendToMerge] allows the merge and the card is in
    the hand, [handleExtendToMerge] pushes as last table item a build with
    the id, the owner and the value of the player's own build, closed to
    extension, whose cards are those of the two builds and the hand card;
    its value is the value of the opponent's build plus that of the card;
    neither of the two old builds is left on the table, and the turn
    stays. *)
Theorem X17_extend_to_merge (g : GameState) (handCard : Card)
    (opponentBuild ownBuild : Build) :
  let me := currentPlayer g in
  let g' := handleExtendToMerge g handCard opponentBuild ownBuild in
  validateExtendToMerge ownBuild opponentBuild handCard = MergeAllowed ->
  In handCard (handOf (playerHands g) me) ->
  exists merged : Build,
    tableCards g'
    = removeCardsFromTable (tableCards g)
                           [TBuild ownBuild; TBuild opponentBuild]
        ++ [TBuild merged]
    /\ buildId merged = buildId ownBuild
    /\ bowner merged = bowner ownBuild
    /\ bvalue merged = bvalue ownBuild
    /\ bvalue merged = bvalue opponentBuild + rankValue (rank handCard)
    /\ isExtendable merged = false
    /\ Permutation (bcards merged)
                   (bcards ownBuild ++ bcards opponentBuild ++ [handCard])
    /\ forallb (fun e => buildIdIsNot (buildId ownBuild) e
                         && buildIdIsNot (buildId opponentBuild) e)
               (removeCardsFromTable (tableCards g)
                                     [TBuild ownBuild; TBuild opponentBuild])
       = true
    /\ currentPlayer g' = me.
Proof.
  intros me g' Hvalid Hhand. subst g' me.
  unfold validateExtendToMerge in Hvalid. cbv zeta in Hvalid.
  destruct (isExtendable opponentBuild); [|discriminate]. cbn [negb] in Hvalid.
  destruct (bvalue opponentBuild + rankValue (rank handCard)
            =? bvalue ownBuild) eqn:Hsum; [|discriminate].
  apply Nat.eqb_eq in Hsum.
  unfold handleExtendToMerge.
  destruct (removeCardFromHand_found _ _ _ Hhand) as (hands' & found & Hrm).
  rewrite Hrm. eexists.
  cbn [tableCards currentPlayer setTable setHands buildId bowner bvalue
       isExtendable bcards].
  split; [reflexivity|]. split; [reflexivity|]. split; [reflexivity|].
  split; [reflexivity|]. split; [symmetry; exact Hsum|].
  split; [reflexivity|]. split; [apply sortDescending_Permutation|].
  split; [|reflexivity].
  apply forallb_forall. intros e He.
  apply filter_In in He as [_ He]. apply negb_true_iff in He.
  cbn [existsb] in He. rewrite orb_false_r in He.
  apply orb_false_iff in He as [Hown Hopp].
  destruct e as [c|b|s]; try reflexivity.
  cbn in Hown, Hopp. cbn. rewrite Hown, Hopp. reflexivity.
Qed.

(** X17 on [mergeState]: player 0 puts the 2 of hearts on the build of 6 of
    player 1 and merges it into the own build of 8. *)
Lemma X17_extend_to_merge_witness :
  exists merged : Build,
    tableCards (handleExtendToMerge mergeState (card R2 Hearts)
                  (mkBuild 1 [card R4 Clubs; card R2 Clubs] 6 1 true)
                  ownEight)
    = [TBuild merged]
    /\ bvalue merged = 8 /\ bowner merged = 0.
Proof.
  destruct (X17_extend_to_merge mergeState (card R2 Hearts)
              (mkBuild 1 [card R4 Clubs; card R2 Clubs] 6 1 true) ownEight
              eq_refl (or_introl eq_refl))
    as (merged & Htable & _ & Howner & Hvalue & _).
  exists merged. split; [exact Htable|]. split; [exact Hvalue | exact Howner].
Defined.

Section DistinctIds.

Lemma buildIds_filter (f : TableEntity -> bool) (table : list TableEntity) :
  List.NoDup (buildIds table) -> List.NoDup (buildIds (List.filter f table)).
Proof.
  induction table as [|e table IH]; intros Hnd; [constructor|].
  assert (List.NoDup (buildIds table)) as Hrest.
  { destruct e; cbn in Hnd; try exact Hnd.
    inversion Hnd; assumption. }
  cbn [List.filter]. destruct (f e); [|exact (IH Hrest)].
  destruct e as [c|b|s]; cbn; try exact (IH Hrest).
  cbn in Hnd. inversion Hnd as [|? ? Hb _]; subst.
  constructor; [|exact (IH Hrest)].
  intros Hin. apply Hb. clear -Hin.
  induction table as [|e table IH]; [destruct Hin|].
  cbn in Hin. destruct (f e); [|destruct e; cbn; auto].
  destruct e; cbn in *; auto. destruct Hin; auto.
Qed.

Lemma buildIds_not_In (table : list TableEntity) (id : nat) :
  ~ In id (buildIds table) -> forallb (buildIdIsNot id) table = true.
Proof.
  induction table as [|e table IH]; cbn; [auto|].
  intros Hnot. apply andb_true_iff. split.
  - destruct e as [c|b|s]; cbn; auto.
    apply negb_true_iff, Nat.eqb_neq. intros Hb. apply Hnot.
    cbn. left. exact Hb.
  - apply IH. intros Hin. apply Hnot.
    destruct e; cbn; auto.
Qed.

Lemma stackIds_has (table : list TableEntity) (s : TemporaryStack) :
  In (TStack s) table -> In (stackId s) (stackIds table).
Proof.
  induction table as [|e table IH]; [intros []|].
  intros [-> | Hin]; [left; reflexivity|].
  destruct e; cbn; auto.
Qed.

Lemma buildIds_has (table : list TableEntity) (b : Build) :
  In (TBuild b) table -> In (buildId b) (buildIds table).
Proof.
  induction table as [|e table IH]; [intros []|].
  intros [-> | Hin]; [left; reflexivity|].
  destruct e; cbn; auto.
Qed.

(** With distinct stack ids, a stack of the table is the one item that the
    filter on its id takes away. *)
Lemma stack_on_table (table : list TableEntity) (s : TemporaryStack) :
  List.NoDup (stackIds table) ->
  In (TStack s) table ->
  Permutation table
    (TStack s :: List.filter (stackIdIsNot (stackId s)) table).
Proof.
  induction table as [|e table IH]; intros Hnd Hin; [destruct Hin|].
  destruct e as [c|b|s'].
  - destruct Hin as [|Hin]; [discriminate|].
    cbn in *. rewrite (IH Hnd Hin) at 1. apply perm_swap.
  - destruct Hin as [|Hin]; [discriminate|].
    cbn in *. rewrite (IH Hnd Hin) at 1. apply perm_swap.
  - cbn in Hnd. inversion Hnd as [|? ? Hs' Hrest]; subst.
    destruct Hin as [[= ->] | Hin].
    + cbn. rewrite Nat.eqb_refl. cbn.
      rewrite (filter_all _ _ (stackIds_not_In _ _ Hs')). reflexivity.
    + cbn. replace (stackId s' =? stackId s) with false.
      * cbn. rewrite (IH Hrest Hin) at 1. apply perm_swap.
      * symmetry. apply Nat.eqb_neq. intros Hsame. apply Hs'.
        rewrite Hsame. apply stackIds_has, Hin.
Qed.

Lemma build_on_table (table : list TableEntity) (b : Build) :
  List.NoDup (buildIds table) ->
  In (TBuild b) table ->
  Permutation table
    (TBuild b :: List.filter (buildIdIsNot (buildId b)) table).
Proof.
  induction table as [|e table IH]; intros Hnd Hin; [destruct Hin|].
  destruct e as [c|b'|s].
  - destruct Hin as [|Hin]; [discriminate|].
    cbn in *. rewrite (IH Hnd Hin) at 1. apply perm_swap.
  - cbn in Hnd. inversion Hnd as [|? ? Hb' Hrest]; subst.
    destruct Hin as [[= ->] | Hin].
    + cbn. rewrite Nat.eqb_refl. cbn.
      rewrite (filter_all _ _ (buildIds_not_In _ _ Hb')). reflexivity.
    + cbn. replace (buildId b' =? buildId b) with false.
      * cbn. rewrite (IH Hrest Hin) at 1. apply perm_swap.
      * symmetry. apply Nat.eqb_neq. intros Hsame. apply Hb'.
        rewrite Hsame. apply buildIds_has, Hin.
  - destruct Hin as [|Hin]; [discriminate|].
    cbn in *. rewrite (IH Hnd Hin) at 1. apply perm_swap.
Qed.

Lemma removeCardsFromTable_stack (table : list TableEntity)
    (s : TemporaryStack) :
  removeCardsFromTable table [TStack s]
  = List.filter (stackIdIsNot (stackId s)) table.
Proof.
  unfold removeCardsFromTable. apply filter_ext.
  intros [c|b|s']; cbn; try reflexivity. rewrite orb_false_r. reflexivity.
Qed.

Lemma removeCardsFromTable_build (table : list TableEntity) (b : Build) :
  removeCardsFromTable table [TBuild b]
  = List.filter (buildIdIsNot (buildId b)) table.
Proof.
  unfold removeCardsFromTable. apply filter_ext.
  intros [c|b'|s]; cbn; try reflexivity. rewrite orb_false_r. reflexivity.
Qed.

Lemma removeCardsFromTable_build_stack (table : list TableEntity)
    (b : Build) (s : TemporaryStack) :
  removeCardsFromTable table [TBuild b; TStack s]
  = List.filter (stackIdIsNot (stackId s))
                (List.filter (buildIdIsNot (buildId b)) table).
Proof.
  rewrite filter_filter. unfold removeCardsFromTable. apply filter_ext.
  intros [c|b'|s']; cbn; rewrite ?andb_true_r, ?orb_false_r; reflexivity.
Qed.

Lemma removeCardsFromTable_two_builds (table : list TableEntity)
    (a b : Build) :
  removeCardsFromTable table [TBuild a; TBuild b]
  = List.filter (buildIdIsNot (buildId b))
                (List.filter (buildIdIsNot (buildId a)) table).
Proof.
  rewrite filter_filter. unfold removeCardsFromTable. apply filter_ext.
  intros [c|b'|s']; cbn; rewrite ?orb_false_r, ?negb_orb; reflexivity.
Qed.

Lemma build_and_stack_on_table (table : list TableEntity) (b : Build)
    (s : TemporaryStack) :
  List.NoDup (stackIds table) ->
  List.NoDup (buildIds table) ->
  In (TBuild b) table ->
  In (TStack s) table ->
  Permutation table
    (TBuild b :: TStack s
       :: removeCardsFromTable table [TBuild b; TStack s]).
Proof.
  intros Hstacks Hbuilds Hb Hs.
  rewrite removeCardsFromTable_build_stack.
  rewrite (build_on_table table b Hbuilds Hb) at 1. constructor.
  apply stack_on_table.
  - apply stackIds_filter, Hstacks.
  - apply filter_In. split; [exact Hs | reflexivity].
Qed.

Lemma two_builds_on_table (table : list TableEntity) (a b : Build) :
  List.NoDup (buildIds table) ->
  In (TBuild a) table ->
  In (TBuild b) table ->
  buildId a <> buildId b ->
  Permutation table
    (TBuild a :: TBuild b
       :: removeCardsFromTable table [TBuild a; TBuild b]).
Proof.
  intros Hbuilds Ha Hb Hab.
  rewrite removeCardsFromTable_two_builds.
  rewrite (build_on_table table a Hbuilds Ha) at 1. constructor.
  apply build_on_table.
  - apply buildIds_filter, Hbuilds.
  - apply filter_In. split; [exact Hb|].
    cbn. apply negb_true_iff, Nat.eqb_neq. congruence.
Qed.

(** Two stacks of a table with distinct stack ids that share their id are
    one stack. *)
Lemma same_id_same_stack (table : list TableEntity) (s s' : TemporaryStack) :
  List.NoDup (stackIds table) ->
  In (TStack s) table -> In (TStack s') table ->
  stackId s = stackId s' -> s = s'.
Proof.
  induction table as [|e table IH]; intros Hnd Hs Hs' Hid; [destruct Hs|].
  destruct e as [c|b|t].
  - destruct Hs as [|Hs]; [discriminate|].
    destruct Hs' as [|Hs']; [discriminate|]. auto.
  - destruct Hs as [|Hs]; [discriminate|].
    destruct Hs' as [|Hs']; [discriminate|]. auto.
  - cbn in Hnd. inversion Hnd as [|? ? Ht Hrest]; subst.
    destruct Hs as [[= ->] | Hs], Hs' as [[= ->] | Hs']; auto.
    + exfalso. apply Ht. rewrite Hid. apply stackIds_has, Hs'.
    + exfalso. apply Ht. rewrite <- Hid. apply stackIds_has, Hs.
Qed.

(** The cards of the game after a move that changed the hands and the
    table, [extra] being the cards that left the hands for the table. *)
Lemma allCards_moved (g g' : GameState) (extra : list Card) :
  Permutation (map face (concat (playerHands g)))
              (map face (extra ++ concat (playerHands g'))) ->
  Permutation (map face (extra ++ flat_map entityCards (tableCards g)))
              (map face (flat_map entityCards (tableCards g'))) ->
  playerCaptures g' = playerCaptures g ->
  deck g' = deck g ->
  Permutation (allCards g) (allCards g').
Proof.
  intros Hhands Htable Hcaps Hdeck. unfold allCards.
  rewrite Hcaps, Hdeck, !map_app. rewrite !map_app in Hhands, Htable.
  rewrite Hhands, <- Htable. solve_Permutation.
Qed.

(** The same when the hands did not change. *)
Lemma allCards_table (g g' : GameState) :
  Permutation (map face (flat_map entityCards (tableCards g)))
              (map face (flat_map entityCards (tableCards g'))) ->
  playerHands g' = playerHands g ->
  playerCaptures g' = playerCaptures g ->
  deck g' = deck g ->
  Permutation (allCards g) (allCards g').
Proof.
  intros Htable Hhands Hcaps Hdeck.
  apply (allCards_moved g g' []); try assumption.
  rewrite Hhands. reflexivity.
Qed.

(** The table after a stack gave its cards, and [extra], to a new item
    holding [cards]. *)
Lemma stack_replaced (table : list TableEntity) (s : TemporaryStack)
    (item : TableEntity) (extra : list Card) :
  List.NoDup (stackIds table) ->
  In (TStack s) table ->
  Permutation (map face (entityCards item)) (map face (extra ++ scards s)) ->
  Permutation
    (map face (extra ++ flat_map entityCards table))
    (map face (flat_map entityCards
                 (List.filter (stackIdIsNot (stackId s)) table ++ [item]))).
Proof.
  intros Hnd Hin Hitem.
  rewrite (Permutation_flat_map _ (stack_on_table table s Hnd Hin)) at 1.
  rewrite flat_map_app. cbn [flat_map entityCards].
  rewrite !map_app, app_nil_r. rewrite map_app in Hitem.
  rewrite Hitem. solve_Permutation.
Qed.

(** The table after a build and a stack gave their cards to a new item. *)
Lemma build_and_stack_replaced (table : list TableEntity) (b : Build)
    (s : TemporaryStack) (item : TableEntity) :
  List.NoDup (stackIds table) ->
  List.NoDup (buildIds table) ->
  In (TBuild b) table ->
  In (TStack s) table ->
  Permutation (map face (entityCards item))
              (map face (bcards b ++ scards s)) ->
  Permutation
    (map face (flat_map entityCards table))
    (map face (flat_map entityCards
                 (removeCardsFromTable table [TBuild b; TStack s]
                    ++ [item]))).
Proof.
  intros Hstacks Hbuilds Hb Hs Hitem.
  rewrite (Permutation_flat_map _
             (build_and_stack_on_table table b s Hstacks Hbuilds Hb Hs))
    at 1.
  rewrite flat_map_app. cbn [flat_map entityCards].
  rewrite !map_app, app_nil_r. rewrite map_app in Hitem.
  rewrite Hitem. solve_Permutation.
Qed.

End DistinctIds.

(** X18.  Moves on a staging stack keep the cards of the game.  In a state
    whose stacks have distinct ids and whose builds have distinct ids, for a
    stack that lies on the table: a finalize that makes a build,
    [handleCreateBuildWithValue], [handleCreateBuildFromStack],
    [handleAddToStagingStack], and, for a build that lies on the table,
    [handleMergeIntoOwnBuild], [handleReinforceBuildWithStack] and
    [handleReinforceOpponentBuildWithStack] all answer a state with the same
    cards, by rank and suit, over the hands, the table, the captures and the
    deck. *)
Theorem X18_stack_moves_conserve (g : GameState) (stack : TemporaryStack) :
  List.NoDup (stackIds (tableCards g)) ->
  List.NoDup (buildIds (tableCards g)) ->
  In (TStack stack) (tableCards g) ->
  (forall (newBuildId : nat) (g' : GameState),
      handleFinalizeStagingStack newBuildId g stack = FinalizeState g' ->
      Permutation (allCards g) (allCards g'))
  /\ (forall newBuildId V : nat,
        Permutation (allCards g)
          (allCards (handleCreateBuildWithValue newBuildId g stack V)))
  /\ (forall (newBuildId : nat) (played : DraggedItem),
        Permutation (allCards g)
          (allCards (handleCreateBuildFromStack newBuildId g played stack)))
  /\ (forall handCard : Card,
        Permutation (allCards g)
          (allCards (handleAddToStagingStack g handCard stack)))
  /\ (forall b : Build,
        In (TBuild b) (tableCards g) ->
        Permutation (allCards g) (allCards (handleMergeIntoOwnBuild g stack b))
        /\ (forall newBuildId : nat,
              Permutation (allCards g)
                (allCards (handleReinforceBuildWithStack newBuildId g stack
                                                         b)))
        /\ Permutation (allCards g)
             (allCards (handleReinforceOpponentBuildWithStack g stack b))).
Proof.
  intros Hstacks Hbuilds Hin.
  split; [|split; [|split; [|split]]].
  - intros newBuildId g' Hfinal.
    unfold handleFinalizeStagingStack in Hfinal.
    destruct (findPossibleBuildsFromStack _ _ _ _) as [|V [|W rest]];
      try discriminate.
    injection Hfinal as <-.
    apply allCards_table; try reflexivity.
    cbn [tableCards nextPlayer setCurrentPlayer setTable].
    apply (stack_replaced _ stack _ [] Hstacks Hin).
    cbn [entityCards bcards app]. rewrite !map_face_strip. reflexivity.
  - intros newBuildId V. unfold handleCreateBuildWithValue.
    apply allCards_table; try reflexivity.
    cbn [tableCards nextPlayer setCurrentPlayer setTable].
    rewrite removeCardsFromTable_stack.
    apply (stack_replaced _ stack _ [] Hstacks Hin).
    cbn [entityCards bcards app]. rewrite map_face_strip. reflexivity.
  - intros newBuildId played. unfold handleCreateBuildFromStack.
    destruct (removeCardFromHand _ _ _) as [[hands found]|] eqn:Hremoved;
      [|reflexivity].
    apply (allCards_moved _ _ [dcard played]); try reflexivity.
    + cbn [playerHands nextPlayer setCurrentPlayer setTable setHands].
      rewrite (Permutation_map face
                 (removeCardFromHand_Permutation _ _ _ _ _ Hremoved)).
      cbn [map app].
      rewrite (removeCardFromHand_face _ _ _ _ _ Hremoved). reflexivity.
    + cbn [tableCards nextPlayer setCurrentPlayer setTable setHands].
      rewrite removeCardsFromTable_stack.
      apply (stack_replaced _ stack _ [dcard played] Hstacks Hin).
      cbn [entityCards bcards]. apply Permutation_map, Permutation_app_comm.
  - intros handCard. unfold handleAddToStagingStack.
    destruct (removeCardFromHand _ _ _) as [[hands found]|] eqn:Hremoved;
      [|reflexivity].
    apply (allCards_moved _ _ [handCard]); try reflexivity.
    + cbn [playerHands setTable setHands].
      rewrite (Permutation_map face
                 (removeCardFromHand_Permutation _ _ _ _ _ Hremoved)).
      cbn [map app].
      rewrite (removeCardFromHand_face _ _ _ _ _ Hremoved). reflexivity.
    + cbn [tableCards setTable setHands].
      destruct (findIndex _ (tableCards g)) as [i|] eqn:Hfind.
      * apply findIndex_insert in Hfind
          as (before & x & after & Htable & Hx & Hinsert).
        rewrite Hinsert.
        destruct x as [c|b|s]; try discriminate.
        cbn in Hx. rewrite negb_involutive in Hx. apply Nat.eqb_eq in Hx.
        assert (s = stack) as ->.
        { apply (same_id_same_stack (tableCards g)); auto.
          rewrite Htable. apply in_or_app. right. left. reflexivity. }
        rewrite Htable, !flat_map_app. cbn [flat_map entityCards scards].
        rewrite !map_app. cbn [map]. rewrite face_tag. solve_Permutation.
      * apply (stack_replaced _ stack _ [handCard] Hstacks Hin).
        cbn [entityCards scards]. rewrite !map_app. cbn [map].
        rewrite face_tag. solve_Permutation.
  - intros b Hb. split; [|split].
    + unfold handleMergeIntoOwnBuild.
      apply allCards_table; try reflexivity. cbn [tableCards setTable].
      apply build_and_stack_replaced; auto.
      cbn [entityCards bcards]. rewrite !map_app, map_face_strip.
      reflexivity.
    + intros newBuildId. unfold handleReinforceBuildWithStack.
      apply allCards_table; try reflexivity.
      cbn [tableCards nextPlayer setCurrentPlayer setCaptures setTable
           setHands].
      apply build_and_stack_replaced; auto.
      cbn [entityCards bcards]. rewrite !map_app, map_face_strip.
      reflexivity.
    + unfold handleReinforceOpponentBuildWithStack.
      apply allCards_table; try reflexivity. cbn [tableCards setTable].
      apply build_and_stack_replaced; auto.
      cbn [entityCards bcards]. rewrite !map_app, map_face_strip.
      reflexivity.
Qed.

(** X18 on [reinforceState]: the stack of a 6 and a 2 goes on the build of
    8 of the opponent. *)
Lemma X18_stack_moves_conserve_witness :
  Permutation
    (allCards reinforceState)
    (allCards (handleReinforceOpponentBuildWithStack reinforceState tableStack
                                                     opponentEight)).
Proof.
  assert (List.NoDup (stackIds (tableCards reinforceState))) as Hstacks.
  { cbn. repeat constructor; cbn; intuition discriminate. }
  assert (List.NoDup (buildIds (tableCards reinforceState))) as Hbuilds.
  { cbn. repeat constructor; cbn; intuition discriminate. }
  exact (proj2 (proj2
           (proj2 (proj2 (proj2 (proj2
              (X18_stack_moves_conserve reinforceState tableStack
                 Hstacks Hbuilds (or_intror (or_introl eq_refl))))))
              opponentEight (or_introl eq_refl)))).
Defined.

(** The table after a build gave its cards, and [extra], to a new item. *)
Lemma build_replaced (table : list TableEntity) (b : Build)
    (item : TableEntity) (extra : list Card) :
  List.NoDup (buildIds table) ->
  In (TBuild b) table ->
  Permutation (map face (entityCards item)) (map face (extra ++ bcards b)) ->
  Permutation
    (map face (extra ++ flat_map entityCards table))
    (map face (flat_map entityCards
                 (List.filter (buildIdIsNot (buildId b)) table ++ [item]))).
Proof.
  intros Hnd Hin Hitem.
  rewrite (Permutation_flat_map _ (build_on_table table b Hnd Hin)) at 1.
  rewrite flat_map_app. cbn [flat_map entityCards].
  rewrite !map_app, app_nil_r. rewrite map_app in Hitem.
  rewrite Hitem. solve_Permutation.
Qed.

(** What a card played from the hand does to the cards in the hands. *)
Lemma hands_after_play (hands hands' : list (list Card)) (p : nat)
    (c found : Card) :
  removeCardFromHand hands p c = Some (hands', found) ->
  Permutation (map face (concat hands)) (map face ([c] ++ concat hands')).
Proof.
  intros Hremoved.
  rewrite (Permutation_map face
             (removeCardFromHand_Permutation _ _ _ _ _ Hremoved)).
  cbn [map app].
  rewrite (removeCardFromHand_face _ _ _ _ _ Hremoved). reflexivity.
Qed.

(** X19.  Moves on a build keep the cards of the game.  In a state whose
    builds have distinct ids, for a build that lies on the table:
    [handleAddToOwnBuild], [handleAddToOpponentBuild] with a card that does
    not come from the table, and [handleExtendToMerge] with a second build
    of the table all answer a state with the same cards, by rank and suit,
    over the hands, the table, the captures and the deck. *)
Theorem X19_build_moves_conserve (g : GameState) (b : Build) :
  List.NoDup (buildIds (tableCards g)) ->
  In (TBuild b) (tableCards g) ->
  (forall played : DraggedItem,
      Permutation (allCards g) (allCards (handleAddToOwnBuild g played b)))
  /\ (forall (newBuildId : nat) (played : DraggedItem),
        dsource played <> SrcTable ->
        Permutation (allCards g)
          (allCards (handleAddToOpponentBuild newBuildId g played b)))
  /\ (forall (handCard : Card) (ownBuild : Build),
        In (TBuild ownBuild) (tableCards g) ->
        buildId ownBuild <> buildId b ->
        Permutation (allCards g)
          (allCards (handleExtendToMerge g handCard b ownBuild))).
Proof.
  intros Hbuilds Hin. split; [|split].
  - intros played. unfold handleAddToOwnBuild.
    destruct (removeCardFromHand _ _ _) as [[hands found]|] eqn:Hremoved;
      [|reflexivity].
    apply (allCards_moved _ _ [dcard played]); try reflexivity.
    + exact (hands_after_play _ _ _ _ _ Hremoved).
    + cbn [tableCards nextPlayer setCurrentPlayer setTable setHands].
      apply (build_replaced _ b _ [dcard played] Hbuilds Hin).
      cbn [entityCards bcards]. apply Permutation_map, Permutation_app_comm.
  - intros newBuildId played Hsource. unfold handleAddToOpponentBuild.
    rewrite (bool_decide_eq_false_2 _ Hsource).
    destruct (removeCardFromHand _ _ _) as [[hands found]|] eqn:Hremoved;
      [|reflexivity].
    apply (allCards_moved _ _ [dcard played]); try reflexivity.
    + exact (hands_after_play _ _ _ _ _ Hremoved).
    + cbn [tableCards nextPlayer setCurrentPlayer setCaptures setTable
           setHands].
      rewrite removeCardsFromTable_build.
      apply (build_replaced _ b _ [dcard played] Hbuilds Hin).
      cbn [entityCards bcards]. apply Permutation_map.
      rewrite sortDescending_Permutation. apply Permutation_app_comm.
  - intros handCard ownBuild Hown Hids. unfold handleExtendToMerge.
    destruct (removeCardFromHand _ _ _) as [[hands found]|] eqn:Hremoved;
      [|reflexivity].
    apply (allCards_moved _ _ [handCard]); try reflexivity.
    + exact (hands_after_play _ _ _ _ _ Hremoved).
    + cbn [tableCards setTable setHands].
      rewrite (Permutation_flat_map _
                 (two_builds_on_table _ ownBuild b Hbuilds Hown Hin Hids))
        at 1.
      rewrite flat_map_app. cbn [flat_map entityCards bcards].
      apply Permutation_map. rewrite sortDescending_Permutation.
      rewrite app_nil_r. solve_Permutation.
Qed.

(** X19 on [mergeState]: the build of 6 of player 1, a 2 from the hand and
    the own build of 8 become one build. *)
Lemma X19_build_moves_conserve_witness :
  Permutation
    (allCards mergeState)
    (allCards (handleExtendToMerge mergeState (card R2 Hearts)
                 (mkBuild 1 [card R4 Clubs; card R2 Clubs] 6 1 true)
                 ownEight)).
Proof.
  assert (List.NoDup (buildIds (tableCards mergeState))) as Hbuilds.
  { cbn. repeat constructor; cbn; intuition discriminate. }
  exact (proj2 (proj2
           (X19_build_moves_conserve mergeState
              (mkBuild 1 [card R4 Clubs; card R2 Clubs] 6 1 true)
              Hbuilds (or_intror (or_introl eq_refl))))
           (card R2 Hearts) ownEight (or_introl eq_refl)
           ltac:(cbn; discriminate)).
Defined.

Section Capture.

Lemma Permutation_filter {A : Type} (f : A -> bool) (l l' : list A) :
  Permutation l l' -> Permutation (List.filter f l) (List.filter f l').
Proof.
  induction 1 as [|x l l' _ IH|x y l|l l' l'' _ IH1 _ IH2].
  - reflexivity.
  - cbn. destruct (f x); [constructor|]; exact IH.
  - cbn. destruct (f x), (f y); try reflexivity. apply perm_swap.
  - etransitivity; eassumption.
Qed.

Lemma sameItem_refl (e : TableEntity) : sameItem e e = true.
Proof.
  destruct e as [c|b|s]; cbn; try apply Nat.eqb_refl.
  unfold sameCard. rewrite !bool_decide_eq_true_2 by reflexivity.
  reflexivity.
Qed.

(** Taking the selected items away from a table made of them and of items
    that match none of them. *)
Lemma removeCardsFromTable_selected (table selected rest : list TableEntity) :
  Permutation table (selected ++ rest) ->
  forallb (fun e => negb (existsb (sameItem e) selected)) rest = true ->
  Permutation (removeCardsFromTable table selected) rest.
Proof.
  intros Htable Hrest. unfold removeCardsFromTable.
  rewrite (Permutation_filter _ _ _ Htable), List.filter_app.
  rewrite (filter_all _ _ Hrest).
  replace (List.filter _ selected) with (@nil TableEntity); [reflexivity|].
  symmetry. apply existsb_false_filter.
  destruct (existsb _ selected) eqn:Hsome; [|reflexivity].
  apply existsb_exists in Hsome as (e & He & Hnone).
  apply negb_true_iff in Hnone.
  assert (existsb (sameItem e) selected = true) as Hself.
  { apply existsb_exists. exists e. split; [exact He | apply sameItem_refl]. }
  congruence.
Qed.

Lemma findBuildOf_In (p : nat) (table : list TableEntity) (b : Build) :
  findBuildOf p table = Some b -> In (TBuild b) table.
Proof.
  induction table as [|e table IH]; [discriminate|].
  destruct e as [c|b'|s]; cbn; auto.
  destruct (bowner b' =? p); [|auto].
  intros [= ->]. left. reflexivity.
Qed.

Lemma captures_insert_group (caps : list (list (list Card))) :
  forall (p : nat) (group : list Card),
    p < length caps ->
    Permutation
      (concat (concat (<[p := capturesOf caps p ++ [group]]> caps)))
      (concat (concat caps) ++ group).
Proof.
  induction caps as [|c caps IH]; intros p group Hp; [simpl in Hp; lia|].
  destruct p as [|p].
  - change (capturesOf (c :: caps) 0) with c.
    cbn [insert list_insert concat]. rewrite !concat_app. cbn [concat].
    rewrite app_nil_r. solve_Permutation.
  - change (capturesOf (c :: caps) (S p)) with (capturesOf caps p).
    cbn [insert list_insert concat]. rewrite !concat_app.
    rewrite IH by (simpl in Hp; lia). solve_Permutation.
Qed.

Lemma no_builds_no_ids (items : list TableEntity) :
  existsb isBuild items = false -> buildIds items = [].
Proof.
  induction items as [|e items IH]; [reflexivity|].
  destruct e as [c|b|s]; cbn; auto. discriminate.
Qed.

End Capture.

(** X20.  A capture made with a card of the hand on loose cards and builds
    keeps the cards of the game.  When the table is made of the selected
    items and of items that match none of them, no stack is selected, no
    card of the opponent is used, the builds have distinct ids and the
    player has a capture set, [handleCapture] answers a state with the same
    cards, by rank and suit: whether the card is not in the hand (nothing
    changes), the combination is added to the player's own build, or the
    card and the selected items go to the captures of the player as one
    group. *)
Theorem X20_capture_conserves (newBuildId : nat) (g : GameState)
    (played : DraggedItem) (selected rest : list TableEntity) :
  dsource played = SrcHand ->
  existsb isStack selected = false ->
  Permutation (tableCards g) (selected ++ rest) ->
  forallb (fun e => negb (existsb (sameItem e) selected)) rest = true ->
  List.NoDup (buildIds (tableCards g)) ->
  currentPlayer g < length (playerCaptures g) ->
  Permutation (allCards g)
              (allCards (handleCapture newBuildId g played selected None)).
Proof.
  intros Hsource Hnostack Htable Hrest Hbuilds Hme.
  pose proof (removeCardsFromTable_selected _ _ _ Htable Hrest) as Hleft.
  unfold handleCapture.
  destruct (implicitAddToBuild newBuildId g played selected None)
    as [result|] eqn:Himplicit.
  - unfold implicitAddToBuild in Himplicit.
    destruct (findBuildOf (currentPlayer g) (tableCards g)) as [own|]
      eqn:Hown; [|discriminate].
    destruct (_ && _ && negb (existsb isBuild selected)) eqn:Hcond;
      [|discriminate].
    apply andb_true_iff in Hcond as [_ Hnobuild].
    apply negb_true_iff in Hnobuild.
    destruct (canPartitionIntoSums _ _); [|discriminate].
    destruct (removeCardFromHand _ _ _) as [[hands found]|] eqn:Hremoved;
      injection Himplicit as <-; [|reflexivity].
    apply (allCards_moved _ _ [dcard played]); try reflexivity.
    + exact (hands_after_play _ _ _ _ _ Hremoved).
    + cbn [tableCards nextPlayer setCurrentPlayer setTable setHands].
      apply findBuildOf_In in Hown.
      assert (In (TBuild own) rest) as Hinrest.
      { apply (Permutation_in _ Htable) in Hown.
        apply in_app_or in Hown as [Hsel | Hr]; [|exact Hr].
        exfalso. apply Bool.not_true_iff_false in Hnobuild. apply Hnobuild.
        apply existsb_exists. exists (TBuild own). auto. }
      assert (List.NoDup (buildIds rest)) as Hrestids.
      { unfold buildIds in *.
        apply (Permutation_NoDup (Permutation_flat_map _ Htable)) in Hbuilds.
        rewrite flat_map_app in Hbuilds.
        apply NoDup_app_remove_l in Hbuilds. exact Hbuilds. }
      assert (Permutation
                (removeCardsFromTable (tableCards g) (TBuild own :: selected))
                (List.filter (buildIdIsNot (buildId own)) rest)) as Hgone.
      { unfold removeCardsFromTable in *.
        rewrite <- (Permutation_filter _ _ _ Hleft), filter_filter.
        erewrite filter_ext; [reflexivity|].
        intros e. cbn [existsb]. rewrite negb_orb, andb_comm. f_equal.
        destruct e as [c|b|s]; reflexivity. }
      rewrite flat_map_app, (Permutation_flat_map _ Hgone).
      rewrite (Permutation_flat_map _ Htable), flat_map_app.
      rewrite (Permutation_flat_map _ (build_on_table _ _ Hrestids Hinrest))
        at 1.
      cbn [flat_map entityCards bcards]. rewrite app_nil_r.
      apply Permutation_map. solve_Permutation.
  - unfold captureProper.
    rewrite Hsource, Hnostack.
    rewrite (bool_decide_eq_false_2 (SrcHand = SrcTable)) by discriminate.
    rewrite (bool_decide_eq_true_2 (SrcHand = SrcHand)) by reflexivity.
    cbn [negb].
    destruct (removeCardFromHand _ _ _) as [[hands found]|] eqn:Hremoved;
      [|reflexivity].
    pose proof (removeCardFromHand_Permutation _ _ _ _ _ Hremoved) as Hhands.
    unfold allCards, createCaptureStack.
    cbn [playerHands tableCards playerCaptures deck nextPlayer
         setCurrentPlayer setLastCapturer setCaptures setTable setHands].
    apply Permutation_map.
    fold (removeCardsFromTable (tableCards g) selected).
    rewrite (Permutation_flat_map _ Hleft).
    rewrite (captures_insert_group _ _ _ Hme).
    rewrite Hhands, (Permutation_flat_map _ Htable), flat_map_app.
    cbn [app]. solve_Permutation.
Qed.

(** X20 on [trailState] with a 7 and a king on the table: the 7 of diamonds
    takes the 7 of clubs. *)
Lemma X20_capture_conserves_witness :
  let g := setTable [Loose (card R7 Clubs); Loose (card RK Clubs)]
                    trailState in
  Permutation
    (allCards g)
    (allCards (handleCapture 3 g (mkDragged (card R7 Diamonds) SrcHand)
                 [Loose (card R7 Clubs)] None)).
Proof.
  intros g.
  apply (X20_capture_conserves 3 g (mkDragged (card R7 Diamonds) SrcHand)
           [Loose (card R7 Clubs)] [Loose (card RK Clubs)]).
  - reflexivity.
  - reflexivity.
  - reflexivity.
  - reflexivity.
  - constructor.
  - cbn. lia.
Defined.

(** X21.  A build made with a card of the hand keeps the cards of the
    game.  When the table is made of the loose cards [cards] and of items
    that match none of them, and the two cards [bigger] and [smaller], if
    both are given, are the played card and the one card of [cards],
    [handleBuild] answers a state with the same cards, by rank and suit,
    whether it makes the build or refuses it. *)
Theorem X21_build_conserves (newBuildId : nat) (g : GameState)
    (played : DraggedItem) (cards : list Card) (V : nat)
    (bigger smaller : option Card) (rest : list TableEntity) :
  dsource played <> SrcTable ->
  Permutation (tableCards g) (map Loose cards ++ rest) ->
  forallb (fun e => negb (existsb (sameItem e) (map Loose cards))) rest
  = true ->
  match bigger, smaller with
  | Some b, Some s =>
      Permutation (map face [b; s]) (map face (dcard played :: cards))
  | _, _ => True
  end ->
  Permutation
    (allCards g)
    (allCards (handleBuild newBuildId g played cards V bigger smaller)).
Proof.
  intros Hsource Htable Hrest Hpair.
  pose proof (removeCardsFromTable_selected _ _ _ Htable Hrest) as Hleft.
  unfold handleBuild.
  destruct (validateBuild _ _ _ _ _); [|reflexivity].
  rewrite (bool_decide_eq_false_2 _ Hsource).
  destruct (removeCardFromHand _ _ _) as [[hands found]|] eqn:Hremoved;
    [|reflexivity].
  apply (allCards_moved _ _ [dcard played]); try reflexivity.
  - exact (hands_after_play _ _ _ _ _ Hremoved).
  - cbn [tableCards nextPlayer setCurrentPlayer setCaptures setTable
         setHands].
    rewrite flat_map_app, (Permutation_flat_map _ Hleft).
    rewrite (Permutation_flat_map _ Htable), flat_map_app, flat_map_Loose.
    cbn [flat_map entityCards bcards]. rewrite app_nil_r, !map_app.
    assert (Permutation
              (map face
                 match bigger, smaller with
                 | Some b, Some s => [b; s]
                 | _, _ => sortCardsByRank cards ++ [dcard played]
                 end)
              (map face ([dcard played] ++ cards))) as ->.
    { destruct bigger as [b|], smaller as [s|]; try exact Hpair;
        apply Permutation_map; unfold sortCardsByRank;
        rewrite sortDescending_Permutation; apply Permutation_app_comm. }
    rewrite map_app. solve_Permutation.
Qed.

(** X21 on [buildState]: player 0 puts the 5 of hearts on the loose 3 for a
    build of 8, holding the 8 of diamonds. *)
Lemma X21_build_conserves_witness :
  Permutation
    (allCards buildState)
    (allCards (handleBuild 3 buildState (mkDragged (card R5 Hearts) SrcHand)
                 [card R3 Spades] 8 (Some (card R5 Hearts))
                 (Some (card R3 Spades)))).
Proof.
  apply (X21_build_conserves 3 buildState
           (mkDragged (card R5 Hearts) SrcHand) [card R3 Spades] 8
           (Some (card R5 Hearts)) (Some (card R3 Spades))
           [TBuild (mkBuild 1 [card R4 Clubs; card R2 Clubs] 6 1 true)]).
  - discriminate.
  - reflexivity.
  - reflexivity.
  - reflexivity.
Defined.

Section FreshIds.

Lemma stackIds_app (t1 t2 : list TableEntity) :
  stackIds (t1 ++ t2) = stackIds t1 ++ stackIds t2.
Proof. apply flat_map_app. Qed.

Lemma stackIds_Loose (cards : list Card) : stackIds (map Loose cards) = [].
Proof. induction cards as [|c cards IH]; [reflexivity | exact IH]. Qed.

(** A stack with a fresh id put in the middle of a table. *)
Lemma stackIds_fresh (before after : list TableEntity) (s : TemporaryStack) :
  List.NoDup (stackIds (before ++ after)) ->
  ~ In (stackId s) (stackIds (before ++ after)) ->
  List.NoDup (stackIds (before ++ TStack s :: after)).
Proof.
  intros Hnd Hfresh.
  apply (Permutation_NoDup (l := stackId s :: stackIds (before ++ after))).
  - rewrite !stackIds_app. cbn. apply Permutation_middle.
  - constructor; assumption.
Qed.

Lemma stackIds_pushed (table : list TableEntity) (s : TemporaryStack) :
  List.NoDup (stackIds table) ->
  ~ In (stackId s) (stackIds table) ->
  List.NoDup (stackIds (table ++ [TStack s])).
Proof.
  intros Hnd Hfresh. apply stackIds_fresh; rewrite app_nil_r; assumption.
Qed.

End FreshIds.

(** X22.  The ids of the staging stacks on the table stay distinct.  From a
    table with distinct stack ids: the three handlers that open a stack keep
    them distinct when the id of the new stack is not on the table; adding a
    card to a stack of the table, cancelling, disbanding and finalizing a
    stack keep them distinct. *)
Theorem X22_stack_ids_stay_distinct (g : GameState) :
  List.NoDup (stackIds (tableCards g)) ->
  (forall newStackId : nat,
      ~ In newStackId (stackIds (tableCards g)) ->
      (forall handCard tableCard : Card,
          List.NoDup
            (stackIds (tableCards (handleCreateStagingStack
                                     newStackId g handCard tableCard))))
      /\ (forall c : Card,
            List.NoDup
              (stackIds (tableCards (handleStageSingleCardFromHand
                                       newStackId g c))))
      /\ (forall opponentCard : Card,
            List.NoDup
              (stackIds (tableCards (handleStageOpponentCard
                                       newStackId g opponentCard)))))
  /\ (forall (handCard : Card) (stack : TemporaryStack),
        In (TStack stack) (tableCards g) ->
        stackIds (tableCards (handleAddToStagingStack g handCard stack))
        = stackIds (tableCards g))
  /\ (forall stack : TemporaryStack,
        List.NoDup (stackIds (tableCards (handleCancelStagingStack g stack)))
        /\ List.NoDup
             (stackIds (tableCards (handleDisbandStagingStack g stack))))
  /\ (forall (newBuildId : nat) (stack : TemporaryStack) (g' : GameState),
        handleFinalizeStagingStack newBuildId g stack = FinalizeState g' ->
        List.NoDup (stackIds (tableCards g'))).
Proof.
  intros Hnd. split; [|split; [|split]].
  - intros newStackId Hfresh. split; [|split].
    + intros handCard tableCard. unfold handleCreateStagingStack.
      destruct (existsb _ (tableCards g)); [exact Hnd|].
      destruct (findIndex _ (tableCards g)) as [i|] eqn:Hfind; [|exact Hnd].
      destruct (removeCardFromHand _ _ _) as [[hands found]|]; [|exact Hnd].
      apply findIndex_insert in Hfind
        as (before & x & after & Htable & Hx & Hinsert).
      cbn [tableCards setTable setHands]. rewrite Hinsert.
      destruct x as [x|b|s]; try discriminate.
      rewrite Htable, stackIds_app in Hnd, Hfresh. cbn in Hnd, Hfresh.
      apply stackIds_fresh; rewrite stackIds_app; assumption.
    + intros c. unfold handleStageSingleCardFromHand.
      destruct (existsb _ (tableCards g)); [exact Hnd|].
      destruct (removeCardFromHand _ _ _) as [[hands found]|]; [|exact Hnd].
      cbn [tableCards setTable setHands].
      apply stackIds_pushed; assumption.
    + intros opponentCard. unfold handleStageOpponentCard.
      destruct (existsb _ (tableCards g)); [exact Hnd|].
      cbn [tableCards setTable setCaptures].
      apply stackIds_pushed; assumption.
  - intros handCard stack Hin. unfold handleAddToStagingStack.
    destruct (removeCardFromHand _ _ _) as [[hands found]|]; [|reflexivity].
    cbn [tableCards setTable setHands].
    destruct (findIndex _ (tableCards g)) as [i|] eqn:Hfind.
    + apply findIndex_insert in Hfind
        as (before & x & after & Htable & Hx & Hinsert).
      rewrite Hinsert, Htable, !stackIds_app.
      destruct x as [c|b|s]; try discriminate.
      cbn in Hx. rewrite negb_involutive in Hx. apply Nat.eqb_eq in Hx.
      cbn. rewrite Hx. reflexivity.
    + exfalso. clear -Hin Hfind.
      induction (tableCards g) as [|e table IH]; [destruct Hin|].
      cbn in Hfind.
      destruct (negb (stackIdIsNot (stackId stack) e)) eqn:He;
        [discriminate|].
      destruct (findIndex _ table); [discriminate|].
      destruct Hin as [-> | Hin]; [|exact (IH Hin eq_refl)].
      cbn in He. rewrite Nat.eqb_refl in He. discriminate.
  - assert (forall stack, List.NoDup (stackIds (tableCards (takeApart g stack))))
      as Hapart.
    { intros stack. unfold takeApart.
      cbn [tableCards setCaptures setTable setHands].
      rewrite stackIds_app, stackIds_Loose, app_nil_r.
      apply stackIds_filter, Hnd. }
    intros stack. split; apply Hapart.
  - intros newBuildId stack g' Hfinal.
    unfold handleFinalizeStagingStack in Hfinal.
    destruct (findPossibleBuildsFromStack _ _ _ _) as [|V [|W rest]];
      try discriminate.
    injection Hfinal as <-.
    cbn [tableCards nextPlayer setCurrentPlayer setTable].
    rewrite stackIds_app. cbn. rewrite app_nil_r.
    apply stackIds_filter, Hnd.
Qed.

(** X22 on [fiveStackState]: a card is added to the stack 7, and the ids
    on the table are as before. *)
Lemma X22_stack_ids_stay_distinct_witness :
  stackIds (tableCards (handleAddToStagingStack fiveStackState
                          (card R5 Hearts) fiveStack))
  = stackIds (tableCards fiveStackState).
Proof.
  assert (List.NoDup (stackIds (tableCards fiveStackState))) as Hnd.
  { cbn. repeat constructor; cbn; intuition discriminate. }
  exact (proj1 (proj2 (X22_stack_ids_stay_distinct fiveStackState Hnd))
           (card R5 Hearts) fiveStack (or_introl eq_refl)).
Defined.

(** X23.  A staging stack that already holds a card from the hand and gets
    a second one through [handleAddToStagingStack] can become no build:
    for the stack as it then lies on the table [findPossibleBuildsFromStack]
    finds no value in any state, [handleFinalizeStagingStack] answers the
    error, and [validateReinforceBuildWithStack] refuses every build. *)
Theorem X23_second_hand_card (g : GameState) (handCard : Card)
    (stack : TemporaryStack) :
  let grown :=
    mkStack (stackId stack) (scards stack ++ [tag SrcHand handCard])
            (sowner stack) in
  existsb (hasSource SrcHand) (scards stack) = true ->
  (In (TStack stack) (tableCards g) ->
   In handCard (handOf (playerHands g) (currentPlayer g)) ->
   In (TStack grown) (tableCards (handleAddToStagingStack g handCard stack)))
  /\ (forall (hand : list Card) (table : list TableEntity) (p : nat),
        findPossibleBuildsFromStack grown hand table p = [])
  /\ (forall (newBuildId : nat) (g0 : GameState),
        handleFinalizeStagingStack newBuildId g0 grown = FinalizeError)
  /\ (forall b : Build,
        validateReinforceBuildWithStack grown b = Invalid NeedsOneHandCard).
Proof.
  intros grown Hheld.
  assert (exists a b rest,
             List.filter (hasSource SrcHand) (scards grown) = a :: b :: rest)
    as (a & b & rest & Htwo).
  { unfold grown. cbn [scards]. rewrite List.filter_app.
    change (List.filter (hasSource SrcHand) [tag SrcHand handCard])
      with [tag SrcHand handCard].
    destruct (List.filter (hasSource SrcHand) (scards stack))
      as [|a [|b rest]] eqn:Hfilter.
    - rewrite <- filter_length_existsb, Hfilter in Hheld. discriminate.
    - cbn. eauto.
    - cbn. eauto. }
  assert (forall hand table p,
             findPossibleBuildsFromStack grown hand table p = []) as Hnone.
  { intros hand table p. unfold findPossibleBuildsFromStack.
    rewrite Htwo. destruct (hasActiveBuild table p); reflexivity. }
  split; [|split; [exact Hnone|split]].
  - intros Hin Hhand. unfold handleAddToStagingStack.
    destruct (removeCardFromHand_found _ _ _ Hhand) as (hands' & found & ->).
    cbn [tableCards setTable setHands]. fold grown.
    destruct (findIndex _ (tableCards g)) as [i|] eqn:Hfind.
    + apply findIndex_insert in Hfind as (before & x & after & _ & _ & ->).
      apply in_or_app. right. left. reflexivity.
    + apply in_or_app. right. left. reflexivity.
  - intros newBuildId g0. unfold handleFinalizeStagingStack.
    rewrite Hnone. reflexivity.
  - intros build. unfold validateReinforceBuildWithStack.
    rewrite Htwo. reflexivity.
Qed.

(** X23 on [fiveStackState]: with the 5 of hearts added to [fiveStack],
    which holds the 2 of hearts from the hand, finalizing answers the
    error. *)
Lemma X23_second_hand_card_witness :
  handleFinalizeStagingStack 3
    (handleAddToStagingStack fiveStackState (card R5 Hearts) fiveStack)
    (mkStack 7 (scards fiveStack ++ [tag SrcHand (card R5 Hearts)]) 0)
  = FinalizeError.
Proof.
  exact (proj1 (proj2 (proj2
           (X23_second_hand_card fiveStackState (card R5 Hearts) fiveStack
              eq_refl))) 3 _).
Defined.

Section Options.

Lemma uniqueValues_fresh (values : list nat) :
  forall (seen : list nat) (v : nat),
    In v (uniqueValues seen values) -> ~ In v seen.
Proof.
  induction values as [|x values IH]; intros seen v Hin; [destruct Hin|].
  cbn in Hin. destruct (existsb (Nat.eqb x) seen) eqn:Hseen.
  - exact (IH seen v Hin).
  - destruct Hin as [<- | Hin].
    + intros Hx. apply Bool.not_true_iff_false in Hseen. apply Hseen.
      apply existsb_exists. exists x. split; [exact Hx|].
      apply Nat.eqb_refl.
    + intros Hv. apply (IH (x :: seen) v Hin). right. exact Hv.
Qed.

Lemma uniqueValues_NoDup (values : list nat) :
  forall seen : list nat, List.NoDup (uniqueValues seen values).
Proof.
  induction values as [|x values IH]; intros seen; [constructor|].
  cbn. destruct (existsb (Nat.eqb x) seen); [apply IH|].
  constructor; [|apply IH].
  intros Hin. apply uniqueValues_fresh in Hin. apply Hin. left. reflexivity.
Qed.

Lemma findPossibleBuildsFromStack_NoDup (stack : TemporaryStack)
    (hand : list Card) (table : list TableEntity) (p : nat) :
  List.NoDup (findPossibleBuildsFromStack stack hand table p).
Proof.
  unfold findPossibleBuildsFromStack.
  destruct (hasActiveBuild table p); [constructor|].
  destruct (List.filter (hasSource SrcHand) (scards stack))
    as [|used [|other rest]]; try constructor.
  destruct (List.filter (fun c => otherCard c used) hand); [constructor|].
  apply List.NoDup_filter, uniqueValues_NoDup.
Qed.

Lemma find_first_filtered {A : Type} (f : A -> bool) (l : list A) (x : A)
    (rest : list A) :
  List.filter f l = x :: rest -> List.find f l = Some x.
Proof.
  induction l as [|y l IH]; [discriminate|].
  cbn. destruct (f y); [|exact IH]. intros [= -> _]. reflexivity.
Qed.

End Options.

(** X24.  The values that [findPossibleBuildsFromStack] offers are pairwise
    distinct.  When [handleFinalizeStagingStack] answers options, they are
    at least two distinct values, and [handleCreateBuildWithValue] with any
    of them pushes a build of that value owned by the player to move, who
    holds a card of that value other than the hand card of the stack; the
    hands are not touched and the turn passes. *)
Theorem X24_options_are_distinct (newBuildId : nat) (g : GameState)
    (stack : TemporaryStack) :
  let me := currentPlayer g in
  let hand := handOf (playerHands g) me in
  List.NoDup (findPossibleBuildsFromStack stack hand (tableCards g) me)
  /\ (forall (options : list nat) (s : TemporaryStack) (used : option Card),
        handleFinalizeStagingStack newBuildId g stack
        = FinalizeOptions options s used ->
        List.NoDup options
        /\ 2 <= length options
        /\ s = stack
        /\ forall V : nat,
             In V options ->
             let g' := handleCreateBuildWithValue newBuildId g stack V in
             last (tableCards g')
             = Some (TBuild (mkBuild newBuildId
                               (map stripSource (scards stack)) V me true))
             /\ playerHands g' = playerHands g
             /\ (exists handCardUsed : Card,
                   used = Some handCardUsed
                   /\ holdsCaptureCard hand handCardUsed V)
             /\ currentPlayer g' = (me + 1) mod 2).
Proof.
  intros me hand. split; [apply findPossibleBuildsFromStack_NoDup|].
  intros options s used Hfinal.
  unfold handleFinalizeStagingStack in Hfinal. fold me hand in Hfinal.
  pose proof (findPossibleBuildsFromStack_NoDup stack hand (tableCards g) me)
    as Hnd.
  destruct (findPossibleBuildsFromStack stack hand (tableCards g) me)
    as [|V [|W rest]] eqn:Hfound; try discriminate.
  injection Hfinal as <- <- <-.
  split; [exact Hnd|]. split; [cbn; lia|]. split; [reflexivity|].
  intros V' HV' g'.
  rewrite <- Hfound in HV'.
  apply findPossibleBuildsFromStack_needs_card in HV'
    as (handCardUsed & Hused & Hcard & _).
  subst g'. unfold handleCreateBuildWithValue.
  cbn [tableCards playerHands currentPlayer nextPlayer setCurrentPlayer
       setTable].
  split; [apply last_snoc|]. split; [reflexivity|]. split; [|reflexivity].
  exists handCardUsed.
  split; [exact (find_first_filtered _ _ _ _ Hused) | exact Hcard].
Qed.

(** X24 on [pairStackState], where the options are 4 and 2: the value 4
    gives a build of 4. *)
Lemma X24_options_are_distinct_witness :
  last (tableCards (handleCreateBuildWithValue 3 pairStackState pairStack 4))
  = Some (TBuild (mkBuild 3 (map stripSource (scards pairStack)) 4 0 true)).
Proof.
  exact (proj1 (proj2 (proj2 (proj2
           (proj2 (X24_options_are_distinct 3 pairStackState pairStack)
              [4; 2] pairStack (Some (tag SrcHand (card R2 Diamonds)))
              eq_refl))) 4 (or_introl eq_refl))).
Defined.

(** X25.  A staging stack dropped on a loose card, the table being made of
    the stack, the card and items that share neither the stack id nor the
    card id: the stack and the card are replaced by one stack of the player
    to move, pushed last, with the card tagged [table] at the bottom; no
    error is shown, the turn stays, the hands and captures are not touched
    and the cards on the table are the same by rank and suit. *)
Theorem X25_stack_dropped_on_card {CardId : Type} `{EqDecision CardId}
    (getCardId : TableEntity -> CardId) (newBuildId newStackId : nat)
    (dragged : option nat) (target : TargetInfo) (g : GameState)
    (s : TemporaryStack) (c : Card) (rest : list TableEntity) :
  let out := handleTemporaryStackDrop getCardId newBuildId newStackId dragged
                                      target g in
  ttype target = TargetLoose ->
  findStackById dragged (tableCards g) = Some s ->
  findLooseById getCardId (tcardId target) (tableCards g) = Some c ->
  Permutation (tableCards g) (TStack s :: Loose c :: rest) ->
  forallb (fun e => stackIdIsNot (stackId s) e
                    && negb (bool_decide
                               (getCardId e = getCardId (Loose c))))
          rest = true ->
  out.2 = None
  /\ currentPlayer out.1 = currentPlayer g
  /\ playerHands out.1 = playerHands g
  /\ playerCaptures out.1 = playerCaptures g
  /\ last (tableCards out.1)
     = Some (TStack (mkStack newStackId (tag SrcTable c :: scards s)
                             (currentPlayer g)))
  /\ Permutation (tableCards out.1)
       (rest ++ [TStack (mkStack newStackId (tag SrcTable c :: scards s)
                                 (currentPlayer g))])
  /\ Permutation (map face (flat_map entityCards (tableCards out.1)))
                 (map face (flat_map entityCards (tableCards g))).
Proof.
  intros out Htype Hstack Hcard Htable Hrest. subst out.
  unfold handleTemporaryStackDrop. rewrite Htype, Hstack, Hcard.
  cbn [fst snd tableCards currentPlayer playerHands playerCaptures setTable].
  split; [reflexivity|]. split; [reflexivity|]. split; [reflexivity|].
  split; [reflexivity|]. split; [apply last_snoc|].
  assert (Permutation
            (List.filter
               (fun e => stackIdIsNot (stackId s) e
                         && negb (bool_decide
                                    (getCardId e = getCardId (Loose c))))
               (tableCards g))
            rest) as Hleft.
  { rewrite (Permutation_filter _ _ _ Htable). cbn [List.filter].
    cbn [stackIdIsNot]. rewrite Nat.eqb_refl. cbn [negb andb].
    rewrite (bool_decide_eq_true_2 _ eq_refl). cbn [negb andb].
    rewrite (filter_all _ _ Hrest). reflexivity. }
  split; [rewrite Hleft; reflexivity|].
  rewrite flat_map_app, (Permutation_flat_map _ Hleft).
  rewrite (Permutation_flat_map _ Htable).
  cbn [flat_map entityCards scards]. rewrite app_nil_r, !map_app.
  cbn [map app]. rewrite face_tag. solve_Permutation.
Qed.

(** X25 with [fiveStack] dropped on a loose king. *)
Lemma X25_stack_dropped_on_card_witness :
  let g := setTable [TStack fiveStack; Loose (card RK Hearts)]
                    fiveStackState in
  last (tableCards
          (handleTemporaryStackDrop sampleCardId 3 9 (Some 7)
             (mkTarget TargetLoose (Some (Some (RK, Hearts))) None None)
             g).1)
  = Some (TStack (mkStack 9 (tag SrcTable (card RK Hearts)
                              :: scards fiveStack) 0)).
Proof.
  intros g.
  exact (proj1 (proj2 (proj2 (proj2 (proj2
           (X25_stack_dropped_on_card sampleCardId 3 9 (Some 7)
              (mkTarget TargetLoose (Some (Some (RK, Hearts))) None None)
              g fiveStack (card RK Hearts) []
              eq_refl eq_refl eq_refl (Permutation_refl _) eq_refl)))))).
Defined.

(** X26.  The capture of a staging stack of table cards with a card of the
    hand.  When [validateComplexCapture] allows it (every card of the stack
    is tagged [table] and the values add up to that of the capturing card)
    and the player owns no build, [handleCapture] called with the stack as
    the selected item takes the stack off the table and puts its cards with
    the capturing card on top as the last capture group of the player; the
    hands are left as they were, so that a capturing card that was in the
    hand is still there; the turn passes. *)
Theorem X26_capture_of_table_stack (newBuildId : nat) (g : GameState)
    (c : Card) (stack : TemporaryStack) :
  let me := currentPlayer g in
  let g' := handleCapture newBuildId g (mkDragged c SrcHand) [TStack stack]
                          None in
  validateComplexCapture (scards stack) c = CaptureAllowed ->
  findBuildOf me (tableCards g) = None ->
  me < length (playerCaptures g) ->
  calculateCardSum (scards stack) = rankValue (rank c)
  /\ playerHands g' = playerHands g
  /\ tableCards g'
     = List.filter (stackIdIsNot (stackId stack)) (tableCards g)
  /\ capturesOf (playerCaptures g') me
     = capturesOf (playerCaptures g) me ++ [scards stack ++ [c]]
  /\ (In c (handOf (playerHands g) me) ->
      In c (handOf (playerHands g') me)
      /\ In c (concat (capturesOf (playerCaptures g') me)))
  /\ currentPlayer g' = (me + 1) mod 2.
Proof.
  intros me g' Hvalid Hnobuild Hme.
  unfold validateComplexCapture in Hvalid. cbv zeta in Hvalid.
  destruct (forallb (hasSource SrcTable) (scards stack)) eqn:Htable;
    [|discriminate].
  cbn [negb] in Hvalid.
  destruct (calculateCardSum (scards stack) =? rankValue (rank c)) eqn:Hsum;
    [|discriminate].
  apply Nat.eqb_eq in Hsum. split; [exact Hsum|].
  assert (List.filter (fun x => negb (hasSource SrcHand x && sameCard x c))
                      (scards stack) = scards stack) as Hkept.
  { apply filter_all, forallb_forall. intros x Hx.
    rewrite forallb_forall in Htable. specialize (Htable x Hx).
    unfold hasSource in *. apply bool_decide_eq_true in Htable.
    rewrite bool_decide_eq_false_2 by congruence. reflexivity. }
  assert (g' = nextPlayer
                 (setLastCapturer (Some me)
                    (setCaptures
                       (<[me := capturesOf (playerCaptures g) me
                                  ++ [scards stack ++ [c]]]>
                          (playerCaptures g))
                       (setTable
                          (List.filter (stackIdIsNot (stackId stack))
                                       (tableCards g))
                          (setHands (playerHands g) g))))) as ->.
  { subst g'. unfold handleCapture, implicitAddToBuild. fold me.
    rewrite Hnobuild. unfold captureProper, createCaptureStack.
    cbn [dcard dsource existsb isStack orb flat_map entityCards].
    rewrite (bool_decide_eq_false_2 (SrcHand = SrcTable)) by discriminate.
    rewrite (bool_decide_eq_true_2 (SrcHand = SrcHand)) by reflexivity.
    cbn [negb]. rewrite app_nil_r, Hkept. fold me. cbn [app].
    f_equal. f_equal. f_equal. f_equal.
    apply filter_ext. intros [x|b|s]; cbn; try reflexivity.
    rewrite orb_false_r. reflexivity. }
  cbn [playerHands tableCards playerCaptures currentPlayer nextPlayer
       setCurrentPlayer setLastCapturer setCaptures setTable setHands].
  rewrite capturesOf_insert_eq by exact Hme.
  split; [reflexivity|]. split; [reflexivity|]. split; [reflexivity|].
  split; [|reflexivity].
  intros Hin. split; [exact Hin|].
  rewrite concat_app. apply in_or_app. right. cbn [concat].
  rewrite app_nil_r. apply in_or_app. right. left. reflexivity.
Qed.

(** X26 on [eightStackState]: the 8 of diamonds captures the stack of a 5
    and a 3 and stays in the hand. *)
Lemma X26_capture_of_table_stack_witness :
  playerHands (handleCapture 0 eightStackState
                 (mkDragged (card R8 Diamonds) SrcHand)
                 [TStack eightStack] None)
  = playerHands eightStackState.
Proof.
  exact (proj1 (proj2
           (X26_capture_of_table_stack 0 eightStackState (card R8 Diamonds)
              eightStack eq_refl eq_refl ltac:(cbn; lia)))).
Defined.

Section Offers.

Lemma existsb_filter {A : Type} (f q : A -> bool) (l : list A) :
  existsb f (List.filter q l) = existsb (fun x => f x && q x) l.
Proof.
  induction l as [|x l IH]; [reflexivity|].
  cbn. destruct (q x); cbn; rewrite IH, ?andb_true_r, ?andb_false_r;
    reflexivity.
Qed.

Lemma canCreateBuild_holdsOther (hand : list Card) (c : Card) (v : nat) :
  canCreateBuild hand c v = holdsOther hand c v.
Proof. reflexivity. Qed.

(** What [validateBuild] answers to a player without a build who holds the
    card to capture with. *)
Lemma validateBuild_offered (hand : list Card) (c : Card) (v : nat)
    (table : list TableEntity) (p : nat) :
  hasActiveBuild table p = false ->
  holdsOther hand c v = true ->
  validateBuild hand c v table p = Valid None
  \/ validateBuild hand c v table p = Invalid (OpponentHasSameBuild v).
Proof.
  intros Hnone Hheld. unfold validateBuild. rewrite Hnone, Hheld.
  cbn [negb]. destruct (existsb _ table); auto.
Qed.

End Offers.

(** X27.  What [generatePossibleActions] offers to the player
    [playerIndex] (given as [playerIndex + 1]) for a card dropped on a loose
    card.  A capture is offered only for two cards of the same value.  A
    build is offered only to a player without a build who holds another
    card of the value of the build, so that [canCreateBuild] holds and
    [validateBuild] can refuse it only because the opponent has a build of
    that value; its value is the common value of the two cards, or their
    sum when this is at most 10, and then the two cards are given as the
    bigger and the smaller one.  Base builds are offered only to a player
    without a build, for two cards of different values. *)
Theorem X27_offered_actions
    (findBaseBuilds : Card -> Card -> list TableEntity -> list (list Card))
    (draggedItem : DraggedItem) (looseCard : Card) (hand : list Card)
    (table : list TableEntity) (caps : list (list (list Card)))
    (playerIndex : nat) (action : ActionOption) :
  let played := dcard draggedItem in
  In action (generatePossibleActions findBaseBuilds draggedItem looseCard hand
                                     table caps (S playerIndex)) ->
  match action with
  | ActCapture item target =>
      item = draggedItem /\ target = looseCard
      /\ rankValue (rank played) = rankValue (rank looseCard)
  | ActBuild item target V bigger smaller =>
      item = draggedItem /\ target = looseCard
      /\ hasActiveBuild table playerIndex = false
      /\ canCreateBuild hand played V = true
      /\ holdsCaptureCard hand played V
      /\ (validateBuild hand played V table playerIndex = Valid None
          \/ validateBuild hand played V table playerIndex
             = Invalid (OpponentHasSameBuild V))
      /\ (V = rankValue (rank played)
          /\ V = rankValue (rank looseCard)
          /\ bigger = None /\ smaller = None
          \/ V = rankValue (rank played) + rankValue (rank looseCard)
             /\ V <= 10
             /\ exists b s : Card,
                  bigger = Some b /\ smaller = Some s
                  /\ Permutation [b; s] [played; looseCard]
                  /\ rankValue (rank s) <= rankValue (rank b))
  | ActBaseBuild item base others =>
      item = draggedItem /\ base = looseCard
      /\ hasActiveBuild table playerIndex = false
      /\ rankValue (rank played) <> rankValue (rank looseCard)
      /\ In others (findBaseBuilds played looseCard table)
  end.
Proof.
  intros played Hin. unfold generatePossibleActions in Hin.
  fold played in Hin. cbv zeta in Hin.
  rewrite !existsb_filter in Hin.
  rewrite <- hasActiveBuild_existsb in Hin.
  assert (forall V,
             existsb (fun c => (rankValue (rank c) =? V) && otherCard c played)
                     hand = true ->
             hasActiveBuild table playerIndex = false ->
             canCreateBuild hand played V = true
             /\ holdsCaptureCard hand played V
             /\ (validateBuild hand played V table playerIndex = Valid None
                 \/ validateBuild hand played V table playerIndex
                    = Invalid (OpponentHasSameBuild V))) as Hbuild.
  { intros V Hheld Hnone. split; [exact Hheld|].
    split; [apply holdsOther_spec, Hheld|].
    apply validateBuild_offered; assumption. }
  apply in_app_or in Hin as [Hin | Hin].
  { destruct (rankValue (rank played) =? rankValue (rank looseCard)) eqn:Hsame;
      [|destruct Hin].
    destruct Hin as [<- | []]. apply Nat.eqb_eq in Hsame. auto. }
  apply in_app_or in Hin as [Hin | Hin].
  { destruct (hasActiveBuild table playerIndex) eqn:Hnone; [destruct Hin|].
    cbn [negb andb] in Hin.
    destruct (rankValue (rank played) =? rankValue (rank looseCard)) eqn:Hsame;
      [|destruct Hin].
    destruct (existsb _ hand) eqn:Hheld; [|destruct Hin].
    destruct Hin as [<- | []]. apply Nat.eqb_eq in Hsame.
    destruct (Hbuild _ Hheld eq_refl) as (Hcan & Hcard & Hvalid).
    split; [reflexivity|]. split; [reflexivity|]. split; [reflexivity|].
    split; [exact Hcan|]. split; [exact Hcard|]. split; [exact Hvalid|].
    left. auto. }
  apply in_app_or in Hin as [Hin | Hin].
  { destruct (hasActiveBuild table playerIndex) eqn:Hnone; [destruct Hin|].
    cbn [negb] in Hin.
    destruct (rankValue (rank played) + rankValue (rank looseCard) <=? 10)
      eqn:Hten; [|destruct Hin].
    destruct (existsb _ hand) eqn:Hheld; [|destruct Hin].
    destruct Hin as [<- | []]. apply Nat.leb_le in Hten.
    destruct (Hbuild _ Hheld eq_refl) as (Hcan & Hcard & Hvalid).
    split; [reflexivity|]. split; [reflexivity|]. split; [reflexivity|].
    split; [exact Hcan|]. split; [exact Hcard|]. split; [exact Hvalid|].
    right. split; [reflexivity|]. split; [exact Hten|].
    destruct (rankValue (rank looseCard) <? rankValue (rank played)) eqn:Hlt.
    - apply Nat.ltb_lt in Hlt. exists played, looseCard.
      split; [reflexivity|]. split; [reflexivity|].
      split; [reflexivity | lia].
    - apply Nat.ltb_ge in Hlt. exists looseCard, played.
      split; [reflexivity|]. split; [reflexivity|].
      split; [apply perm_swap | exact Hlt]. }
  destruct (hasActiveBuild table playerIndex) eqn:Hnone; [destruct Hin|].
  cbn [negb andb] in Hin.
  destruct (rankValue (rank played) =? rankValue (rank looseCard)) eqn:Hsame;
    [destruct Hin|].
  cbn [negb] in Hin. apply in_map_iff in Hin as (others & <- & Hin).
  apply Nat.eqb_neq in Hsame. auto.
Qed.

(** X27 on the hand and table of [buildState]: for the 5 of hearts dropped
    on the loose 3 of spades a build of 8 is offered, with the 5 as the
    bigger card, and [validateBuild] accepts it. *)
Lemma X27_offered_actions_witness :
  validateBuild (handOf (playerHands buildState) 0) (card R5 Hearts) 8
                (tableCards buildState) 0 = Valid None
  \/ validateBuild (handOf (playerHands buildState) 0) (card R5 Hearts) 8
                   (tableCards buildState) 0
     = Invalid (OpponentHasSameBuild 8).
Proof.
  exact (proj1 (proj2 (proj2 (proj2 (proj2 (proj2
           (X27_offered_actions (fun _ _ _ => [])
              (mkDragged (card R5 Hearts) SrcHand) (card R3 Spades)
              (handOf (playerHands buildState) 0) (tableCards buildState)
              (playerCaptures buildState) 0
              (ActBuild (mkDragged (card R5 Hearts) SrcHand) (card R3 Spades)
                        8 (Some (card R5 Hearts)) (Some (card R3 Spades)))
              (or_introl eq_refl)))))))).
Defined.

(** X28.  [endGame] only scores: it leaves the player to move, the hands,
    the table, the captures, the deck and the round as they were and marks
    the game as over; called again on its own answer it changes nothing,
    and the scores it stores are those of a state without cards when
    nothing was captured. *)
Theorem X28_end_game_only_scores (g : GameState) :
  let g' := endGame g in
  currentPlayer g' = currentPlayer g
  /\ playerHands g' = playerHands g
  /\ tableCards g' = tableCards g
  /\ playerCaptures g' = playerCaptures g
  /\ deck g' = deck g
  /\ round g' = round g
  /\ gameOver g' = true
  /\ allCards g' = allCards g
  /\ endGame g' = g'
  /\ (concat (capturesOf (playerCaptures g) 0) = [] ->
      concat (capturesOf (playerCaptures g) 1) = [] ->
      scores g' = [0; 0] /\ winner g' = None).
Proof.
  intros g'. subst g'. unfold endGame.
  pose proof (calculateScores_scores (playerCaptures g)) as Hs.
  pose proof (calculateScores_winner (playerCaptures g)) as Hw.
  destruct (calculateScores (playerCaptures g)) as [[sc det] w] eqn:Hcalc.
  cbn [fst snd] in Hs, Hw.
  cbn [currentPlayer playerHands tableCards playerCaptures deck round
       gameOver setFinal scores winner].
  repeat (split; [reflexivity|]). split.
  - unfold setFinal at 1. cbn [playerCaptures]. rewrite Hcalc. reflexivity.
  - intros H0 H1. rewrite Hw, Hs, H0, H1. split; reflexivity.
Qed.

(** X28 on a state without captures. *)
Lemma X28_end_game_only_scores_witness :
  scores (endGame trailState) = [0; 0] /\ winner (endGame trailState) = None.
Proof.
  exact (proj2 (proj2 (proj2 (proj2 (proj2 (proj2 (proj2 (proj2 (proj2
           (X28_end_game_only_scores trailState)))))))))
           eq_refl eq_refl).
Defined.

(** X29.  [handleStageOpponentCard] does not look for the card it is given:
    it takes the top card of the last capture group of the opponent,
    whatever it is, and puts the given card in the new stack.  The captures
    after the call are the same for any two cards; and when the player has
    no staging stack and the opponent has captured nothing, the captures
    stay as they are while the given card is on the table in a new stack. *)
Theorem X29_borrowed_card_not_checked (newStackId : nat) (g : GameState)
    (c : Card) :
  let me := currentPlayer g in
  let g' := handleStageOpponentCard newStackId g c in
  (forall c' : Card,
      playerCaptures (handleStageOpponentCard newStackId g c')
      = playerCaptures g')
  /\ (existsb (isStackOf me) (tableCards g) = false ->
      capturesOf (playerCaptures g) (1 - me) = [] ->
      tableCards g'
      = tableCards g ++ [TStack (mkStack newStackId
                                   [tag SrcOpponentCapture c] me)]
      /\ concat (concat (playerCaptures g'))
         = concat (concat (playerCaptures g))
      /\ playerHands g' = playerHands g
      /\ length (allCards g') = S (length (allCards g))).
Proof.
  intros me g'. subst g'. unfold handleStageOpponentCard. fold me. split.
  - intros c'. destruct (existsb _ (tableCards g)); reflexivity.
  - intros Hnone Hempty. rewrite Hnone, Hempty.
    assert (<[1 - me := []]> (playerCaptures g) = playerCaptures g) as Hsame.
    { unfold capturesOf in Hempty.
      destruct (playerCaptures g !! (1 - me)) as [caps|] eqn:Hcaps.
      - cbn in Hempty. subst caps. apply list_insert_id, Hcaps.
      - apply list_insert_ge, lookup_ge_None, Hcaps. }
    change (List.filter (fun group : list Card => 0 <? length group)
              (imap (fun index group =>
                       if index =? length (@nil (list Card)) - 1
                       then dropLast group else group) []))
      with (@nil (list Card)).
    rewrite Hsame.
    split; [reflexivity|]. split; [reflexivity|]. split; [reflexivity|].
    unfold allCards.
    cbn [playerHands tableCards playerCaptures deck setTable setCaptures].
    rewrite flat_map_app. cbn [flat_map entityCards scards].
    rewrite !length_map, !length_app. cbn [length]. lia.
Qed.

(** X29 on [trailState], where player 1 has captured nothing: player 0
    "borrows" the king of hearts, and the game has one card more. *)
Lemma X29_borrowed_card_not_checked_witness :
  length (allCards (handleStageOpponentCard 9 trailState (card RK Hearts)))
  = S (length (allCards trailState)).
Proof.
  exact (proj2 (proj2 (proj2
           (proj2 (X29_borrowed_card_not_checked 9 trailState
                     (card RK Hearts)) eq_refl eq_refl)))).
Defined.
